(** * expo-cli: build-job preparation and the eject command

    A shallow embedding of the two entry points of the repository:

    - [PrepareJob.prepareJob]  (build job preparation, platform x build type),
    - [Eject.ejectAsync]       (commands/eject/Eject.js).

    Both are asynchronous JavaScript procedures whose work is a sequence of
    calls into external packages.  A run is modelled as a pair: the trace of
    the external interactions it performed, in program order, and the way it
    ended (a returned value, a thrown error, or a process exit).  The answers
    of the external packages are fields of an environment record. *)

From Stdlib Require Import String Ascii List ZArith Lia Bool Arith.
From Stdlib Require Import DecimalString.
Import ListNotations.
Open Scope string_scope.
Open Scope list_scope.
Set Warnings "-register-all".

(** String concatenation, as the + of JavaScript strings and the holes of
    template literals. *)
Infix "^^" := String.append (at level 60, right associativity).

(** ** Errors and outcomes *)

(** A thrown JavaScript error object: its class name and its message. *)
Inductive js_error : Type :=
| JsError (name message : string).

(** [new Error(message)] *)
Definition Error (message : string) : js_error := JsError "Error" message.
Definition TypeError (message : string) : js_error := JsError "TypeError" message.
Definition ReferenceError (message : string) : js_error :=
  JsError "ReferenceError" message.

Definition error_message (e : js_error) : string :=
  match e with JsError _ m => m end.

(** How a procedure ends.  [Exit] is [process.exit(code)]: it is not an
    exception and no [catch] block sees it. *)
Inductive outcome (A : Type) : Type :=
| Ret (a : A)
| Throw (e : js_error)
| Exit (code : Z).
Arguments Ret {A} a.
Arguments Throw {A} e.
Arguments Exit {A} code.

(** The answer of an external call: a value or a thrown error. *)
Definition throws (A : Type) : Type := js_error + A.
Definition ok {A} (a : A) : throws A := inr a.
Definition fails {A} (e : js_error) : throws A := inl e.

(** ** The trace monad *)

Module Run.
Section Run.
Variable event : Type.

Definition M (A : Type) : Type := (list event * outcome A)%type.

Definition trace {A} (m : M A) : list event := fst m.
Definition result {A} (m : M A) : outcome A := snd m.

Definition ret {A} (a : A) : M A := ([], Ret a).
Definition throw {A} (e : js_error) : M A := ([], Throw e).
Definition exit {A} (code : Z) : M A := ([], Exit code).
Definition emit (ev : event) : M unit := ([ev], Ret tt).

Definition bind {A B} (m : M A) (f : A -> M B) : M B :=
  match m with
  | (t, Ret a) => let (t', r) := f a in (t ++ t', r)
  | (t, Throw e) => (t, Throw e)
  | (t, Exit c) => (t, Exit c)
  end.

(** An external call: the call is recorded, then its answer is returned
    or rethrown. *)
Definition call {A} (ev : event) (answer : throws A) : M A :=
  match answer with
  | inr a => ([ev], Ret a)
  | inl e => ([ev], Throw e)
  end.

(** [try { body } catch (e) { handler e }] *)
Definition try_catch {A} (body : M A) (handler : js_error -> M A) : M A :=
  match body with
  | (t, Throw e) => let (t', r) := handler e in (t ++ t', r)
  | other => other
  end.

(** Every interaction of a run satisfies [P]. *)
Definition every (P : event -> bool) {A} (m : M A) : Prop :=
  forallb P (trace m) = true.

(** A run that does not end the process. *)
Definition stays {A} (m : M A) : Prop :=
  forall code, result m <> Exit code.

(** Every run that returns has made an interaction satisfying [P]. *)
Definition must (P : event -> bool) {A} (m : M A) : Prop :=
  forall a, result m = Ret a -> existsb P (trace m) = true.

(** A run of at most [n] interactions. *)
Definition within (n : nat) {A} (m : M A) : Prop :=
  length (trace m) <= n.

End Run.

Arguments ret {event A} a.
Arguments every {event} P {A} m.
Arguments stays {event A} m.
Arguments must {event} P {A} m.
Arguments within {event} n {A} m.
Arguments throw {event A} e.
Arguments exit {event A} code.
Arguments emit {event} ev.
Arguments bind {event A B} m f.
Arguments call {event A} ev answer.
Arguments try_catch {event A} body handler.
Arguments trace {event A} m.
Arguments result {event A} m.
End Run.

Declare Scope run_scope.
Delimit Scope run_scope with run.
Notation "x <- m ;; k" := (Run.bind m (fun x => k))
  (at level 61, m at next level, right associativity) : run_scope.
Notation "' pat <- m ;; k" := (Run.bind m (fun x => match x with pat => k end))
  (at level 61, pat pattern, m at next level, right associativity) : run_scope.
Notation "m ;; k" := (Run.bind m (fun _ => k))
  (at level 61, right associativity) : run_scope.
Open Scope run_scope.

(** * Build job preparation *)

Module PrepareJob.

(** The enumerations of @expo/build-tools.  The third constructor of each
    stands for any run-time value equal to neither member, which is what
    the default branches of the switch statements receive. *)
Inductive Platform : Type :=
| Android
| iOS
| OtherPlatform (tag : string).

Inductive BuildType : Type :=
| Generic
| Managed
| OtherBuildType (tag : string).

Record Options : Type := { platform : Platform }.

Inductive preparer : Type :=
| AndroidGenericJob
| AndroidManagedJob
| iOSGenericJob
| iOSManagedJob.

Section WithTools.
(** The parsed build configuration and the job description are values of
    the external package; only the type field of the configuration is
    inspected here. *)
Variables Config Job : Type.

(** What the external package answers. *)
Record Tools : Type := {
  (* BuildConfig.read(projectDir) *)
  BuildConfig_read : string -> throws Config;
  (* turtleJson.type *)
  config_type : Config -> BuildType;
  (* BuildConfig.prepare...Job(turtleJson, projectUrl, projectDir) *)
  prepareAndroidGenericJob : Config -> string -> string -> throws Job;
  prepareAndroidManagedJob : Config -> string -> string -> throws Job;
  prepareiOSGenericJob : Config -> string -> string -> throws Job;
  prepareiOSManagedJob : Config -> string -> string -> throws Job;
  (* JobSchema.validate(job) = { value, error } *)
  JobSchema_validate : Job -> Job * option js_error
}.

(** External interactions of this module, in the order of the source. *)
Inductive event : Type :=
| EvRead (projectDir : string)
| EvPrepare (which : preparer) (turtleJson : Config)
            (projectUrl projectDir : string)
| EvConsoleLog (job : Job)
| EvValidate (job : Job).

Definition M := Run.M event.

Variable tools : Tools.

Definition validateJob (job : Job) : M Job :=
  Run.emit (EvConsoleLog job) ;;
  '(value, error) <- Run.call (EvValidate job)
                              (ok (JobSchema_validate tools job)) ;;
  match error with
  | Some e => Run.throw e
  | None => Run.ret value
  end.

Definition prepareJob (options : Options) (projectUrl projectDir : string)
  : M Job :=
  turtleJson <- Run.call (EvRead projectDir)
                         (BuildConfig_read tools projectDir) ;;
  match platform options with
  | Android =>
      match config_type tools turtleJson with
      | Generic =>
          job <- Run.call
                   (EvPrepare AndroidGenericJob turtleJson projectUrl projectDir)
                   (prepareAndroidGenericJob tools turtleJson projectUrl projectDir) ;;
          validateJob job
      | Managed =>
          job <- Run.call
                   (EvPrepare AndroidManagedJob turtleJson projectUrl projectDir)
                   (prepareAndroidManagedJob tools turtleJson projectUrl projectDir) ;;
          validateJob job
      | OtherBuildType _ => Run.throw (Error "Unsupported build type")
      end
  | iOS =>
      match config_type tools turtleJson with
      | Generic =>
          job <- Run.call
                   (EvPrepare iOSGenericJob turtleJson projectUrl projectDir)
                   (prepareiOSGenericJob tools turtleJson projectUrl projectDir) ;;
          validateJob job
      | Managed =>
          job <- Run.call
                   (EvPrepare iOSManagedJob turtleJson projectUrl projectDir)
                   (prepareiOSManagedJob tools turtleJson projectUrl projectDir) ;;
          validateJob job
      | OtherBuildType _ => Run.throw (Error "Unsupported build type")
      end
  | OtherPlatform _ => Run.throw (Error "Unsupported platform")
  end.

(** The preparation function that matches a platform and a build type. *)
Definition matching_preparer (p : Platform) (t : BuildType)
  : option preparer :=
  match p, t with
  | Android, Generic => Some AndroidGenericJob
  | Android, Managed => Some AndroidManagedJob
  | iOS, Generic => Some iOSGenericJob
  | iOS, Managed => Some iOSManagedJob
  | _, _ => None
  end.

Definition run_preparer (which : preparer) (cfg : Config)
           (projectUrl projectDir : string) : throws Job :=
  match which with
  | AndroidGenericJob => prepareAndroidGenericJob tools cfg projectUrl projectDir
  | AndroidManagedJob => prepareAndroidManagedJob tools cfg projectUrl projectDir
  | iOSGenericJob => prepareiOSGenericJob tools cfg projectUrl projectDir
  | iOSManagedJob => prepareiOSManagedJob tools cfg projectUrl projectDir
  end.

End WithTools.

Arguments BuildConfig_read {Config Job} t _.
Arguments config_type {Config Job} t _.
Arguments prepareAndroidGenericJob {Config Job} t _ _ _.
Arguments prepareAndroidManagedJob {Config Job} t _ _ _.
Arguments prepareiOSGenericJob {Config Job} t _ _ _.
Arguments prepareiOSManagedJob {Config Job} t _ _ _.
Arguments JobSchema_validate {Config Job} t _.
Arguments EvRead {Config Job} projectDir.
Arguments EvPrepare {Config Job} which turtleJson projectUrl projectDir.
Arguments EvConsoleLog {Config Job} job.
Arguments EvValidate {Config Job} job.
Arguments validateJob {Config Job} tools job.
Arguments prepareJob {Config Job} tools options projectUrl projectDir.
Arguments run_preparer {Config Job} tools which cfg projectUrl projectDir.

End PrepareJob.

(** * The eject command (commands/eject/Eject.js) *)

Module Eject.

(** ** JavaScript values

    Values as they come out of JSON.parse, plus [undefined].  Numbers are
    integers here.  Objects keep their properties in insertion order, the
    order JSON.stringify prints them in.  An array carries the named
    properties that an assignment may attach to it.  Only own properties
    are modelled, not the prototype chain. *)
Inductive jsval : Type :=
| JUndefined
| JNull
| JBool (b : bool)
| JNum (n : Z)
| JStr (s : string)
| JArr (items : list jsval) (named : list (string * jsval))
| JObj (props : list (string * jsval)).

(** ToBoolean *)
Definition truthy (v : jsval) : bool :=
  match v with
  | JUndefined | JNull => false
  | JBool b => b
  | JNum n => negb (n =? 0)%Z
  | JStr EmptyString => false
  | JStr (String _ _) => true
  | JArr _ _ | JObj _ => true
  end.

Definition falsy (v : jsval) : bool := negb (truthy v).

(** A field that is missing, or present with the empty string. *)
Definition absent_or_empty (v : jsval) : bool :=
  match v with
  | JUndefined | JStr EmptyString => true
  | _ => false
  end.

Definition string_or_absent (v : jsval) : bool :=
  match v with
  | JUndefined | JStr _ => true
  | _ => false
  end.

(** [v === s] for a string literal [s] *)
Definition is_str (v : jsval) (s : string) : bool :=
  match v with
  | JStr s' => String.eqb s' s
  | _ => false
  end.

(** ToString, as performed by template literals, by + on strings and by
    computed property keys. *)
Fixpoint to_string (v : jsval) : string :=
  match v with
  | JUndefined => "undefined"
  | JNull => "null"
  | JBool true => "true"
  | JBool false => "false"
  | JNum n => NilZero.string_of_int (Z.to_int n)
  | JStr s => s
  | JArr items _ =>
      (fix join (l : list jsval) : string :=
         match l with
         | [] => EmptyString
         | x :: r =>
             let sx := match x with
                       | JUndefined | JNull => EmptyString
                       | _ => to_string x
                       end in
             match r with
             | [] => sx
             | _ :: _ => sx ^^ "," ^^ join r
             end
         end) items
  | JObj _ => "[object Object]"
  end.

Fixpoint lookup (k : string) (props : list (string * jsval)) : jsval :=
  match props with
  | [] => JUndefined
  | (k', v) :: rest => if String.eqb k' k then v else lookup k rest
  end.

(** Assignment to a property: an existing key keeps its place, a new key
    goes last. *)
Fixpoint assign (k : string) (v : jsval) (props : list (string * jsval))
  : list (string * jsval) :=
  match props with
  | [] => [(k, v)]
  | (k', v') :: rest =>
      if String.eqb k' k then (k', v) :: rest
      else (k', v') :: assign k v rest
  end.

Fixpoint remove (k : string) (props : list (string * jsval))
  : list (string * jsval) :=
  match props with
  | [] => []
  | (k', v') :: rest =>
      if String.eqb k' k then rest else (k', v') :: remove k rest
  end.

(** [o.k] or [o[k]] *)
Definition get_prop (o : jsval) (k : string) : throws jsval :=
  match o with
  | JUndefined =>
      fails (TypeError ("Cannot read property '" ^^ k ^^ "' of undefined"))
  | JNull =>
      fails (TypeError ("Cannot read property '" ^^ k ^^ "' of null"))
  | JObj props => ok (lookup k props)
  | JArr _ named => ok (lookup k named)
  | JBool _ | JNum _ | JStr _ => ok JUndefined
  end.

(** [o.k = v].  The module is an ES module, hence strict code: assigning
    through a primitive throws. *)
Definition set_prop (o : jsval) (k : string) (v : jsval) : throws jsval :=
  match o with
  | JUndefined =>
      fails (TypeError ("Cannot set property '" ^^ k ^^ "' of undefined"))
  | JNull =>
      fails (TypeError ("Cannot set property '" ^^ k ^^ "' of null"))
  | JObj props => ok (JObj (assign k v props))
  | JArr items named => ok (JArr items (assign k v named))
  | JBool _ | JNum _ | JStr _ =>
      fails (TypeError ("Cannot create property '" ^^ k ^^ "'"))
  end.

(** [delete o.k] *)
Definition delete_prop (o : jsval) (k : string) : throws jsval :=
  match o with
  | JUndefined | JNull =>
      fails (TypeError "Cannot convert undefined or null to object")
  | JObj props => ok (JObj (remove k props))
  | JArr items named => ok (JArr items (remove k named))
  | JBool _ | JNum _ | JStr _ => ok o
  end.

Definition and_then {A B} (x : throws A) (f : A -> throws B) : throws B :=
  match x with
  | inl e => inl e
  | inr a => f a
  end.

(** [o.k.k2 = v] and [delete o.k.k2]: the inner object is reached through
    [o.k] and changed in place. *)
Definition modify_prop (o : jsval) (k : string)
           (f : jsval -> throws jsval) : throws jsval :=
  and_then (get_prop o k) (fun inner =>
  and_then (f inner) (fun inner' => set_prop o k inner')).

(** ** stripDashes *)

(** Strings are sequences of bytes here.  The space and the hyphen are
    single bytes that occur in no multi-byte character of UTF-8, so visiting
    a string byte by byte removes what the for-of loop removes character by
    character. *)

(** The test of the loop body: [c !== ' ' && c !== '-']. *)
Definition kept (c : ascii) : bool :=
  negb (Ascii.eqb c " "%char) && negb (Ascii.eqb c "-"%char).

(** The for-of loop, with the accumulator [ret] of the source. *)
Fixpoint stripDashes_loop (s : string) (ret : string) : string :=
  match s with
  | EmptyString => ret
  | String c rest =>
      if kept c
      then stripDashes_loop rest (ret ^^ String c EmptyString)
      else stripDashes_loop rest ret
  end.

Definition stripDashes (s : string) : string :=
  stripDashes_loop s EmptyString.

(** The same loop as a machine, one iteration per step: the characters not
    yet visited and the accumulator. *)
Definition loop_state : Type := (string * string)%type.

Definition loop_step (st : loop_state) : loop_state + string :=
  match st with
  | (EmptyString, ret) => inr ret
  | (String c rest, ret) =>
      inl (rest, if kept c then ret ^^ String c EmptyString else ret)
  end.

(** [loop_run fuel st]: the result and the number of iterations made, or
    [None] when the fuel does not reach the end of the loop. *)
Fixpoint loop_run (fuel : nat) (st : loop_state) : option (string * nat) :=
  match loop_step st with
  | inr ret => Some (ret, 0)
  | inl st' =>
      match fuel with
      | O => None
      | S fuel' =>
          match loop_run fuel' st' with
          | Some (ret, n) => Some (ret, S n)
          | None => None
          end
      end
  end.

(** Modelled on the words of the specification: the characters of [s]
    other than the hyphen and the space, in their order. *)
Definition without_dashes_and_spaces (s : string) : list ascii :=
  filter (fun c => negb (Ascii.eqb c "-"%char || Ascii.eqb c " "%char))
         (list_ascii_of_string s).

(** stripDashes applied to a run-time value.  The for-of loop needs an
    iterable: a string is visited by character, an array by element,
    anything else is a TypeError. *)
Definition stripDashes_value (v : jsval) : throws string :=
  match v with
  | JStr s => ok (stripDashes s)
  | JArr items _ =>
      ok (fold_left
            (fun ret c =>
               if negb (is_str c " ") && negb (is_str c "-")
               then ret ^^ to_string c else ret)
            items EmptyString)
  | _ => fails (TypeError "s is not iterable")
  end.

(** ** Console output, prompts, files *)

(** chalk: a message is a sequence of styled segments. *)
Inductive style : Type := Plain | Green | Red | Yellow | Bold.
Definition text : Type := list (style * string).

Definition nl : string := String (ascii_of_nat 10) EmptyString.
Definition dq : string := String (ascii_of_nat 34) EmptyString.

(** The answer of a validate callback: [true] or a message. *)
Inductive verdict : Type :=
| Valid
| Invalid (message : string).

Record choice : Type := {
  c_name : string;
  c_value : string;
  c_short : string
}.

(** The validate callbacks of the source, by the question they guard;
    [run_validator] below gives their bodies. *)
Inductive validator : Type :=
| ValidateDisplayName
| ValidateName.

Record question : Type := {
  q_type : option string;
  q_name : string;
  q_message : string;
  q_default : jsval;
  q_choices : list choice;
  q_validate : option validator
}.

(** What is written to a file: a text, or JSON.stringify(v, null, 2). *)
Inductive content : Type :=
| Text (s : string)
| JsonPretty (v : jsval).

(** The parsed package specifier returned by npm-package-arg. *)
Definition PackageSpec : Type := string.

Record Options : Type := { ejectMethod : jsval }.

(** External interactions, one constructor per external operation of the
    source that touches the console, the terminal, the disk, the network
    or another process. *)
Inductive event : Type :=
| EvGitStatus
| EvLogNested (t : text)
| EvLog (t : text)
| EvPrompt (questions : list question) (nonInteractiveHelp : string)
| EvLogin
| EvDetach (projectRoot : string) (options : Options)
| EvIsUsingYarn (projectRoot : string)
| EvFindConfigFile (projectRoot : string)
| EvProjectReadConfig (projectRoot : string)
| EvConfigReadConfig (projectRoot : string)
| EvReadFile (path : string)
| EvManifest (spec : PackageSpec)
| EvWriteFile (path : string) (data : content)
| EvTmpDir
| EvExtractTemplate (spec : PackageSpec) (dir : string) (appJson : jsval)
| EvCopy (src dst : string)
| EvTmpRemove (dir : string)
| EvVersions
| EvRemove (path : string)
| EvSpawnSync (command : string) (args : list string) (stdio : list string).

(** The operations by which the procedure itself changes files of the
    project or of the machine. *)
Definition mutates (ev : event) : bool :=
  match ev with
  | EvWriteFile _ _ | EvExtractTemplate _ _ _ | EvCopy _ _
  | EvTmpDir | EvTmpRemove _ | EvRemove _ | EvSpawnSync _ _ _
  | EvDetach _ _ => true
  | _ => false
  end.

(** What the outside world answers. *)
Record Env : Type := {
  (* stdout of spawnAsync('git', ['status', '--porcelain']) *)
  git_status : throws string;
  prompt : list question -> string -> throws jsval;
  loginOrRegisterIfLoggedOut : throws unit;
  Detach_detachAsync : string -> Options -> throws unit;
  ConfigUtils_isUsingYarn : string -> bool;
  (* { configPath, configName } *)
  ConfigUtils_findConfigFileAsync : string -> throws (string * string);
  (* { exp, pkg } *)
  ProjectUtils_readConfigJsonAsync : string -> throws (jsval * jsval);
  ConfigUtils_readConfigJsonAsync : string -> throws (jsval * jsval);
  fse_readFile : string -> throws string;
  JSON_parse : string -> throws jsval;
  Versions_gteSdkVersion : jsval -> string -> throws bool;
  (* The identifier semver is used by ejectToBareAsync but the module has
     no import for it, so it is looked up in the global scope when the
     line runs: None is an unbound name, Some major a global object whose
     major method is the given function. *)
  global_semver : option (jsval -> throws N);
  npmPackageArg : string -> throws PackageSpec;
  pacote_manifest : PackageSpec -> throws unit;
  (* process.cwd(), the base of path.resolve *)
  cwd : string;
  fse_writeFile : string -> content -> throws unit;
  (* tmp.dirSync().name *)
  tmp_dirSync : throws string;
  Exp_extractTemplateAppAsync : PackageSpec -> string -> jsval -> throws unit;
  fse_copySync : string -> string -> throws unit;
  tmp_removeCallback : string -> throws unit;
  Versions_versionsAsync : throws jsval;
  fse_remove : string -> throws unit
}.

Definition M := Run.M event.

(** A computation of the language itself (property access, JSON.parse,
    version comparison): nothing is recorded, an error is thrown. *)
Definition lift {A} (x : throws A) : M A :=
  match x with
  | inr a => Run.ret a
  | inl e => Run.throw e
  end.

Definition log (t : text) : M unit := Run.emit (EvLog t).
Definition log_nested (t : text) : M unit := Run.emit (EvLogNested t).
Definition plain (s : string) : text := [(Plain, s)].

Definition EXPO_APP_ENTRY : string := "node_modules/expo/AppEntry.js".

(** path.join and path.resolve on POSIX paths, without normalisation. *)
Definition path_join (a b : string) : string := a ^^ "/" ^^ b.

Section WithEnv.
Variable env : Env.

Definition path_resolve (p : string) : string := path_join (cwd env) p.

(** The validate callbacks of the two naming questions. *)
Definition validate_displayName (s : string) : verdict :=
  if (0 <? String.length s)%nat then Valid
  else Invalid "App display name cannot be empty.".

Definition contains_char (c : ascii) (s : string) : bool :=
  existsb (Ascii.eqb c) (list_ascii_of_string s).

Definition validate_name (s : string) : verdict :=
  if (String.length s =? 0)%nat then Invalid "Project name cannot be empty."
  else if contains_char "-"%char s || contains_char " "%char s
       then Invalid "Project name cannot contain hyphens or spaces."
       else Valid.

Definition run_validator (v : validator) (s : string) : verdict :=
  match v with
  | ValidateDisplayName => validate_displayName s
  | ValidateName => validate_name s
  end.

Definition name_questions (default_displayName default_name : jsval)
  : list question :=
  [ {| q_type := None;
       q_name := "displayName";
       q_message := "What should your app appear as on a user's home screen?";
       q_default := default_displayName;
       q_choices := [];
       q_validate := Some ValidateDisplayName |};
    {| q_type := None;
       q_name := "name";
       q_message := "What should your Android Studio and Xcode projects be called?";
       q_default := default_name;
       q_choices := [];
       q_validate := Some ValidateName |} ].

Definition names_help : string :=
  "Please specify " ^^ dq ^^ "displayName" ^^ dq ^^ " and " ^^ dq ^^ "name"
    ^^ dq ^^ " in app.json.".

(** [configName === 'app.json' ? JSON.parse(await fse.readFile(configPath)) : {}] *)
Definition read_appJson (configPath configName : string) : M jsval :=
  if String.eqb configName "app.json"
  then data <- Run.call (EvReadFile configPath) (fse_readFile env configPath) ;;
       lift (JSON_parse env data)
  else Run.ret (JObj []).

(** The defaults offered by the two questions, evaluated while the
    question list is built:
    [name || exp.name] and
    [pkgJson.name ? stripDashes(pkgJson.name) : undefined]. *)
Definition question_defaults (exp pkgJson name : jsval)
  : throws (jsval * jsval) :=
  and_then (if truthy name then ok name else get_prop exp "name")
    (fun default_displayName =>
  and_then (get_prop pkgJson "name") (fun pkgName =>
  and_then (if truthy pkgName
            then and_then (stripDashes_value pkgName)
                          (fun stripped => ok (JStr stripped))
            else ok JUndefined) (fun default_name =>
  ok (default_displayName, default_name)))).

Definition names_announcement : text :=
  plain "We have a couple of questions to ask you about how you'd like to name your app:".

Definition getAppNamesAsync (projectRoot : string) : M (jsval * jsval) :=
  '(configPath, configName) <-
     Run.call (EvFindConfigFile projectRoot)
              (ConfigUtils_findConfigFileAsync env projectRoot) ;;
  '(exp, pkgJson) <-
     Run.call (EvConfigReadConfig projectRoot)
              (ConfigUtils_readConfigJsonAsync env projectRoot) ;;
  appJson <- read_appJson configPath configName ;;
  displayName <- lift (get_prop appJson "displayName") ;;
  name <- lift (get_prop appJson "name") ;;
  if falsy displayName || falsy name then
    log names_announcement ;;
    '(default_displayName, default_name) <-
      lift (question_defaults exp pkgJson name) ;;
    answers <- Run.call
                 (EvPrompt (name_questions default_displayName default_name)
                           names_help)
                 (prompt env (name_questions default_displayName default_name)
                         names_help) ;;
    displayName' <- lift (get_prop answers "displayName") ;;
    name' <- lift (get_prop answers "name") ;;
    Run.ret (displayName', name')
  else Run.ret (displayName, name).

(** The three reads with which getAppNamesAsync starts. *)
Definition names_reads (projectRoot configPath : string) : list event :=
  [EvFindConfigFile projectRoot; EvConfigReadConfig projectRoot;
   EvReadFile configPath].

(** *** ejectToBareAsync, block by block *)

(** What the validations hand over to the rest of the procedure. *)
Record validated : Type := {
  v_useYarn : bool;
  v_exp : jsval;
  v_pkgJson : jsval;
  v_appJson : jsval;
  v_templateSpec : PackageSpec
}.

(** [semver.major(v)] *)
Definition semver_major (v : jsval) : throws N :=
  match global_semver env with
  | None => fails (ReferenceError "semver is not defined")
  | Some major => major v
  end.

(** Lines 104 to 129: reading the project and the validations. *)
Definition validateProject (projectRoot : string) : M validated :=
  useYarn <- Run.call (EvIsUsingYarn projectRoot)
                      (ok (ConfigUtils_isUsingYarn env projectRoot)) ;;
  '(configPath, configName) <-
     Run.call (EvFindConfigFile projectRoot)
              (ConfigUtils_findConfigFileAsync env projectRoot) ;;
  '(exp, pkgJson) <-
     Run.call (EvProjectReadConfig projectRoot)
              (ProjectUtils_readConfigJsonAsync env projectRoot) ;;
  appJson <- read_appJson configPath configName ;;
  if falsy exp then Run.throw (Error ("Couldn't read " ^^ configName)) else
  if falsy pkgJson then Run.throw (Error "Couldn't read package.json") else
  supported <- lift (Versions_gteSdkVersion env exp "33.0.0") ;;
  if negb supported then
    Run.throw (Error "Ejecting to a bare project is only available for SDK 33 and higher")
  else
  sdkVersion <- lift (get_prop exp "sdkVersion") ;;
  sdkMajorVersionNumber <- lift (semver_major sdkVersion) ;;
  let major := NilZero.string_of_uint (N.to_uint sdkMajorVersionNumber) in
  templateSpec <- lift (npmPackageArg env
                          ("expo-template-bare-minimum@sdk-" ^^ major)) ;;
  Run.try_catch
    (Run.call (EvManifest templateSpec) (pacote_manifest env templateSpec))
    (fun _ => Run.throw (Error
       ("Unable to eject because an eject template for SDK " ^^ major
          ^^ " was not found"))) ;;
  Run.ret {| v_useYarn := useYarn; v_exp := exp; v_pkgJson := pkgJson;
             v_appJson := appJson; v_templateSpec := templateSpec |}.

(** The template specifier of lines 121 and 122, for a project whose
    configuration has been read. *)
Definition template_spec_of (exp : jsval) : throws PackageSpec :=
  and_then (get_prop exp "sdkVersion") (fun sdkVersion =>
  and_then (semver_major sdkVersion) (fun major =>
  npmPackageArg env ("expo-template-bare-minimum@sdk-"
                       ^^ NilZero.string_of_uint (N.to_uint major)))).

(** The validation failures: the configuration or package.json cannot be
    read, the SDK is older than 33.0.0, or the manifest of the bare
    template of the SDK major version cannot be fetched. *)
Inductive cannot_eject (projectRoot : string) : Prop :=
| config_not_found e :
    ConfigUtils_findConfigFileAsync env projectRoot = fails e ->
    cannot_eject projectRoot
| config_unreadable e :
    ProjectUtils_readConfigJsonAsync env projectRoot = fails e ->
    cannot_eject projectRoot
| config_missing exp pkgJson :
    ProjectUtils_readConfigJsonAsync env projectRoot = ok (exp, pkgJson) ->
    falsy exp = true ->
    cannot_eject projectRoot
| package_json_missing exp pkgJson :
    ProjectUtils_readConfigJsonAsync env projectRoot = ok (exp, pkgJson) ->
    falsy pkgJson = true ->
    cannot_eject projectRoot
| sdk_too_old exp pkgJson :
    ProjectUtils_readConfigJsonAsync env projectRoot = ok (exp, pkgJson) ->
    Versions_gteSdkVersion env exp "33.0.0" = ok false ->
    cannot_eject projectRoot
| template_not_found exp pkgJson spec e :
    ProjectUtils_readConfigJsonAsync env projectRoot = ok (exp, pkgJson) ->
    template_spec_of exp = ok spec ->
    pacote_manifest env spec = fails e ->
    cannot_eject projectRoot.

(** Lines 134 to 148: the names, the entry point, and app.json. *)
Definition customizeAppJson (projectRoot : string) (appJson : jsval)
  : M jsval :=
  '(displayName, name) <- getAppNamesAsync projectRoot ;;
  appJson <- lift (set_prop appJson "displayName" displayName) ;;
  appJson <- lift (set_prop appJson "name" name) ;;
  expo <- lift (get_prop appJson "expo") ;;
  entryPoint <- lift (get_prop expo "entryPoint") ;;
  appJson <-
    (if truthy entryPoint && negb (is_str entryPoint EXPO_APP_ENTRY) then
       log [(Yellow, "expo.entryPoint is already configured, we recommend using "
                       ^^ dq ^^ EXPO_APP_ENTRY)] ;;
       Run.ret appJson
     else
       lift (modify_prop appJson "expo"
               (fun expo => set_prop expo "entryPoint" (JStr EXPO_APP_ENTRY)))) ;;
  log (plain "Writing app.json...") ;;
  Run.call (EvWriteFile (path_resolve "app.json") (JsonPretty appJson))
           (fse_writeFile env (path_resolve "app.json") (JsonPretty appJson)) ;;
  log [(Green, "Wrote to app.json, please update it manually in the future.")] ;;
  Run.ret appJson.

(** Lines 154 to 159: the body of the try block. *)
Definition extractAndCopy (projectRoot : string) (templateSpec : PackageSpec)
           (appJson : jsval) : M unit :=
  tempDir <- Run.call EvTmpDir (tmp_dirSync env) ;;
  Run.call (EvExtractTemplate templateSpec tempDir appJson)
           (Exp_extractTemplateAppAsync env templateSpec tempDir appJson) ;;
  Run.call (EvCopy (path_join tempDir "ios") (path_join projectRoot "ios"))
           (fse_copySync env (path_join tempDir "ios")
                         (path_join projectRoot "ios")) ;;
  Run.call (EvCopy (path_join tempDir "android") (path_join projectRoot "android"))
           (fse_copySync env (path_join tempDir "android")
                         (path_join projectRoot "android")) ;;
  Run.call (EvTmpRemove tempDir) (tmp_removeCallback env tempDir) ;;
  log (plain "Successfully copied template native code.").

(** Lines 161 to 164: the catch block. *)
Definition extractionFailed (e : js_error) : M unit :=
  log [(Red, error_message e)] ;;
  log [(Red, "Eject failed, see above output for any issues.")] ;;
  log [(Yellow, "You may want to delete the `ios` and/or `android` directories.")] ;;
  Run.exit 1.

(** What the catch block prints, as a list. *)
Definition failure_report (e : js_error) : list event :=
  [ EvLog [(Red, error_message e)];
    EvLog [(Red, "Eject failed, see above output for any issues.")];
    EvLog [(Yellow, "You may want to delete the `ios` and/or `android` directories.")] ].

Definition index_js (name : jsval) : string :=
  "import { AppRegistry } from 'react-native';" ^^ nl ^^
  "import App from './App';" ^^ nl ^^
  nl ^^
  "AppRegistry.registerComponent('" ^^ to_string name ^^ "', () => App);" ^^ nl.

(** Lines 167 to 214: package.json, index.js, node_modules. *)
Definition updateManifests (useYarn : bool) (exp pkgJson appJson : jsval)
  : M unit :=
  let npmOrYarn := if useYarn then "yarn" else "npm" in
  log (plain ("Updating your " ^^ npmOrYarn ^^ " scripts in package.json...")) ;;
  scripts <- lift (get_prop pkgJson "scripts") ;;
  pkgJson <- (if falsy scripts
              then lift (set_prop pkgJson "scripts" (JObj []))
              else Run.ret pkgJson) ;;
  pkgJson <- lift (modify_prop pkgJson "scripts"
                     (fun s => delete_prop s "eject")) ;;
  pkgJson <- lift (modify_prop pkgJson "scripts"
                     (fun s => set_prop s "start" (JStr "react-native start"))) ;;
  pkgJson <- lift (modify_prop pkgJson "scripts"
                     (fun s => set_prop s "ios" (JStr "react-native run-ios"))) ;;
  pkgJson <- lift (modify_prop pkgJson "scripts"
                     (fun s => set_prop s "android" (JStr "react-native run-android"))) ;;
  sdkVersion <- lift (get_prop exp "sdkVersion") ;;
  versions <- Run.call EvVersions (Versions_versionsAsync env) ;;
  sdkVersions <- lift (get_prop versions "sdkVersions") ;;
  thisVersion <- lift (get_prop sdkVersions (to_string sdkVersion)) ;;
  reactNativeVersion <- lift (get_prop thisVersion "facebookReactNativeVersion") ;;
  pkgJson <- lift (modify_prop pkgJson "dependencies"
                     (fun d => set_prop d "react-native" reactNativeVersion)) ;;
  pkgJson <- lift (modify_prop pkgJson "dependencies"
                     (fun d => set_prop d "react-native-unimodules" (JStr "^0.4.1"))) ;;
  Run.call (EvWriteFile (path_resolve "package.json") (JsonPretty pkgJson))
           (fse_writeFile env (path_resolve "package.json") (JsonPretty pkgJson)) ;;
  log [(Green, "Your package.json is up to date!")] ;;
  log (plain "Adding entry point...") ;;
  _ <- lift (delete_prop pkgJson "main") ;;
  name <- lift (get_prop appJson "name") ;;
  Run.call (EvWriteFile (path_resolve "index.js") (Text (index_js name)))
           (fse_writeFile env (path_resolve "index.js") (Text (index_js name))) ;;
  log [(Green, "Added new entry points!")] ;;
  log (plain (nl ^^ "Note that using `" ^^ npmOrYarn ^^
              " start` will now require you to run Xcode and/or" ^^ nl ^^
              "Android Studio to build the native code for your project.")) ;;
  log (plain "Removing node_modules...") ;;
  Run.call (EvRemove "node_modules") (fse_remove env "node_modules") ;;
  if useYarn then
    log (plain "Installing packages with yarn...") ;;
    Run.emit (EvSpawnSync "yarnpkg" [] ["inherit"])
  else
    log (plain "Installing existing packages with npm...") ;;
    Run.emit (EvSpawnSync "npm" ["install"] ["stdin"; "ignore"; "stderr"]).

Definition ejectToBareAsync (projectRoot : string) (options : Options)
  : M unit :=
  v <- validateProject projectRoot ;;
  appJson <- customizeAppJson projectRoot (v_appJson v) ;;
  Run.try_catch (extractAndCopy projectRoot (v_templateSpec v) appJson)
                extractionFailed ;;
  updateManifests (v_useYarn v) (v_exp v) (v_pkgJson v) appJson.

(** *** ejectAsync *)

Definition eject_question : question :=
  {| q_type := Some "list";
     q_name := "ejectMethod";
     q_message := "How would you like to eject your app?" ^^ nl ^^
                  "  Read more: https://docs.expo.io/versions/latest/expokit/eject/";
     q_default := JStr "bare";
     q_choices :=
       [ {| c_name := "Bare: I'd like a bare React Native project.";
            c_value := "bare";
            c_short := "Bare" |};
         {| c_name := "ExpoKit: I'll create or log in with an Expo account to use React Native and the Expo SDK.";
            c_value := "expokit";
            c_short := "ExpoKit" |};
         {| c_name := "Cancel: I'll continue with my current project structure.";
            c_value := "cancel";
            c_short := "cancel" |} ];
     q_validate := None |}.

Definition eject_help : string :=
  "Please specify eject method (bare, expokit) with the --eject-method option.".

(** Lines 22 to 29. *)
Definition gitWorkingTreeStatus : M string :=
  Run.try_catch
    (stdout <- Run.call EvGitStatus (git_status env) ;;
     Run.ret (if String.eqb stdout EmptyString then "clean" else "dirty"))
    (fun _ => Run.ret "unknown").

(** Lines 31 to 47. *)
Definition reportWorkingTree (workingTreeStatus : string) : M unit :=
  (if String.eqb workingTreeStatus "clean" then
     log_nested [(Plain, "Your git working tree is "); (Green, "clean")] ;;
     log_nested (plain "To revert the changes from ejecting later, you can use these commands:") ;;
     log_nested (plain "  git clean --force && git reset --hard")
   else if String.eqb workingTreeStatus "dirty" then
     log_nested [(Bold, "Warning!"); (Plain, " Your git working tree is ");
                 (Red, "dirty"); (Plain, ".")] ;;
     log_nested [(Plain, "It's recommended to ");
                 (Bold, "commit all your changes before proceeding");
                 (Plain, "," ^^ nl ^^
                    "so you can revert the changes made by this command if necessary.")]
   else
     log_nested (plain "We couldn't find a git repository in your project directory.") ;;
     log_nested (plain "It's recommended to back up your project before proceeding.")) ;;
  log_nested (plain EmptyString).

(** Lines 79 to 83:
    [options.ejectMethod || (await prompt(questions, ...)).ejectMethod] *)
Definition resolveEjectMethod (options : Options) : M jsval :=
  if truthy (ejectMethod options) then Run.ret (ejectMethod options)
  else
    answers <- Run.call (EvPrompt [eject_question] eject_help)
                        (prompt env [eject_question] eject_help) ;;
    lift (get_prop answers "ejectMethod").

(** Lines 22 to 83 together: everything before the dispatch. *)
Definition resolved_method (options : Options) : M jsval :=
  workingTreeStatus <- gitWorkingTreeStatus ;;
  reportWorkingTree workingTreeStatus ;;
  resolveEjectMethod options.

Definition unrecognized_method (method : jsval) : js_error :=
  Error ("Unrecognized eject method " ^^ dq ^^ to_string method ^^ dq
           ^^ ". Valid options are: bare, expokit.").

Definition success_message : text := [(Green, "Ejected successfully!")].
Definition cancel_message : text :=
  plain "OK! If you change your mind you can run this command again.".

(** Lines 88, 89 and 100: the ExpoKit branch, as a program of its own. *)
Definition expokit_eject (projectRoot : string) (options : Options) : M unit :=
  Run.call EvLogin (loginOrRegisterIfLoggedOut env) ;;
  Run.call (EvDetach projectRoot options)
           (Detach_detachAsync env projectRoot options) ;;
  log success_message.

(** The four branches of the dispatch. *)
Inductive method_kind (method : jsval) : Type :=
| IsBare (_ : method = JStr "bare")
| IsExpokit (_ : method = JStr "expokit")
| IsCancel (_ : method = JStr "cancel")
| IsOther (_ : method <> JStr "bare") (_ : method <> JStr "expokit")
          (_ : method <> JStr "cancel").

(** Lines 85 to 100. *)
Definition dispatch (projectRoot : string) (options : Options)
           (method : jsval) : M unit :=
  if is_str method "bare" then
    ejectToBareAsync projectRoot options ;;
    log success_message
  else if is_str method "expokit" then
    Run.call EvLogin (loginOrRegisterIfLoggedOut env) ;;
    Run.call (EvDetach projectRoot options)
             (Detach_detachAsync env projectRoot options) ;;
    log success_message
  else if is_str method "cancel" then
    log cancel_message
  else
    Run.throw (unrecognized_method method).

Definition ejectAsync (projectRoot : string) (options : Options) : M unit :=
  workingTreeStatus <- gitWorkingTreeStatus ;;
  reportWorkingTree workingTreeStatus ;;
  method <- resolveEjectMethod options ;;
  dispatch projectRoot options method.

End WithEnv.

(** ** Kinds of interactions *)

Definition quiet (ev : event) : bool := negb (mutates ev).

(** What ejectAsync does before it dispatches on the method. *)
Definition is_preamble (ev : event) : bool :=
  match ev with
  | EvGitStatus | EvLogNested _ | EvPrompt _ _ => true
  | _ => false
  end.

(** The interactions that leave something on the disk at a given path. *)
Definition writes_file (path : string) (ev : event) : bool :=
  match ev with
  | EvWriteFile p _ => String.eqb p path
  | _ => false
  end.

Definition copies_to (dst : string) (ev : event) : bool :=
  match ev with
  | EvCopy _ d => String.eqb d dst
  | _ => false
  end.

Definition removes (path : string) (ev : event) : bool :=
  match ev with
  | EvRemove p => String.eqb p path
  | _ => false
  end.

(** Everything but the two steps of the ExpoKit eject. *)
Definition not_expokit (ev : event) : bool :=
  match ev with
  | EvLogin | EvDetach _ _ => false
  | _ => true
  end.

(** The steps of the ExpoKit eject, and the line that follows them. *)
Definition expokit_step (ev : event) : bool :=
  match ev with
  | EvLogin | EvDetach _ _ | EvLog _ => true
  | _ => false
  end.

(** What ejectToBareAsync may do up to and including the extraction of
    the template: of the files, only app.json is written. *)
Definition before_manifests (env : Env) (ev : event) : bool :=
  match ev with
  | EvWriteFile p _ => String.eqb p (path_resolve env "app.json")
  | EvVersions | EvRemove _ | EvSpawnSync _ _ _ => false
  | EvLogin | EvDetach _ _ => false
  | _ => true
  end.

(** ** The disk, as far as the procedure writes it

    A path holds what was last written or copied there; every operation
    of the trace is taken as carried out. *)
Inductive node : Type :=
| FileNode (data : content)
| CopyOf (src : string)
| TemplateOf (spec : PackageSpec).

Definition disk : Type := list (string * node).

Fixpoint disk_get (p : string) (d : disk) : option node :=
  match d with
  | [] => None
  | (q, n) :: rest => if String.eqb q p then Some n else disk_get p rest
  end.

Fixpoint disk_del (p : string) (d : disk) : disk :=
  match d with
  | [] => []
  | (q, n) :: rest =>
      if String.eqb q p then disk_del p rest else (q, n) :: disk_del p rest
  end.

Definition disk_put (p : string) (n : node) (d : disk) : disk :=
  (p, n) :: disk_del p d.

Definition disk_step (d : disk) (ev : event) : disk :=
  match ev with
  | EvWriteFile p data => disk_put p (FileNode data) d
  | EvCopy src dst => disk_put dst (CopyOf src) d
  | EvExtractTemplate spec dir _ => disk_put dir (TemplateOf spec) d
  | EvTmpRemove dir => disk_del dir d
  | EvRemove p => disk_del p d
  | _ => d
  end.

(** The disk after the interactions of a trace. *)
Definition disk_after (d : disk) (t : list event) : disk :=
  fold_left disk_step t d.

End Eject.

(** * Sample worlds

    Concrete tools and environments on which the procedures are run. *)

Module Sample.
Import PrepareJob.

Definition Config : Type := (BuildType * string)%type.
Definition Job : Type := string.

Definition enoent : js_error := JsError "Error" "ENOENT: no such file or directory".

(** A machine with three projects; a job with an empty URL is rejected by
    the schema, and the validated value is the job itself. *)
Definition tools : Tools Config Job :=
  {| BuildConfig_read := fun dir =>
       if String.eqb dir "/generic" then ok (Generic, "turtle.json")
       else if String.eqb dir "/managed" then ok (Managed, "turtle.json")
       else if String.eqb dir "/custom" then ok (OtherBuildType "custom", "turtle.json")
       else fails enoent;
     config_type := fst;
     prepareAndroidGenericJob := fun _ url _ => ok ("android generic " ^^ url);
     prepareAndroidManagedJob := fun _ url _ => ok ("android managed " ^^ url);
     prepareiOSGenericJob := fun _ url _ => ok ("ios generic " ^^ url);
     prepareiOSManagedJob := fun _ url _ => fails (Error "no credentials");
     JobSchema_validate := fun job =>
       if String.eqb job "android generic "
       then (job, Some (JsError "ValidationError" "projectUrl is required"))
       else (job, None) |}.

(** The same machine after a fourth project appeared: the answers for the
    first three directories are untouched. *)
Definition tools_later : Tools Config Job :=
  {| BuildConfig_read := fun dir =>
       if String.eqb dir "/new" then ok (Generic, "turtle.json")
       else BuildConfig_read tools dir;
     config_type := config_type tools;
     prepareAndroidGenericJob := prepareAndroidGenericJob tools;
     prepareAndroidManagedJob := prepareAndroidManagedJob tools;
     prepareiOSGenericJob := prepareiOSGenericJob tools;
     prepareiOSManagedJob := prepareiOSManagedJob tools;
     JobSchema_validate := JobSchema_validate tools |}.


(** *** A project to eject *)

Import Eject.

Definition exp_33 : jsval :=
  JObj [("name", JStr "my-app"); ("sdkVersion", JStr "33.0.0")].

Definition pkg_33 : jsval :=
  JObj [("name", JStr "my-app");
        ("main", JStr "node_modules/expo/AppEntry.js");
        ("scripts", JObj [("start", JStr "expo start");
                          ("eject", JStr "expo eject")]);
        ("dependencies", JObj [("expo", JStr "^33.0.0")])].

(** app.json without the two names, and with them. *)
Definition appJson_unnamed : jsval := JObj [("expo", exp_33)].
Definition appJson_named : jsval :=
  JObj [("expo", exp_33); ("displayName", JStr "My App"); ("name", JStr "myapp")].

Definition versions_33 : jsval :=
  JObj [("sdkVersions",
         JObj [("33.0.0",
                JObj [("facebookReactNativeVersion", JStr "0.59.8")])])].

(** A machine on which everything answers: a clean git tree, a yarn
    project in /work whose app.json parses to [appJson], SDK 33, a semver
    global, a user who types the two names, and a template extraction
    that answers [extraction]. *)
Definition env_with (appJson : jsval) (extraction : throws unit) : Env :=
  {| git_status := ok EmptyString;
     prompt := fun _ _ =>
       ok (JObj [("ejectMethod", JStr "bare");
                 ("displayName", JStr "My App");
                 ("name", JStr "myapp")]);
     loginOrRegisterIfLoggedOut := ok tt;
     Detach_detachAsync := fun _ _ => ok tt;
     ConfigUtils_isUsingYarn := fun _ => true;
     ConfigUtils_findConfigFileAsync := fun root =>
       ok (path_join root "app.json", "app.json");
     ProjectUtils_readConfigJsonAsync := fun _ => ok (exp_33, pkg_33);
     ConfigUtils_readConfigJsonAsync := fun _ => ok (exp_33, pkg_33);
     fse_readFile := fun _ => ok "{ ... }";
     JSON_parse := fun _ => ok appJson;
     Versions_gteSdkVersion := fun _ _ => ok true;
     global_semver := Some (fun _ => ok 33%N);
     npmPackageArg := fun raw => ok raw;
     pacote_manifest := fun _ => ok tt;
     cwd := "/work";
     fse_writeFile := fun _ _ => ok tt;
     tmp_dirSync := ok "/tmp/tmp-1";
     Exp_extractTemplateAppAsync := fun _ _ _ => extraction;
     fse_copySync := fun _ _ => ok tt;
     tmp_removeCallback := fun _ => ok tt;
     Versions_versionsAsync := ok versions_33;
     fse_remove := fun _ => ok tt |}.

Definition env : Env := env_with appJson_unnamed (ok tt).
Definition env_named : Env := env_with appJson_named (ok tt).
Definition env_offline : Env :=
  env_with appJson_named (fails (Error "getaddrinfo ENOTFOUND registry.npmjs.org")).

(** The same machine with SDK 32 in the project. *)
Definition env_sdk32 : Env :=
  {| git_status := git_status env;
     prompt := prompt env;
     loginOrRegisterIfLoggedOut := loginOrRegisterIfLoggedOut env;
     Detach_detachAsync := Detach_detachAsync env;
     ConfigUtils_isUsingYarn := ConfigUtils_isUsingYarn env;
     ConfigUtils_findConfigFileAsync := ConfigUtils_findConfigFileAsync env;
     ProjectUtils_readConfigJsonAsync := ProjectUtils_readConfigJsonAsync env;
     ConfigUtils_readConfigJsonAsync := ConfigUtils_readConfigJsonAsync env;
     fse_readFile := fse_readFile env;
     JSON_parse := JSON_parse env;
     Versions_gteSdkVersion := fun _ _ => ok false;
     global_semver := global_semver env;
     npmPackageArg := npmPackageArg env;
     pacote_manifest := pacote_manifest env;
     cwd := cwd env;
     fse_writeFile := fse_writeFile env;
     tmp_dirSync := tmp_dirSync env;
     Exp_extractTemplateAppAsync := Exp_extractTemplateAppAsync env;
     fse_copySync := fse_copySync env;
     tmp_removeCallback := tmp_removeCallback env;
     Versions_versionsAsync := Versions_versionsAsync env;
     fse_remove := fse_remove env |}.

Definition bare : Eject.Options := {| ejectMethod := JStr "bare" |}.

End Sample.

(** * Facts about the trace monad *)

Section RunFacts.
Context {event : Type}.
Implicit Types t : list event.

Lemma bind_ret_l {A B} (a : A) (f : A -> Run.M event B) :
  Run.bind (Run.ret a) f = f a.
Proof. unfold Run.bind, Run.ret. destruct (f a); reflexivity. Qed.

Lemma bind_assoc {A B C} (m : Run.M event A) (f : A -> Run.M event B)
      (g : B -> Run.M event C) :
  Run.bind (Run.bind m f) g = Run.bind m (fun a => Run.bind (f a) g).
Proof.
  destruct m as [t [a | e | c]]; cbn; try reflexivity.
  destruct (f a) as [t1 [b | e | c]]; cbn; try reflexivity.
  destruct (g b) as [t2 r]. now rewrite app_assoc.
Qed.

Lemma bind_ext {A B} (m : Run.M event A) (f g : A -> Run.M event B) :
  (forall a, f a = g a) -> Run.bind m f = Run.bind m g.
Proof. intros H. destruct m as [t [a | e | c]]; cbn; now rewrite ?H. Qed.

Lemma trace_bind {A B} (m : Run.M event A) (f : A -> Run.M event B) :
  Run.trace (Run.bind m f) =
  match Run.result m with
  | Ret a => Run.trace m ++ Run.trace (f a)
  | _ => Run.trace m
  end.
Proof.
  destruct m as [t [a | e | c]]; cbn; try reflexivity.
  destruct (f a); reflexivity.
Qed.

Lemma result_bind {A B} (m : Run.M event A) (f : A -> Run.M event B) :
  Run.result (Run.bind m f) =
  match Run.result m with
  | Ret a => Run.result (f a)
  | Throw e => Throw e
  | Exit c => Exit c
  end.
Proof.
  destruct m as [t [a | e | c]]; cbn; try reflexivity.
  destruct (f a); reflexivity.
Qed.

(** A call that answers lets the rest run after its event. *)
Lemma bind_ret_call {A B} ev (a : A) (f : A -> Run.M event B) :
  Run.bind (Run.call ev (ok a)) f = Run.bind (Run.emit ev) (fun _ => f a).
Proof. reflexivity. Qed.

Lemma bind_eq {A B} (m : Run.M event A) (f : A -> Run.M event B) :
  Run.bind m f = (Run.trace (Run.bind m f), Run.result (Run.bind m f)).
Proof. destruct (Run.bind m f); reflexivity. Qed.

Lemma bind_returns {A B} (m : Run.M event A) (f : A -> Run.M event B) t a :
  m = (t, Ret a) ->
  Run.bind m f = (t ++ Run.trace (f a), Run.result (f a)).
Proof. intros ->. cbn. destruct (f a); reflexivity. Qed.

Lemma bind_throws {A B} (m : Run.M event A) (f : A -> Run.M event B) t e :
  m = (t, Throw e) -> Run.bind m f = (t, Throw e).
Proof. intros ->. reflexivity. Qed.

Lemma bind_exits {A B} (m : Run.M event A) (f : A -> Run.M event B) t c :
  m = (t, Exit c) -> Run.bind m f = (t, Exit c).
Proof. intros ->. reflexivity. Qed.

Lemma bind_inv_ret {A B} (m : Run.M event A) (f : A -> Run.M event B) t b :
  Run.bind m f = (t, Ret b) ->
  exists t1 a t2, m = (t1, Ret a) /\ f a = (t2, Ret b) /\ t = t1 ++ t2.
Proof.
  destruct m as [t1 [a | e | c]]; cbn; try discriminate.
  destruct (f a) as [t2 r] eqn:E. intros [= <- ->].
  now exists t1, a, t2.
Qed.

Lemma call_inv_ret {A} ev (answer : throws A) t a :
  Run.call ev answer = (t, Ret a) -> answer = ok a /\ t = [ev].
Proof. destruct answer; cbn; intros [= <- <-] || discriminate 1; now split. Qed.

Lemma try_catch_returns {A} (body : Run.M event A) h t a :
  body = (t, Ret a) -> Run.try_catch body h = (t, Ret a).
Proof. intros ->. reflexivity. Qed.

Lemma try_catch_throws {A} (body : Run.M event A) h t e :
  body = (t, Throw e) ->
  Run.try_catch body h = (t ++ Run.trace (h e), Run.result (h e)).
Proof. intros ->. cbn. destruct (h e); reflexivity. Qed.

(** [every], [stays] and [within] follow the structure of a program. *)
Section Compositional.
Variable P : event -> bool.

Lemma every_ret {A} (a : A) : Run.every P (Run.ret a).
Proof. reflexivity. Qed.

Lemma every_throw {A} e : Run.every P (@Run.throw event A e).
Proof. reflexivity. Qed.

Lemma every_exit {A} c : Run.every P (@Run.exit event A c).
Proof. reflexivity. Qed.

Lemma every_emit ev : P ev = true -> Run.every P (Run.emit ev).
Proof. unfold Run.every. cbn. now intros ->. Qed.

Lemma every_call {A} ev (answer : throws A) :
  P ev = true -> Run.every P (Run.call ev answer).
Proof. unfold Run.every. destruct answer; cbn; now intros ->. Qed.

Lemma every_bind {A B} (m : Run.M event A) (f : A -> Run.M event B) :
  Run.every P m -> (forall a, Run.every P (f a)) -> Run.every P (Run.bind m f).
Proof.
  unfold Run.every. intros Hm Hf. rewrite trace_bind.
  destruct (Run.result m); try exact Hm.
  rewrite forallb_app, Hm. apply Hf.
Qed.

Lemma every_try_catch {A} (body : Run.M event A) h :
  Run.every P body -> (forall e, Run.every P (h e)) ->
  Run.every P (Run.try_catch body h).
Proof.
  unfold Run.every. destruct body as [t [a | e | c]]; cbn; intros Hb Hh;
    try exact Hb.
  specialize (Hh e). destruct (h e) as [t' r]. cbn in *.
  now rewrite forallb_app, Hb.
Qed.
End Compositional.

Lemma every_In P {A} (m : Run.M event A) ev :
  Run.every P m -> In ev (Run.trace m) -> P ev = true.
Proof. unfold Run.every. rewrite forallb_forall. auto. Qed.

Lemma stays_ret {A} (a : A) : Run.stays (@Run.ret event A a).
Proof. intros c; discriminate. Qed.

Lemma stays_throw {A} e : Run.stays (@Run.throw event A e).
Proof. intros c; discriminate. Qed.

Lemma stays_emit ev : Run.stays (@Run.emit event ev).
Proof. intros c; discriminate. Qed.

Lemma stays_call {A} (ev : event) (answer : throws A) :
  Run.stays (Run.call ev answer).
Proof. intros c; destruct answer; discriminate. Qed.

Lemma stays_bind {A B} (m : Run.M event A) (f : A -> Run.M event B) :
  Run.stays m -> (forall a, Run.stays (f a)) -> Run.stays (Run.bind m f).
Proof.
  unfold Run.stays. intros Hm Hf c. rewrite result_bind.
  destruct (Run.result m) eqn:E; [apply Hf | discriminate | ].
  intros [= ->]. now apply (Hm c).
Qed.

Lemma stays_try_catch {A} (body : Run.M event A) h :
  Run.stays body -> (forall e, Run.stays (h e)) ->
  Run.stays (Run.try_catch body h).
Proof.
  unfold Run.stays. destruct body as [t [a | e | c]]; cbn; intros Hb Hh c';
    try apply Hb.
  specialize (Hh e c'). now destruct (h e).
Qed.

Section Must.
Variable P : event -> bool.

Lemma must_throw {A} e : Run.must P (@Run.throw event A e).
Proof. intros a; discriminate. Qed.

Lemma must_exit {A} c : Run.must P (@Run.exit event A c).
Proof. intros a; discriminate. Qed.

Lemma must_emit ev : P ev = true -> Run.must P (Run.emit ev).
Proof. intros H a _. cbn. now rewrite H. Qed.

Lemma must_call {A} ev (answer : throws A) :
  P ev = true -> Run.must P (Run.call ev answer).
Proof. intros H a _. destruct answer; cbn; now rewrite H. Qed.

Lemma must_bind_l {A B} (m : Run.M event A) (f : A -> Run.M event B) :
  Run.must P m -> Run.must P (Run.bind m f).
Proof.
  intros Hm b. rewrite result_bind, trace_bind.
  destruct (Run.result m) as [a | e | c] eqn:E; try discriminate.
  intros _. rewrite existsb_app, (Hm a E). reflexivity.
Qed.

Lemma must_bind_r {A B} (m : Run.M event A) (f : A -> Run.M event B) :
  (forall a, Run.must P (f a)) -> Run.must P (Run.bind m f).
Proof.
  intros Hf b. rewrite result_bind, trace_bind.
  destruct (Run.result m) as [a | e | c] eqn:E; try discriminate.
  intros R. rewrite existsb_app, (Hf a b R). apply orb_true_r.
Qed.

Lemma must_try_catch {A} (body : Run.M event A) h :
  Run.must P body ->
  (forall e a, Run.result (h e) <> Ret a) ->
  Run.must P (Run.try_catch body h).
Proof.
  intros Hb Hh a. destruct body as [t [a' | e | c]]; cbn.
  - intros [= ->]. now apply (Hb a).
  - specialize (Hh e a). destruct (h e) as [t' r]. cbn in *. congruence.
  - discriminate.
Qed.

Lemma must_In {A} (m : Run.M event A) a :
  Run.must P m -> Run.result m = Ret a ->
  exists ev, In ev (Run.trace m) /\ P ev = true.
Proof. intros H R. apply existsb_exists. now apply (H a). Qed.
End Must.

Lemma within_le n n' {A} (m : Run.M event A) :
  Run.within n m -> n <= n' -> Run.within n' m.
Proof. unfold Run.within. lia. Qed.

Lemma within_ret {A} (a : A) : Run.within 0 (@Run.ret event A a).
Proof. unfold Run.within; cbn; lia. Qed.

Lemma within_throw {A} e : Run.within 0 (@Run.throw event A e).
Proof. unfold Run.within; cbn; lia. Qed.

Lemma within_exit {A} c : Run.within 0 (@Run.exit event A c).
Proof. unfold Run.within; cbn; lia. Qed.

Lemma within_emit ev : Run.within 1 (@Run.emit event ev).
Proof. unfold Run.within; cbn; lia. Qed.

Lemma within_call {A} (ev : event) (answer : throws A) :
  Run.within 1 (Run.call ev answer).
Proof. unfold Run.within; destruct answer; cbn; lia. Qed.

Lemma within_bind n k {A B} (m : Run.M event A) (f : A -> Run.M event B) :
  Run.within n m -> (forall a, Run.within k (f a)) ->
  Run.within (n + k) (Run.bind m f).
Proof.
  unfold Run.within. intros Hm Hf. rewrite trace_bind.
  destruct (Run.result m); try lia.
  rewrite length_app. specialize (Hf a). lia.
Qed.

Lemma within_bind_le c N {A B} (m : Run.M event A) (f : A -> Run.M event B) :
  Run.within c m -> c <= N -> (forall a, Run.within (N - c) (f a)) ->
  Run.within N (Run.bind m f).
Proof.
  intros Hm Hc Hf. apply (within_le (c + (N - c))); [ | lia].
  now apply within_bind.
Qed.

Lemma within_try_catch n k {A} (body : Run.M event A) h :
  Run.within n body -> (forall e, Run.within k (h e)) ->
  Run.within (n + k) (Run.try_catch body h).
Proof.
  unfold Run.within. destruct body as [t [a | e | c]]; cbn; intros Hb Hh;
    try lia.
  specialize (Hh e). destruct (h e) as [t' r]. cbn in *.
  rewrite length_app. lia.
Qed.

Lemma within_try_catch_le c N {A} (body : Run.M event A) h :
  Run.within c body -> c <= N -> (forall e, Run.within (N - c) (h e)) ->
  Run.within N (Run.try_catch body h).
Proof.
  intros Hm Hc Hf. apply (within_le (c + (N - c))); [ | lia].
  now apply within_try_catch.
Qed.
End RunFacts.

(** * Facts about prepareJob *)

Section PrepareJobFacts.
Import PrepareJob.
Context {Config Job : Type}.
Variable tools : Tools Config Job.

(** validateJob logs the job, asks the schema, and returns the validated
    value exactly when the schema reports no error. *)
Lemma validateJob_spec (job : Job) :
  validateJob tools job =
  ([EvConsoleLog job; EvValidate job],
   match snd (JobSchema_validate tools job) with
   | None => Ret (fst (JobSchema_validate tools job))
   | Some e => Throw e
   end).
Proof.
  unfold validateJob. cbn.
  destruct (JobSchema_validate tools job) as [value [e | ]]; reflexivity.
Qed.

Lemma prepareJob_read_fails options url dir e :
  BuildConfig_read tools dir = fails e ->
  prepareJob tools options url dir = ([EvRead dir], Throw e).
Proof. intros H. unfold prepareJob. rewrite H. reflexivity. Qed.

(** After a successful read, a supported pair runs its preparation
    function and validates what it produced. *)
Lemma prepareJob_dispatch options url dir cfg which :
  BuildConfig_read tools dir = ok cfg ->
  matching_preparer (platform options) (config_type tools cfg) = Some which ->
  prepareJob tools options url dir =
  (_ <- Run.call (EvRead dir) (ok cfg) ;;
   job <- Run.call (EvPrepare which cfg url dir)
                   (run_preparer tools which cfg url dir) ;;
   validateJob tools job).
Proof.
  intros Hread Hm. unfold prepareJob. rewrite Hread.
  rewrite !bind_ret_call.
  destruct (platform options), (config_type tools cfg);
    cbn in Hm; try discriminate; injection Hm as <-; reflexivity.
Qed.

Lemma prepareJob_returns_validated options url dir j :
  Run.result (prepareJob tools options url dir) = Ret j ->
  exists job, JobSchema_validate tools job = (j, None).
Proof.
  assert (V : forall (answer : throws Job) ev,
             Run.result (job <- Run.call ev answer ;; validateJob tools job) = Ret j ->
             exists job, JobSchema_validate tools job = (j, None)).
  { intros [e | job] ev; rewrite result_bind; [discriminate | ].
    cbn [Run.call Run.result snd]. rewrite validateJob_spec.
    cbn [Run.result snd].
    destruct (JobSchema_validate tools job) as [value [e | ]] eqn:E;
      cbn [snd fst]; [discriminate | ].
    intros [= ->]. now exists job. }
  unfold prepareJob.
  destruct (BuildConfig_read tools dir) as [e | cfg]; [discriminate | ].
  rewrite bind_ret_call, result_bind. cbn.
  destruct (platform options), (config_type tools cfg);
    try discriminate; apply V.
Qed.

(** C1.  For a platform among Android and iOS and a build configuration,
    read from projectDir, whose type is Generic or Managed, prepareJob is
    the matching preparation function followed by validateJob: it returns
    the validated value when the schema reports no error and throws the
    reported error otherwise (or the error of the preparation function).
    validateJob returns the validated value exactly when the schema
    reports no error, and prepareJob never returns anything but the
    validated value of a job the schema accepted. *)
Theorem prepareJob_supported_matrix options url dir cfg :
  BuildConfig_read tools dir = ok cfg ->
  platform options = Android \/ platform options = iOS ->
  config_type tools cfg = Generic \/ config_type tools cfg = Managed ->
  exists which,
    matching_preparer (platform options) (config_type tools cfg) = Some which /\
    prepareJob tools options url dir =
      (_ <- Run.call (EvRead dir) (ok cfg) ;;
       job <- Run.call (EvPrepare which cfg url dir)
                       (run_preparer tools which cfg url dir) ;;
       validateJob tools job) /\
    Run.result (prepareJob tools options url dir) =
      match run_preparer tools which cfg url dir with
      | inl e => Throw e
      | inr job =>
          match JobSchema_validate tools job with
          | (value, None) => Ret value
          | (_, Some e) => Throw e
          end
      end /\
    (forall job value,
        Run.result (validateJob tools job) = Ret value <->
        JobSchema_validate tools job = (value, None)) /\
    (forall job e,
        Run.result (validateJob tools job) = Throw e <->
        snd (JobSchema_validate tools job) = Some e) /\
    (forall j,
        Run.result (prepareJob tools options url dir) = Ret j ->
        exists job, JobSchema_validate tools job = (j, None)).
Proof.
  intros Hread Hp Ht.
  assert (exists which,
             matching_preparer (platform options) (config_type tools cfg)
             = Some which) as [which Hw].
  { destruct Hp as [-> | ->], Ht as [-> | ->]; cbn; eauto. }
  exists which. split; [exact Hw | ].
  pose proof (prepareJob_dispatch options url dir cfg which Hread Hw) as E.
  split; [exact E | ].
  split.
  { rewrite E. rewrite bind_ret_call, result_bind. cbn [Run.emit Run.result snd].
    rewrite result_bind.
    destruct (run_preparer tools which cfg url dir) as [e | job];
      cbn [Run.call Run.result snd]; [reflexivity | ].
    rewrite validateJob_spec. cbn [snd].
    destruct (JobSchema_validate tools job) as [value [e | ]]; reflexivity. }
  split.
  { intros job value. rewrite validateJob_spec. cbn [Run.result snd].
    destruct (JobSchema_validate tools job) as [v [e | ]]; cbn [fst snd];
      split; intros H; try discriminate; congruence. }
  split.
  { intros job e. rewrite validateJob_spec. cbn [Run.result snd].
    destruct (JobSchema_validate tools job) as [v [e' | ]]; cbn [fst snd];
      split; intros H; try discriminate; congruence. }
  intros j. apply prepareJob_returns_validated.
Qed.

Lemma prepareJob_outside_matrix options url dir cfg :
  BuildConfig_read tools dir = ok cfg ->
  matching_preparer (platform options) (config_type tools cfg) = None ->
  prepareJob tools options url dir =
    ([EvRead dir],
     Throw (Error match platform options with
                  | Android | iOS => "Unsupported build type"
                  | OtherPlatform _ => "Unsupported platform"
                  end)).
Proof.
  intros Hread Hm. unfold prepareJob. rewrite Hread.
  destruct (platform options), (config_type tools cfg) eqn:T;
    cbn in Hm; try discriminate; cbn; rewrite ?T; reflexivity.
Qed.

(** Outside the supported matrix no job is returned, whatever the read
    answers. *)
Lemma prepareJob_no_job_outside_matrix options url dir :
  (forall cfg, BuildConfig_read tools dir = ok cfg ->
     matching_preparer (platform options) (config_type tools cfg) = None) ->
  exists e, Run.result (prepareJob tools options url dir) = Throw e.
Proof.
  intros H. destruct (BuildConfig_read tools dir) as [e | cfg] eqn:Hread.
  - exists e. now rewrite (prepareJob_read_fails _ _ _ _ Hread).
  - rewrite (prepareJob_outside_matrix options url dir cfg Hread (H cfg eq_refl)).
    cbn. eauto.
Qed.

(** C8, as the code has it.  The build configuration is read before the
    platform is looked at.  Once it has been read, every platform other
    than Android and iOS throws Unsupported platform, and a supported
    platform with a build type other than Generic and Managed throws
    Unsupported build type; in both cases nothing but the read has
    happened and no job is returned. *)
Theorem prepareJob_unsupported options url dir cfg :
  BuildConfig_read tools dir = ok cfg ->
  matching_preparer (platform options) (config_type tools cfg) = None ->
  prepareJob tools options url dir =
    ([EvRead dir],
     Throw (Error match platform options with
                  | Android | iOS => "Unsupported build type"
                  | OtherPlatform _ => "Unsupported platform"
                  end)) /\
  (forall tag, platform options = OtherPlatform tag ->
     Run.result (prepareJob tools options url dir)
     = Throw (Error "Unsupported platform")) /\
  (forall tag, platform options = Android \/ platform options = iOS ->
     config_type tools cfg = OtherBuildType tag ->
     Run.result (prepareJob tools options url dir)
     = Throw (Error "Unsupported build type")) /\
  (forall j, Run.result (prepareJob tools options url dir) <> Ret j).
Proof.
  intros Hread Hm.
  pose proof (prepareJob_outside_matrix options url dir cfg Hread Hm) as E.
  split; [exact E | ]. rewrite E. cbn [Run.result snd].
  split; [ intros tag ->; reflexivity | ].
  split; [ intros tag [-> | ->] _; reflexivity | ].
  intros j; discriminate.
Qed.

End PrepareJobFacts.

(** An Android build of the generic project goes through
    prepareAndroidGenericJob and the schema. *)
Lemma prepareJob_supported_matrix_witness :
  exists which,
    PrepareJob.matching_preparer PrepareJob.Android PrepareJob.Generic = Some which /\
    Run.result (PrepareJob.prepareJob Sample.tools
                  {| PrepareJob.platform := PrepareJob.Android |}
                  "https://example.test/app.tar.gz" "/generic")
    = Ret "android generic https://example.test/app.tar.gz".
Proof.
  destruct (prepareJob_supported_matrix Sample.tools
              {| PrepareJob.platform := PrepareJob.Android |}
              "https://example.test/app.tar.gz" "/generic"
              (PrepareJob.Generic, "turtle.json")
              eq_refl (or_introl eq_refl) (or_introl eq_refl))
    as (which & Hw & _ & Hr & _).
  exists which. split; [exact Hw | ].
  rewrite Hr. cbn in Hw. injection Hw as <-. reflexivity.
Defined.

(** C8 as stated fails when the build configuration cannot be read: with an
    unsupported platform and no project at the directory, the error thrown
    is the one of the read, not Unsupported platform. *)
Lemma prepareJob_unsupported_platform_counterexample :
  Run.result (PrepareJob.prepareJob Sample.tools
                {| PrepareJob.platform := PrepareJob.OtherPlatform "web" |}
                "https://example.test/app.tar.gz" "/missing")
  = Throw Sample.enoent /\
  Run.result (PrepareJob.prepareJob Sample.tools
                {| PrepareJob.platform := PrepareJob.OtherPlatform "web" |}
                "https://example.test/app.tar.gz" "/missing")
  <> Throw (Error "Unsupported platform").
Proof. split; [reflexivity | discriminate]. Qed.

Lemma prepareJob_unsupported_witness :
  Run.result (PrepareJob.prepareJob Sample.tools
                {| PrepareJob.platform := PrepareJob.OtherPlatform "web" |}
                "https://example.test/app.tar.gz" "/generic")
  = Throw (Error "Unsupported platform") /\
  Run.result (PrepareJob.prepareJob Sample.tools
                {| PrepareJob.platform := PrepareJob.iOS |}
                "https://example.test/app.tar.gz" "/custom")
  = Throw (Error "Unsupported build type").
Proof.
  split.
  - apply (proj1 (proj2 (prepareJob_unsupported Sample.tools
               {| PrepareJob.platform := PrepareJob.OtherPlatform "web" |}
               "https://example.test/app.tar.gz" "/generic"
               (PrepareJob.Generic, "turtle.json") eq_refl eq_refl)) "web").
    reflexivity.
  - apply (proj1 (proj2 (proj2 (prepareJob_unsupported Sample.tools
               {| PrepareJob.platform := PrepareJob.iOS |}
               "https://example.test/app.tar.gz" "/custom"
               (PrepareJob.OtherBuildType "custom", "turtle.json")
               eq_refl eq_refl))) "custom").
    + right; reflexivity.
    + reflexivity.
Defined.

(** * Facts about stripDashes *)

Section StripDashesFacts.
Import Eject.

Lemma list_ascii_of_append (a b : string) :
  list_ascii_of_string (a ^^ b)
  = list_ascii_of_string a ++ list_ascii_of_string b.
Proof. induction a as [ | c a IH]; cbn; [reflexivity | now rewrite IH]. Qed.

Lemma kept_filter (c : ascii) :
  kept c = negb (Ascii.eqb c "-"%char || Ascii.eqb c " "%char).
Proof.
  unfold kept.
  destruct (Ascii.eqb c "-"%char), (Ascii.eqb c " "%char); reflexivity.
Qed.

(** The loop invariant: the accumulator, then the kept characters of what
    is still to be visited. *)
Lemma stripDashes_loop_spec (s ret : string) :
  list_ascii_of_string (stripDashes_loop s ret)
  = list_ascii_of_string ret ++ without_dashes_and_spaces s.
Proof.
  unfold without_dashes_and_spaces.
  revert ret. induction s as [ | c s IH]; intros ret; cbn.
  - now rewrite app_nil_r.
  - rewrite <- kept_filter. destruct (kept c).
    + rewrite IH, list_ascii_of_append. cbn. now rewrite <- app_assoc.
    + apply IH.
Qed.

Lemma stripDashes_filter (s : string) :
  list_ascii_of_string (stripDashes s) = without_dashes_and_spaces s.
Proof. unfold stripDashes. now rewrite stripDashes_loop_spec. Qed.

Lemma filter_idempotent {A} (f : A -> bool) (l : list A) :
  filter f (filter f l) = filter f l.
Proof.
  induction l as [ | x l IH]; cbn; [reflexivity | ].
  destruct (f x) eqn:E; cbn; rewrite ?E, IH; reflexivity.
Qed.

(** C10.  stripDashes keeps exactly the characters other than the hyphen
    and the space, in their order, and is idempotent. *)
Theorem stripDashes_removes_dashes_and_spaces (s : string) :
  list_ascii_of_string (stripDashes s) = without_dashes_and_spaces s /\
  stripDashes (stripDashes s) = stripDashes s.
Proof.
  split; [apply stripDashes_filter | ].
  rewrite <- (string_of_list_ascii_of_string (stripDashes (stripDashes s))).
  rewrite <- (string_of_list_ascii_of_string (stripDashes s)) at 2.
  f_equal. rewrite stripDashes_filter.
  unfold without_dashes_and_spaces at 1.
  rewrite !stripDashes_filter. unfold without_dashes_and_spaces.
  apply filter_idempotent.
Qed.

(** No hyphen and no space is left, and every other character of the
    input is still there. *)
Lemma stripDashes_chars (s : string) (c : ascii) :
  In c (list_ascii_of_string (stripDashes s)) <->
  In c (list_ascii_of_string s) /\ c <> "-"%char /\ c <> " "%char.
Proof.
  rewrite stripDashes_filter. unfold without_dashes_and_spaces.
  rewrite filter_In, negb_true_iff, orb_false_iff.
  rewrite <- !not_true_iff_false, !Ascii.eqb_eq. tauto.
Qed.

(** The loop machine makes one step per character and stops. *)
Lemma loop_run_spec (s ret : string) (fuel : nat) :
  String.length s <= fuel ->
  loop_run fuel (s, ret) = Some (stripDashes_loop s ret, String.length s).
Proof.
  revert ret fuel. induction s as [ | c s IH]; intros ret fuel Hf.
  - destruct fuel; reflexivity.
  - destruct fuel as [ | fuel]; [cbn in Hf; lia | ].
    cbn [loop_run loop_step stripDashes_loop String.length].
    rewrite IH by (cbn in Hf; lia).
    destruct (kept c); reflexivity.
Qed.

Lemma loop_run_short (s ret : string) (fuel : nat) :
  fuel < String.length s -> loop_run fuel (s, ret) = None.
Proof.
  revert ret fuel. induction s as [ | c s IH]; intros ret fuel Hf.
  - cbn in Hf; lia.
  - destruct fuel as [ | fuel]; [reflexivity | ].
    cbn [loop_run loop_step]. rewrite IH by (cbn in Hf; lia). reflexivity.
Qed.
End StripDashesFacts.

(** * Facts about the eject command *)

Create HintDb eject discriminated.

Section EjectStructure.
Import Eject.
Variable env : Env.

Lemma lift_inv_ret {A} (x : throws A) t a :
  lift x = (t, Ret a) -> x = ok a /\ t = [].
Proof. destruct x; cbn; [discriminate | ]. intros [= <- <-]. now split. Qed.

Lemma every_lift P {A} (x : throws A) : Run.every P (lift x).
Proof. destruct x; reflexivity. Qed.

Lemma stays_lift {A} (x : throws A) : Run.stays (lift x).
Proof. destruct x; intros c; discriminate. Qed.

Lemma within_lift {A} (x : throws A) : Run.within 0 (lift x).
Proof. destruct x; unfold Run.within; cbn; lia. Qed.
End EjectStructure.

(** Walks through a procedure, one construct at a time. *)
Ltac walk_side :=
  first [ reflexivity | unfold Eject.before_manifests; apply String.eqb_refl ].

Ltac walk :=
  repeat first
    [ solve [ auto with eject ]
    | progress cbv zeta
    | apply every_ret | apply every_throw | apply every_exit
    | apply every_lift
    | apply every_emit; walk_side
    | apply every_call; walk_side
    | apply every_bind; [ | intros ]
    | apply every_try_catch; [ | intros ]
    | apply stays_ret | apply stays_throw | apply stays_lift
    | apply stays_emit | apply stays_call
    | apply stays_bind; [ | intros ]
    | apply stays_try_catch; [ | intros ]
    | match goal with
      | |- Run.every _ (match ?x with _ => _ end) => destruct x
      | |- Run.stays (match ?x with _ => _ end) => destruct x
      end ].

Section EjectShape.
Import Eject.
Variable env : Env.

Lemma read_appJson_every P configPath configName :
  P (EvReadFile configPath) = true ->
  Run.every P (read_appJson env configPath configName).
Proof.
  intros H. unfold read_appJson. destruct (String.eqb _ _); walk.
  apply every_call, H.
Qed.

Lemma read_appJson_quiet configPath configName :
  Run.every quiet (read_appJson env configPath configName).
Proof. now apply read_appJson_every. Qed.

Lemma read_appJson_before_manifests configPath configName :
  Run.every (before_manifests env) (read_appJson env configPath configName).
Proof. now apply read_appJson_every. Qed.

Lemma read_appJson_stays configPath configName :
  Run.stays (read_appJson env configPath configName).
Proof. unfold read_appJson. walk. Qed.

#[local] Hint Resolve read_appJson_quiet read_appJson_before_manifests
  read_appJson_stays : eject.

(** The validations only look: nothing they do changes a file. *)
Lemma validateProject_quiet projectRoot :
  Run.every quiet (validateProject env projectRoot).
Proof. unfold validateProject. walk. Qed.

Lemma validateProject_stays projectRoot :
  Run.stays (validateProject env projectRoot).
Proof. unfold validateProject. walk. Qed.

Lemma validateProject_before_manifests projectRoot :
  Run.every (before_manifests env) (validateProject env projectRoot).
Proof. unfold validateProject. walk. Qed.

Lemma getAppNamesAsync_quiet projectRoot :
  Run.every quiet (getAppNamesAsync env projectRoot).
Proof. unfold getAppNamesAsync, log. walk. Qed.

Lemma getAppNamesAsync_before_manifests projectRoot :
  Run.every (before_manifests env) (getAppNamesAsync env projectRoot).
Proof. unfold getAppNamesAsync, log. walk. Qed.

Lemma getAppNamesAsync_stays projectRoot :
  Run.stays (getAppNamesAsync env projectRoot).
Proof. unfold getAppNamesAsync, log. walk. Qed.

#[local] Hint Resolve getAppNamesAsync_before_manifests
  getAppNamesAsync_stays : eject.

Lemma customizeAppJson_before_manifests projectRoot appJson :
  Run.every (before_manifests env) (customizeAppJson env projectRoot appJson).
Proof. unfold customizeAppJson, log. walk. Qed.

Lemma customizeAppJson_stays projectRoot appJson :
  Run.stays (customizeAppJson env projectRoot appJson).
Proof. unfold customizeAppJson, log. walk. Qed.

Lemma extractAndCopy_before_manifests projectRoot spec appJson :
  Run.every (before_manifests env) (extractAndCopy env projectRoot spec appJson).
Proof. unfold extractAndCopy, log. walk. Qed.

Lemma quiet_keeps_disk (t : list event) (d : disk) :
  forallb quiet t = true -> disk_after d t = d.
Proof.
  unfold disk_after. revert d. induction t as [ | ev t IH]; intros d; cbn;
    [reflexivity | ].
  rewrite andb_true_iff. intros [Hev Ht].
  rewrite <- (IH d Ht) at 2. f_equal.
  destruct ev; cbn in Hev; try discriminate; reflexivity.
Qed.
End EjectShape.

Section EjectValidation.
Import Eject.
Variable env : Env.

(** What a project that passed the validations looks like. *)
Lemma validateProject_returns projectRoot t v :
  validateProject env projectRoot = (t, Ret v) ->
  ProjectUtils_readConfigJsonAsync env projectRoot = ok (v_exp v, v_pkgJson v) /\
  truthy (v_exp v) = true /\
  truthy (v_pkgJson v) = true /\
  Versions_gteSdkVersion env (v_exp v) "33.0.0" = ok true /\
  template_spec_of env (v_exp v) = ok (v_templateSpec v) /\
  pacote_manifest env (v_templateSpec v) = ok tt /\
  v_useYarn v = ConfigUtils_isUsingYarn env projectRoot /\
  (exists found, ConfigUtils_findConfigFileAsync env projectRoot = ok found).
Proof.
  unfold validateProject. intros H.
  apply bind_inv_ret in H as (t1 & useYarn & t2 & H1 & H & ->).
  apply call_inv_ret in H1 as [[= <-] ->].
  apply bind_inv_ret in H as (t1 & [configPath configName] & t3 & H1 & H & ->).
  apply call_inv_ret in H1 as [H1 ->].
  apply bind_inv_ret in H as (t4 & [exp pkgJson] & t5 & H2 & H & ->).
  apply call_inv_ret in H2 as [H2 ->].
  apply bind_inv_ret in H as (t6 & appJson & t7 & H3 & H & ->).
  unfold falsy in H.
  destruct (truthy exp) eqn:Hexp; cbn [negb] in H; [ | discriminate].
  destruct (truthy pkgJson) eqn:Hpkg; cbn [negb] in H; [ | discriminate].
  apply bind_inv_ret in H as (t8 & supported & t9 & H4 & H & ->).
  apply lift_inv_ret in H4 as [H4 ->].
  destruct supported; cbn [negb] in H; [ | discriminate].
  apply bind_inv_ret in H as (t10 & sdkVersion & t11 & H5 & H & ->).
  apply lift_inv_ret in H5 as [H5 ->].
  apply bind_inv_ret in H as (t12 & major & t13 & H6 & H & ->).
  apply lift_inv_ret in H6 as [H6 ->].
  cbv zeta in H.
  apply bind_inv_ret in H as (t14 & spec & t15 & H7 & H & ->).
  apply lift_inv_ret in H7 as [H7 ->].
  apply bind_inv_ret in H as (t16 & [] & t17 & H8 & H & ->).
  injection H as <- <-. cbn.
  repeat split; try assumption.
  - unfold template_spec_of. rewrite H5. cbn. rewrite H6. cbn. exact H7.
  - destruct (pacote_manifest env spec) as [e | []]; [discriminate | reflexivity].
  - now exists (configPath, configName).
Qed.

(** A run of ejectToBareAsync that fails its validations is the run of the
    validations. *)
Lemma ejectToBareAsync_validation_throws projectRoot options t e :
  validateProject env projectRoot = (t, Throw e) ->
  ejectToBareAsync env projectRoot options = (t, Throw e).
Proof. intros H. unfold ejectToBareAsync. now rewrite H. Qed.

Lemma cannot_eject_throws projectRoot :
  cannot_eject env projectRoot ->
  exists t e, validateProject env projectRoot = (t, Throw e).
Proof.
  intros Hbad.
  destruct (validateProject env projectRoot) as [t [v | e | c]] eqn:E.
  - exfalso.
    apply validateProject_returns in E
      as (Hread & Hexp & Hpkg & Hsdk & Hspec & Hman & _ & [found Hfound]).
    destruct Hbad as [e H | e H | exp pkg H F | exp pkg H F | exp pkg H F
                      | exp pkg spec e H S F];
      [rewrite Hfound in H; discriminate | ..];
      rewrite Hread in H; try discriminate; injection H as <- <-.
    + unfold falsy in F. rewrite Hexp in F; discriminate.
    + unfold falsy in F. rewrite Hpkg in F; discriminate.
    + rewrite Hsdk in F; discriminate.
    + rewrite Hspec in S. injection S as <-. rewrite Hman in F. discriminate.
  - eauto.
  - exfalso. apply (validateProject_stays env projectRoot c).
    now rewrite E.
Qed.

(** C2.  When the configuration or package.json cannot be read, the SDK
    is below 33.0.0, or the manifest of the bare template cannot be
    fetched, ejectToBareAsync throws, and up to the throw it has changed
    no file: the disk is as it was. *)
Theorem ejectToBareAsync_validation_failure projectRoot options :
  cannot_eject env projectRoot ->
  exists t e,
    ejectToBareAsync env projectRoot options = (t, Throw e) /\
    forallb quiet t = true /\
    (forall p data, ~ In (EvWriteFile p data) t) /\
    (forall src dst, ~ In (EvCopy src dst) t) /\
    (forall d, disk_after d t = d).
Proof.
  intros Hbad. destruct (cannot_eject_throws projectRoot Hbad) as (t & e & E).
  exists t, e.
  pose proof (validateProject_quiet env projectRoot) as Q.
  unfold Run.every in Q. rewrite E in Q. cbn [Run.trace fst] in Q.
  split; [now apply ejectToBareAsync_validation_throws | ].
  split; [exact Q | ].
  rewrite forallb_forall in Q.
  split; [ intros p data Hin; apply Q in Hin; discriminate | ].
  split; [ intros src dst Hin; apply Q in Hin; discriminate | ].
  intros d. now apply quiet_keeps_disk, forallb_forall.
Qed.
End EjectValidation.

Section EjectExtraction.
Import Eject.
Variable env : Env.

Lemma append_inj_l (a b c : string) : a ^^ b = a ^^ c -> b = c.
Proof. induction a as [ | x a IH]; cbn; [auto | ]. intros [= H]. auto. Qed.

Lemma extractionFailed_spec e :
  extractionFailed e = (failure_report e, Exit 1).
Proof. reflexivity. Qed.

(** A bare eject whose validations and app.json step went through and
    whose extraction threw. *)
Lemma ejectToBareAsync_extraction_throws projectRoot options v appJson t1 t2 tb e :
  validateProject env projectRoot = (t1, Ret v) ->
  customizeAppJson env projectRoot (v_appJson v) = (t2, Ret appJson) ->
  extractAndCopy env projectRoot (v_templateSpec v) appJson = (tb, Throw e) ->
  ejectToBareAsync env projectRoot options
  = (t1 ++ t2 ++ tb ++ failure_report e, Exit 1).
Proof.
  intros Hv Hc Hx. unfold ejectToBareAsync.
  rewrite (bind_returns _ _ _ _ Hv). rewrite (bind_returns _ _ _ _ Hc).
  rewrite (try_catch_throws _ _ _ _ Hx), extractionFailed_spec.
  reflexivity.
Qed.

(** C3.  When the extraction and copy step throws, the procedure prints
    the message of the error, prints that the eject failed and that the
    ios and android directories may have to be deleted, and ends the
    process with code 1.  Nothing follows: package.json and index.js are
    not written, node_modules is not removed, nothing is installed, and
    ejectAsync does not print its success message. *)
Theorem ejectToBareAsync_extraction_failure
        projectRoot options v appJson t1 t2 tb e :
  validateProject env projectRoot = (t1, Ret v) ->
  customizeAppJson env projectRoot (v_appJson v) = (t2, Ret appJson) ->
  extractAndCopy env projectRoot (v_templateSpec v) appJson = (tb, Throw e) ->
  ejectToBareAsync env projectRoot options
    = (t1 ++ t2 ++ tb ++
         [ EvLog [(Red, error_message e)];
           EvLog [(Red, "Eject failed, see above output for any issues.")];
           EvLog [(Yellow, "You may want to delete the `ios` and/or `android` directories.")] ],
       Exit 1) /\
  forallb (before_manifests env)
          (Run.trace (ejectToBareAsync env projectRoot options)) = true /\
  (forall data, ~ In (EvWriteFile (path_resolve env "package.json") data)
                     (Run.trace (ejectToBareAsync env projectRoot options))) /\
  (forall data, ~ In (EvWriteFile (path_resolve env "index.js") data)
                     (Run.trace (ejectToBareAsync env projectRoot options))) /\
  dispatch env projectRoot options (JStr "bare")
    = (Run.trace (ejectToBareAsync env projectRoot options), Exit 1).
Proof.
  intros Hv Hc Hx.
  pose proof (ejectToBareAsync_extraction_throws
                projectRoot options v appJson t1 t2 tb e Hv Hc Hx) as E.
  split; [exact E | ].
  assert (B : forallb (before_manifests env)
                (Run.trace (ejectToBareAsync env projectRoot options)) = true).
  { rewrite E. cbn [Run.trace fst].
    pose proof (validateProject_before_manifests env projectRoot) as B1.
    pose proof (customizeAppJson_before_manifests env projectRoot (v_appJson v)) as B2.
    pose proof (extractAndCopy_before_manifests env projectRoot
                  (v_templateSpec v) appJson) as B3.
    unfold Run.every in B1, B2, B3. rewrite Hv in B1. rewrite Hc in B2.
    rewrite Hx in B3. cbn [Run.trace fst] in B1, B2, B3.
    rewrite !forallb_app, B1, B2, B3. reflexivity. }
  split; [exact B | ].
  rewrite forallb_forall in B.
  split; [ | split].
  - intros data Hin. apply B in Hin. cbn in Hin.
    apply String.eqb_eq in Hin. unfold path_resolve, path_join in Hin.
    apply append_inj_l in Hin. discriminate.
  - intros data Hin. apply B in Hin. cbn in Hin.
    apply String.eqb_eq in Hin. unfold path_resolve, path_join in Hin.
    apply append_inj_l in Hin. discriminate.
  - unfold dispatch. cbn [is_str String.eqb Ascii.eqb Bool.eqb].
    rewrite E. reflexivity.
Qed.
End EjectExtraction.

Section EjectNames.
Import Eject.
Variable env : Env.

Lemma falsy_absent_or_empty (v : jsval) :
  string_or_absent v = true -> falsy v = absent_or_empty v.
Proof. destruct v as [ | | | | [ | ] | | ]; cbn; intros; congruence. Qed.

(** The defaults can be computed when the two configurations are objects
    and the package name, if any, is a string. *)
Lemma question_defaults_ok e p name :
  string_or_absent (lookup "name" p) = true ->
  exists dd dn, question_defaults (JObj e) (JObj p) name = ok (dd, dn).
Proof.
  intros S. unfold question_defaults.
  destruct (truthy name); cbn;
    destruct (lookup "name" p) as [ | | | | [ | ] | | ]; try discriminate;
    cbn; eauto.
Qed.

Lemma getAppNamesAsync_unfold projectRoot configPath exp pkgJson data appJson
      displayName name :
  ConfigUtils_findConfigFileAsync env projectRoot = ok (configPath, "app.json") ->
  ConfigUtils_readConfigJsonAsync env projectRoot = ok (exp, pkgJson) ->
  fse_readFile env configPath = ok data ->
  JSON_parse env data = ok appJson ->
  get_prop appJson "displayName" = ok displayName ->
  get_prop appJson "name" = ok name ->
  getAppNamesAsync env projectRoot =
  if falsy displayName || falsy name then
    match question_defaults exp pkgJson name with
    | inl e =>
        (names_reads projectRoot configPath ++ [EvLog names_announcement],
         Throw e)
    | inr (dd, dn) =>
        (names_reads projectRoot configPath ++
           [EvLog names_announcement;
            EvPrompt (name_questions dd dn) names_help],
         match prompt env (name_questions dd dn) names_help with
         | inl e => Throw e
         | inr answers =>
             match get_prop answers "displayName", get_prop answers "name" with
             | inr d, inr n => Ret (d, n)
             | inl e, _ => Throw e
             | _, inl e => Throw e
             end
         end)
    end
  else (names_reads projectRoot configPath, Ret (displayName, name)).
Proof.
  intros H1 H2 H3 H4 H5 H6. unfold getAppNamesAsync, names_reads.
  rewrite H1, H2. cbn -[names_help name_questions names_announcement].
  rewrite H3. cbn -[names_help name_questions names_announcement].
  rewrite H4. cbn -[names_help name_questions names_announcement].
  rewrite H5. cbn -[names_help name_questions names_announcement].
  rewrite H6. cbn -[names_help name_questions names_announcement].
  destruct (falsy displayName || falsy name); [ | reflexivity].
  cbn -[names_help name_questions names_announcement].
  destruct (question_defaults exp pkgJson name) as [e | [dd dn]];
    [reflexivity | ].
  cbn -[names_help name_questions names_announcement].
  destruct (prompt env (name_questions dd dn) names_help) as [e | answers];
    [reflexivity | ].
  cbn -[names_help name_questions names_announcement].
  destruct (get_prop answers "displayName") as [e | d]; [reflexivity | ].
  cbn -[names_help name_questions names_announcement].
  destruct (get_prop answers "name") as [e | n]; reflexivity.
Qed.

(** C4, as the code has it.  In a project whose configuration is read and
    whose app.json has been parsed: when displayName and name are both
    truthy (for strings: not empty), getAppNamesAsync returns the two
    values as they are, after its three reads and without a prompt.  When
    one of them is falsy (absent, empty, or null, false or 0), it prints
    the announcement and computes the defaults of the two questions; if
    that throws, the error is thrown and nothing is asked; otherwise it
    asks the displayName and the name question, in this order and with
    these defaults and validators, and returns the two answers.  So a
    prompt is issued exactly when one of the two is falsy and the
    defaults can be computed, which is the case when the configuration
    and package.json are objects and the package name is absent or a
    string. *)
Theorem getAppNamesAsync_prompts_when_a_name_is_falsy
        projectRoot configPath exp pkgJson data appJson displayName name :
  ConfigUtils_findConfigFileAsync env projectRoot = ok (configPath, "app.json") ->
  ConfigUtils_readConfigJsonAsync env projectRoot = ok (exp, pkgJson) ->
  fse_readFile env configPath = ok data ->
  JSON_parse env data = ok appJson ->
  get_prop appJson "displayName" = ok displayName ->
  get_prop appJson "name" = ok name ->
  let reads :=
    [EvFindConfigFile projectRoot; EvConfigReadConfig projectRoot;
     EvReadFile configPath] in
  let announcement :=
    EvLog [(Plain, "We have a couple of questions to ask you about how you'd like to name your app:")] in
  let questions (default_displayName default_name : jsval) :=
    [ {| q_type := None;
         q_name := "displayName";
         q_message := "What should your app appear as on a user's home screen?";
         q_default := default_displayName;
         q_choices := [];
         q_validate := Some ValidateDisplayName |};
      {| q_type := None;
         q_name := "name";
         q_message := "What should your Android Studio and Xcode projects be called?";
         q_default := default_name;
         q_choices := [];
         q_validate := Some ValidateName |} ] in
  let help :=
    "Please specify " ^^ dq ^^ "displayName" ^^ dq ^^ " and " ^^ dq ^^ "name"
      ^^ dq ^^ " in app.json." in
  (truthy displayName = true -> truthy name = true ->
     getAppNamesAsync env projectRoot = (reads, Ret (displayName, name))) /\
  (truthy displayName = false \/ truthy name = false ->
     match question_defaults exp pkgJson name with
     | inl e =>
         getAppNamesAsync env projectRoot = (reads ++ [announcement], Throw e)
     | inr (dd, dn) =>
         getAppNamesAsync env projectRoot
         = (reads ++ [announcement; EvPrompt (questions dd dn) help],
            match prompt env (questions dd dn) help with
            | inl e => Throw e
            | inr answers =>
                match get_prop answers "displayName", get_prop answers "name" with
                | inr d, inr n => Ret (d, n)
                | inl e, _ => Throw e
                | _, inl e => Throw e
                end
            end)
     end) /\
  ((exists asked nonInteractiveHelp,
       In (EvPrompt asked nonInteractiveHelp)
          (Run.trace (getAppNamesAsync env projectRoot))) <->
     (truthy displayName = false \/ truthy name = false) /\
     exists dd dn, question_defaults exp pkgJson name = ok (dd, dn)) /\
  (forall e p, exp = JObj e -> pkgJson = JObj p ->
     string_or_absent (lookup "name" p) = true ->
     exists dd dn, question_defaults exp pkgJson name = ok (dd, dn)) /\
  (string_or_absent displayName = true ->
     (truthy displayName = false <-> absent_or_empty displayName = true)) /\
  (string_or_absent name = true ->
     (truthy name = false <-> absent_or_empty name = true)).
Proof.
  intros H1 H2 H3 H4 H5 H6 reads announcement questions help.
  pose proof (getAppNamesAsync_unfold projectRoot configPath exp pkgJson data
                appJson displayName name H1 H2 H3 H4 H5 H6) as E.
  change (names_reads projectRoot configPath) with reads in E.
  change (EvLog names_announcement) with announcement in E.
  change names_help with help in E.
  assert (F : falsy displayName || falsy name = true <->
              truthy displayName = false \/ truthy name = false).
  { unfold falsy. rewrite orb_true_iff, !negb_true_iff. reflexivity. }
  assert (S : forall v, string_or_absent v = true ->
                        (truthy v = false <-> absent_or_empty v = true)).
  { intros v Sv. rewrite <- (falsy_absent_or_empty v Sv). unfold falsy.
    now rewrite negb_true_iff. }
  split; [ | split; [ | split; [ | split; [ | split]]]].
  - intros Td Tn. rewrite E. unfold falsy. now rewrite Td, Tn.
  - intros M. apply F in M. rewrite M in E.
    destruct (question_defaults exp pkgJson name) as [e | [dd dn]]; exact E.
  - rewrite <- F, E. destruct (falsy displayName || falsy name).
    + destruct (question_defaults exp pkgJson name) as [e | [dd dn]].
      * split.
        -- intros (asked & h & Hin). exfalso.
           cbn [Run.trace fst reads app In] in Hin.
           repeat (destruct Hin as [Hin | Hin]; [discriminate | ]). exact Hin.
        -- intros (_ & dd & dn & D). discriminate.
      * split; [intros _; split; [reflexivity | now exists dd, dn] | ].
        intros _. exists (questions dd dn), help.
        cbn [Run.trace fst reads app In]. auto 6.
    + split; [ | intros [D _]; discriminate].
      intros (asked & h & Hin). exfalso.
      cbn [Run.trace fst reads In] in Hin.
      repeat (destruct Hin as [Hin | Hin]; [discriminate | ]). exact Hin.
  - intros e p -> -> Sp. now apply question_defaults_ok.
  - apply S.
  - apply S.
Qed.
End EjectNames.

Section EjectDispatch.
Import Eject.
Variable env : Env.

#[local] Hint Resolve read_appJson_stays getAppNamesAsync_stays : eject.

Lemma ejectAsync_resolved projectRoot options :
  ejectAsync env projectRoot options =
  (method <- resolved_method env options ;;
   dispatch env projectRoot options method).
Proof.
  unfold ejectAsync, resolved_method. rewrite bind_assoc.
  apply bind_ext. intros ws. now rewrite bind_assoc.
Qed.

Lemma resolved_method_preamble options :
  Run.every is_preamble (resolved_method env options).
Proof.
  unfold resolved_method, gitWorkingTreeStatus, reportWorkingTree,
    resolveEjectMethod, log_nested. walk.
Qed.

Lemma read_appJson_not_expokit configPath configName :
  Run.every not_expokit (read_appJson env configPath configName).
Proof. now apply read_appJson_every. Qed.

#[local] Hint Resolve read_appJson_not_expokit : eject.

Lemma getAppNamesAsync_not_expokit projectRoot :
  Run.every not_expokit (getAppNamesAsync env projectRoot).
Proof. unfold getAppNamesAsync, log. walk. Qed.

#[local] Hint Resolve getAppNamesAsync_not_expokit : eject.

Lemma ejectToBareAsync_not_expokit projectRoot options :
  Run.every not_expokit (ejectToBareAsync env projectRoot options).
Proof.
  unfold ejectToBareAsync, validateProject, customizeAppJson, extractAndCopy,
    extractionFailed, updateManifests, log.
  walk.
Qed.

(** The bare eject starts by asking whether the project uses yarn. *)
Lemma ejectToBareAsync_starts projectRoot options :
  exists t, Run.trace (ejectToBareAsync env projectRoot options)
            = EvIsUsingYarn projectRoot :: t.
Proof.
  unfold ejectToBareAsync, validateProject.
  rewrite !bind_assoc, bind_ret_call, bind_assoc, trace_bind. cbn.
  eexists. reflexivity.
Qed.

Lemma then_log_returns {A} (m : M A) (message : text) t :
  Run.result (m ;; log message) = Ret t ->
  Run.trace (m ;; log message) = Run.trace m ++ [EvLog message].
Proof.
  rewrite result_bind, trace_bind. destruct (Run.result m); [ | discriminate ..].
  reflexivity.
Qed.

Lemma is_str_eq (v : jsval) (s : string) :
  is_str v s = true <-> v = JStr s.
Proof.
  destruct v; cbn; try (split; [discriminate | intros [=]]).
  rewrite String.eqb_eq. split; [now intros -> | now intros [= ->]].
Qed.

Lemma expokit_eject_steps projectRoot options :
  Run.every expokit_step (expokit_eject env projectRoot options).
Proof. unfold expokit_eject, log. walk. Qed.

Lemma expokit_eject_starts projectRoot options :
  exists t, Run.trace (expokit_eject env projectRoot options) = EvLogin :: t.
Proof.
  unfold expokit_eject. rewrite trace_bind.
  destruct (loginOrRegisterIfLoggedOut env); cbn; eexists; reflexivity.
Qed.

Lemma method_kind_of (method : jsval) : method_kind method.
Proof.
  destruct (is_str method "bare") eqn:B;
    [apply IsBare; now apply is_str_eq | ].
  destruct (is_str method "expokit") eqn:X;
    [apply IsExpokit; now apply is_str_eq | ].
  destruct (is_str method "cancel") eqn:C;
    [apply IsCancel; now apply is_str_eq | ].
  apply IsOther; intros H; apply is_str_eq in H; congruence.
Qed.

Lemma dispatch_bare projectRoot options :
  dispatch env projectRoot options (JStr "bare")
  = (ejectToBareAsync env projectRoot options ;; log success_message).
Proof. reflexivity. Qed.

Lemma dispatch_expokit projectRoot options :
  dispatch env projectRoot options (JStr "expokit")
  = expokit_eject env projectRoot options.
Proof. reflexivity. Qed.

Lemma dispatch_cancel projectRoot options :
  dispatch env projectRoot options (JStr "cancel")
  = ([EvLog cancel_message], Ret tt).
Proof. reflexivity. Qed.

Lemma dispatch_other projectRoot options method :
  method <> JStr "bare" -> method <> JStr "expokit" ->
  method <> JStr "cancel" ->
  dispatch env projectRoot options method
  = ([], Throw (unrecognized_method method)).
Proof.
  intros B X C. unfold dispatch.
  destruct (is_str method "bare") eqn:Eb;
    [apply is_str_eq in Eb; contradiction | ].
  destruct (is_str method "expokit") eqn:Ex;
    [apply is_str_eq in Ex; contradiction | ].
  destruct (is_str method "cancel") eqn:Ec;
    [apply is_str_eq in Ec; contradiction | ].
  reflexivity.
Qed.

(** C9.  Once the eject method is resolved, ejectAsync runs the bare
    eject and then prints the success message when the method is bare,
    logs in, detaches and prints the success message when it is expokit,
    prints the cancellation line and returns when it is cancel, and
    throws the error naming the method and the options bare and expokit
    for every other value.  The bare eject is started exactly for bare,
    the login exactly for expokit, and a return without the success
    message happens exactly for cancel. *)
Theorem ejectAsync_dispatches projectRoot options t0 method :
  resolved_method env options = (t0, Ret method) ->
  let run := ejectAsync env projectRoot options in
  (method = JStr "bare" ->
     run = (t0 ++ Run.trace (ejectToBareAsync env projectRoot options ;;
                             log success_message),
            Run.result (ejectToBareAsync env projectRoot options ;;
                        log success_message))) /\
  (method = JStr "expokit" ->
     run = (t0 ++ Run.trace (expokit_eject env projectRoot options),
            Run.result (expokit_eject env projectRoot options))) /\
  (method = JStr "cancel" ->
     run = (t0 ++ [EvLog cancel_message], Ret tt)) /\
  (method <> JStr "bare" -> method <> JStr "expokit" ->
   method <> JStr "cancel" ->
     run = (t0, Throw (Error ("Unrecognized eject method " ^^ dq
                                ^^ to_string method ^^ dq
                                ^^ ". Valid options are: bare, expokit.")))) /\
  (In (EvIsUsingYarn projectRoot) (Run.trace run) <-> method = JStr "bare") /\
  (In EvLogin (Run.trace run) <-> method = JStr "expokit") /\
  (In (EvDetach projectRoot options) (Run.trace run) ->
     method = JStr "expokit") /\
  (Run.result run = Ret tt /\ ~ In (EvLog success_message) (Run.trace run)
     <-> method = JStr "cancel").
Proof.
  intros Hres run.
  assert (E : run = (t0 ++ Run.trace (dispatch env projectRoot options method),
                     Run.result (dispatch env projectRoot options method))).
  { unfold run. rewrite ejectAsync_resolved. now apply bind_returns. }
  pose proof (resolved_method_preamble options) as Pre.
  unfold Run.every in Pre. rewrite Hres in Pre. cbn [Run.trace fst] in Pre.
  rewrite forallb_forall in Pre.
  assert (NotPre : forall ev, is_preamble ev = false ->
             In ev (Run.trace run) ->
             In ev (Run.trace (dispatch env projectRoot options method))).
  { intros ev F Hin. rewrite E in Hin. cbn [Run.trace fst] in Hin.
    apply in_app_or in Hin as [Hin | Hin]; [ | exact Hin].
    apply Pre in Hin. congruence. }
  assert (Post : forall ev,
             In ev (Run.trace (dispatch env projectRoot options method)) ->
             In ev (Run.trace run)).
  { intros ev Hin. rewrite E. cbn [Run.trace fst]. apply in_or_app. now right. }
  pose proof (ejectToBareAsync_not_expokit projectRoot options) as NX.
  pose proof (expokit_eject_steps projectRoot options) as XS.
  split; [intros ->; now rewrite E, dispatch_bare | ].
  split; [intros ->; now rewrite E, dispatch_expokit | ].
  split; [intros ->; now rewrite E, dispatch_cancel | ].
  split.
  { intros B X C. rewrite E, (dispatch_other _ _ _ B X C). cbn.
    now rewrite app_nil_r. }
  destruct (method_kind_of method) as [-> | -> | -> | B X C].
  - (* bare *)
    rewrite dispatch_bare in *.
    assert (NXl : forall ev,
               In ev (Run.trace (ejectToBareAsync env projectRoot options ;;
                                 log success_message)) ->
               not_expokit ev = true).
    { apply forallb_forall. apply every_bind; [exact NX | ].
      intros _. reflexivity. }
    split; [ | split; [ | split]].
    + split; [reflexivity | intros _]. apply Post. rewrite trace_bind.
      destruct (ejectToBareAsync_starts projectRoot options) as [t ->].
      destruct (Run.result (ejectToBareAsync env projectRoot options));
        now left.
    + split; [ | discriminate]. intros Hin.
      apply NotPre, NXl in Hin; [discriminate | reflexivity].
    + intros Hin. apply NotPre, NXl in Hin; [discriminate | reflexivity].
    + split; [ | discriminate]. intros [R N]. exfalso. apply N, Post.
      rewrite E in R. cbn [Run.result snd] in R.
      rewrite (then_log_returns _ _ _ R). apply in_or_app. right. now left.
  - (* expokit *)
    rewrite dispatch_expokit in *.
    unfold Run.every in XS. rewrite forallb_forall in XS.
    split; [ | split; [ | split]].
    + split; [ | discriminate]. intros Hin.
      apply NotPre, XS in Hin; [discriminate | reflexivity].
    + split; [reflexivity | intros _]. apply Post.
      destruct (expokit_eject_starts projectRoot options) as [t ->]. now left.
    + reflexivity.
    + split; [ | discriminate]. intros [R N]. exfalso. apply N, Post.
      rewrite E in R. cbn [Run.result snd] in R. unfold expokit_eject in *.
      rewrite <- bind_assoc in R |- *.
      rewrite (then_log_returns _ _ _ R). apply in_or_app. right. now left.
  - (* cancel *)
    rewrite dispatch_cancel in *. cbn [Run.trace Run.result fst snd] in *.
    split; [ | split; [ | split]].
    + split; [ | discriminate]. intros Hin.
      apply NotPre in Hin; [ | reflexivity].
      destruct Hin as [Hin | []]; discriminate.
    + split; [ | discriminate]. intros Hin.
      apply NotPre in Hin; [ | reflexivity].
      destruct Hin as [Hin | []]; discriminate.
    + intros Hin. apply NotPre in Hin; [ | reflexivity].
      destruct Hin as [Hin | []]; discriminate.
    + split; [reflexivity | intros _]. split; [now rewrite E | ].
      intros Hin. apply NotPre in Hin; [ | reflexivity].
      destruct Hin as [Hin | []]; discriminate.
  - (* anything else *)
    rewrite (dispatch_other _ _ _ B X C) in *.
    cbn [Run.trace Run.result fst snd] in *.
    split; [ | split; [ | split]].
    + split; [ | intros ->; contradiction]. intros Hin.
      apply NotPre in Hin; [destruct Hin | reflexivity].
    + split; [ | intros ->; contradiction]. intros Hin.
      apply NotPre in Hin; [destruct Hin | reflexivity].
    + intros Hin. apply NotPre in Hin; [destruct Hin | reflexivity].
    + split; [ | intros ->; contradiction]. intros [R _].
      rewrite E in R. discriminate.
Qed.
End EjectDispatch.

(** * Bounds on the number of interactions *)

Create HintDb bounds discriminated.

Ltac count_leaf :=
  first
    [ apply (within_le 0);
      [ first [ apply within_ret | apply within_throw | apply within_exit
              | apply within_lift ]
      | lia ]
    | apply (within_le 1);
      [ first [ apply within_emit | apply within_call ] | lia ] ].

Ltac count_known :=
  match goal with
  | |- Run.within ?N ?m =>
      let H := fresh "B" in
      eassert (H : Run.within _ m) by (solve [ eauto with bounds ]);
      apply (within_le _ N _ H); lia
  end.

Ltac count :=
  repeat first
    [ progress cbv zeta
    | count_leaf
    | count_known
    | match goal with
      | |- Run.within _ (Run.bind (Run.bind _ _) _) => rewrite bind_assoc
      | |- Run.within _ (Run.bind (match ?x with _ => _ end) _) => destruct x
      | |- Run.within ?N (Run.bind ?m ?f) =>
          first
            [ apply (within_bind_le 0 N m f);
              [ first [ apply within_ret | apply within_lift ]
              | lia | cbn [Nat.sub]; intros ]
            | apply (within_bind_le 1 N m f);
              [ first [ apply within_emit | apply within_call ]
              | lia | cbn [Nat.sub]; intros ]
            | let H := fresh "B" in
              eassert (H : Run.within _ m) by (solve [ eauto with bounds ]);
              apply (within_bind_le _ N m f H); [ lia | cbn [Nat.sub]; intros ] ]
      | |- Run.within _ (match ?x with _ => _ end) => destruct x
      end ].

Section Bounds.
Import Eject.
Variable env : Env.

Lemma read_appJson_within configPath configName :
  Run.within 1 (read_appJson env configPath configName).
Proof. unfold read_appJson. count. Qed.

#[local] Hint Resolve read_appJson_within : bounds.

Lemma getAppNamesAsync_within projectRoot :
  Run.within 5 (getAppNamesAsync env projectRoot).
Proof. unfold getAppNamesAsync, log. count. Qed.

Lemma manifest_check_within spec (h : js_error -> M unit) :
  (forall e, Run.within 0 (h e)) ->
  Run.within 1 (Run.try_catch (Run.call (EvManifest spec)
                                        (pacote_manifest env spec)) h).
Proof.
  intros H. apply (within_try_catch 1 0); [apply within_call | exact H].
Qed.

Lemma validateProject_within projectRoot :
  Run.within 5 (validateProject env projectRoot).
Proof.
  unfold validateProject. count.
  apply (within_bind_le 1); [ | lia | cbn [Nat.sub]; intros; count].
  apply manifest_check_within. intros e. apply within_throw.
Qed.

#[local] Hint Resolve getAppNamesAsync_within validateProject_within : bounds.

Lemma customizeAppJson_within projectRoot appJson :
  Run.within 9 (customizeAppJson env projectRoot appJson).
Proof. unfold customizeAppJson, log. count. Qed.

Lemma extractAndCopy_within projectRoot spec appJson :
  Run.within 6 (extractAndCopy env projectRoot spec appJson).
Proof. unfold extractAndCopy, log. count. Qed.

Lemma extraction_block_within projectRoot spec appJson :
  Run.within 9 (Run.try_catch (extractAndCopy env projectRoot spec appJson)
                              extractionFailed).
Proof.
  apply (within_try_catch 6 3); [apply extractAndCopy_within | ].
  intros e. rewrite extractionFailed_spec. unfold Run.within. cbn. lia.
Qed.

Lemma updateManifests_within useYarn exp pkgJson appJson :
  Run.within 12 (updateManifests env useYarn exp pkgJson appJson).
Proof. unfold updateManifests, log. count. Qed.

#[local] Hint Resolve customizeAppJson_within extraction_block_within
  updateManifests_within : bounds.

Lemma ejectToBareAsync_within projectRoot options :
  Run.within 35 (ejectToBareAsync env projectRoot options).
Proof. unfold ejectToBareAsync. count. Qed.

Lemma gitWorkingTreeStatus_within : Run.within 1 (gitWorkingTreeStatus env).
Proof.
  unfold gitWorkingTreeStatus. apply (within_try_catch 1 0).
  - count.
  - intros e. apply within_ret.
Qed.

Lemma reportWorkingTree_within status :
  Run.within 4 (reportWorkingTree status).
Proof. unfold reportWorkingTree, log_nested. count. Qed.

Lemma resolveEjectMethod_within options :
  Run.within 1 (resolveEjectMethod env options).
Proof. unfold resolveEjectMethod. count. Qed.

#[local] Hint Resolve ejectToBareAsync_within gitWorkingTreeStatus_within
  reportWorkingTree_within resolveEjectMethod_within : bounds.

Lemma dispatch_within projectRoot options method :
  Run.within 36 (dispatch env projectRoot options method).
Proof. unfold dispatch, log. count. Qed.

#[local] Hint Resolve dispatch_within : bounds.

Lemma ejectAsync_within projectRoot options :
  Run.within 42 (ejectAsync env projectRoot options).
Proof. unfold ejectAsync. count. Qed.
End Bounds.

(** * What a bare eject leaves behind *)

Ltac seek_side :=
  first [ reflexivity
        | unfold Eject.writes_file, Eject.copies_to, Eject.removes;
          apply String.eqb_refl ].

Ltac seek :=
  first
    [ apply must_throw
    | apply must_exit
    | apply must_emit; seek_side
    | apply must_call; seek_side
    | solve [ auto with eject ]
    | apply must_bind_l; solve [ seek ]
    | apply must_bind_r; intros; seek
    | match goal with
      | |- Run.must _ (match ?x with _ => _ end) => destruct x; seek
      end
    | progress cbv zeta; seek ].

Section EjectLeaves.
Import Eject.
Variable env : Env.

Lemma customizeAppJson_writes projectRoot appJson :
  Run.must (writes_file (path_resolve env "app.json"))
           (customizeAppJson env projectRoot appJson).
Proof. unfold customizeAppJson, log. seek. Qed.

Lemma extraction_block_must P projectRoot spec appJson :
  Run.must P (extractAndCopy env projectRoot spec appJson) ->
  Run.must P (Run.try_catch (extractAndCopy env projectRoot spec appJson)
                            extractionFailed).
Proof.
  intros H. apply must_try_catch; [exact H | ].
  intros e a. rewrite extractionFailed_spec. discriminate.
Qed.

Lemma extractAndCopy_copies projectRoot spec appJson dir :
  dir = "ios" \/ dir = "android" ->
  Run.must (copies_to (path_join projectRoot dir))
           (extractAndCopy env projectRoot spec appJson).
Proof. intros [-> | ->]; unfold extractAndCopy, log; seek. Qed.

Lemma updateManifests_writes useYarn exp pkgJson appJson file :
  file = "package.json" \/ file = "index.js" ->
  Run.must (writes_file (path_resolve env file))
           (updateManifests env useYarn exp pkgJson appJson).
Proof. intros [-> | ->]; unfold updateManifests, log; seek. Qed.

Lemma updateManifests_removes useYarn exp pkgJson appJson :
  Run.must (removes "node_modules")
           (updateManifests env useYarn exp pkgJson appJson).
Proof. unfold updateManifests, log. seek. Qed.

(** A bare eject that returns has written the three files, copied the
    two directories and removed node_modules. *)
Lemma ejectToBareAsync_leaves projectRoot options :
  Run.must (writes_file (path_resolve env "app.json"))
           (ejectToBareAsync env projectRoot options) /\
  Run.must (writes_file (path_resolve env "package.json"))
           (ejectToBareAsync env projectRoot options) /\
  Run.must (writes_file (path_resolve env "index.js"))
           (ejectToBareAsync env projectRoot options) /\
  Run.must (copies_to (path_join projectRoot "ios"))
           (ejectToBareAsync env projectRoot options) /\
  Run.must (copies_to (path_join projectRoot "android"))
           (ejectToBareAsync env projectRoot options) /\
  Run.must (removes "node_modules")
           (ejectToBareAsync env projectRoot options).
Proof.
  unfold ejectToBareAsync. repeat split.
  - apply must_bind_r; intros v. apply must_bind_l, customizeAppJson_writes.
  - do 3 (apply must_bind_r; intros). apply updateManifests_writes; auto.
  - do 3 (apply must_bind_r; intros). apply updateManifests_writes; auto.
  - do 2 (apply must_bind_r; intros). apply must_bind_l, extraction_block_must.
    apply extractAndCopy_copies; auto.
  - do 2 (apply must_bind_r; intros). apply must_bind_l, extraction_block_must.
    apply extractAndCopy_copies; auto.
  - do 3 (apply must_bind_r; intros). apply updateManifests_removes.
Qed.
End EjectLeaves.

(** * Runs on the sample machines *)

Lemma ejectToBareAsync_validation_failure_witness :
  exists t e,
    Eject.ejectToBareAsync Sample.env_sdk32 "/work" Sample.bare = (t, Throw e) /\
    forallb Eject.quiet t = true /\
    (forall p data, ~ In (Eject.EvWriteFile p data) t) /\
    (forall src dst, ~ In (Eject.EvCopy src dst) t) /\
    (forall d, Eject.disk_after d t = d).
Proof.
  apply (ejectToBareAsync_validation_failure Sample.env_sdk32 "/work" Sample.bare).
  apply (Eject.sdk_too_old Sample.env_sdk32 "/work" Sample.exp_33 Sample.pkg_33);
    reflexivity.
Defined.

Lemma ejectToBareAsync_extraction_failure_witness :
  Run.result (Eject.ejectToBareAsync Sample.env_offline "/work" Sample.bare)
  = Exit 1 /\
  Run.result (Eject.dispatch Sample.env_offline "/work" Sample.bare
                             (Eject.JStr "bare")) = Exit 1.
Proof.
  edestruct (ejectToBareAsync_extraction_failure
               Sample.env_offline "/work" Sample.bare)
    as (E & _ & _ & _ & D);
    [ cbv; reflexivity | cbv; reflexivity | cbv; reflexivity | ].
  rewrite E, D. split; reflexivity.
Defined.

Lemma ejectAsync_dispatches_witness :
  In (Eject.EvIsUsingYarn "/work")
     (Run.trace (Eject.ejectAsync Sample.env "/work" Sample.bare)) /\
  ~ In Eject.EvLogin
       (Run.trace (Eject.ejectAsync Sample.env "/work" Sample.bare)).
Proof.
  edestruct (ejectAsync_dispatches Sample.env "/work" Sample.bare)
    as (_ & _ & _ & _ & [_ B] & [X _] & _); [ cbv; reflexivity | ].
  split; [ apply B; reflexivity | ].
  intros H. apply X in H. discriminate.
Defined.

(** * The two entry points together *)

Section EntryPoints.
Import PrepareJob.
Context {Config Job : Type}.

Lemma prepareJob_within (tools : Tools Config Job) options url dir :
  Run.within 4 (prepareJob tools options url dir).
Proof. unfold prepareJob, validateJob. count. Qed.

(** The interactions of prepareJob: a read of projectDir, then a
    preparation, then the console line and the validation. *)
Lemma prepareJob_interactions (tools : Tools Config Job) options url dir :
  Run.trace (prepareJob tools options url dir) = [EvRead dir] \/
  (exists which cfg,
      Run.trace (prepareJob tools options url dir)
      = [EvRead dir; EvPrepare which cfg url dir]) \/
  (exists which cfg job,
      Run.trace (prepareJob tools options url dir)
      = [EvRead dir; EvPrepare which cfg url dir;
         EvConsoleLog job; EvValidate job]).
Proof.
  destruct (BuildConfig_read tools dir) as [e | cfg] eqn:Hread.
  { left. now rewrite (prepareJob_read_fails _ _ _ _ _ Hread). }
  destruct (matching_preparer (platform options) (config_type tools cfg))
    as [which | ] eqn:Hm.
  - rewrite (prepareJob_dispatch _ _ _ _ _ _ Hread Hm).
    destruct (run_preparer tools which cfg url dir) as [e | job].
    + right; left. exists which, cfg. reflexivity.
    + right; right. exists which, cfg, job.
      rewrite bind_ret_call, trace_bind. cbn [Run.emit Run.result snd Run.trace fst].
      rewrite bind_ret_call, trace_bind. cbn [Run.emit Run.result snd Run.trace fst].
      now rewrite validateJob_spec.
  - left. now rewrite (prepareJob_outside_matrix _ _ _ _ _ Hread Hm).
Qed.

(** Two worlds whose answers agree where prepareJob asks. *)
Lemma prepareJob_agree (tools1 tools2 : Tools Config Job) options url dir :
  BuildConfig_read tools1 dir = BuildConfig_read tools2 dir ->
  (forall cfg, config_type tools1 cfg = config_type tools2 cfg) ->
  (forall which cfg,
      run_preparer tools1 which cfg url dir
      = run_preparer tools2 which cfg url dir) ->
  (forall job, JobSchema_validate tools1 job = JobSchema_validate tools2 job) ->
  prepareJob tools1 options url dir = prepareJob tools2 options url dir.
Proof.
  intros Hread Htype Hprep Hval.
  assert (V : forall job, validateJob tools1 job = validateJob tools2 job).
  { intros job. now rewrite !validateJob_spec, Hval. }
  destruct (BuildConfig_read tools2 dir) as [e | cfg] eqn:R2.
  { now rewrite (prepareJob_read_fails _ _ _ _ _ Hread),
      (prepareJob_read_fails _ _ _ _ _ R2). }
  destruct (matching_preparer (platform options) (config_type tools2 cfg))
    as [which | ] eqn:Hm.
  - rewrite (prepareJob_dispatch tools2 _ _ _ _ _ R2 Hm).
    rewrite <- Htype in Hm.
    rewrite (prepareJob_dispatch tools1 _ _ _ _ _ Hread Hm).
    rewrite Hprep. apply bind_ext; intros _. apply bind_ext; intros job. apply V.
  - rewrite (prepareJob_outside_matrix tools2 _ _ _ _ R2 Hm).
    rewrite <- Htype in Hm.
    now rewrite (prepareJob_outside_matrix tools1 _ _ _ _ Hread Hm).
Qed.
End EntryPoints.

(** C7.  Each entry point is a single pass: prepareJob makes at most four
    interactions and ejectAsync at most forty-two, whatever the world
    answers, and the loop of stripDashes makes exactly one iteration per
    character of its input and then stops with the result. *)
Theorem entry_points_terminate :
  (forall (Config Job : Type) (tools : PrepareJob.Tools Config Job)
          options url dir,
      Run.within 4 (PrepareJob.prepareJob tools options url dir)) /\
  (forall env projectRoot options,
      Run.within 42 (Eject.ejectAsync env projectRoot options)) /\
  (forall s spare,
      Eject.loop_run (String.length s + spare) (s, EmptyString)
      = Some (Eject.stripDashes s, String.length s)).
Proof.
  split; [intros; apply prepareJob_within | ].
  split; [intros; apply ejectAsync_within | ].
  intros s spare. unfold Eject.stripDashes. apply loop_run_spec. lia.
Qed.

(** * More about the names: stripDashes and the two validators *)

Section NameFacts.
Import Eject.

Lemma string_of_list_ascii_app (l1 l2 : list ascii) :
  string_of_list_ascii (l1 ++ l2)
  = string_of_list_ascii l1 ^^ string_of_list_ascii l2.
Proof. induction l1 as [ | c l1 IH]; cbn; [reflexivity | now rewrite IH]. Qed.

Lemma stripDashes_as_filter (s : string) :
  stripDashes s = string_of_list_ascii (without_dashes_and_spaces s).
Proof.
  rewrite <- stripDashes_filter. symmetry. apply string_of_list_ascii_of_string.
Qed.

Lemma length_list_ascii (s : string) :
  length (list_ascii_of_string s) = String.length s.
Proof. induction s as [ | c s IH]; cbn; [reflexivity | now rewrite IH]. Qed.

Lemma filter_fixed {A} (f : A -> bool) (l : list A) :
  filter f l = l <-> forallb f l = true.
Proof.
  induction l as [ | x l IH]; cbn; [tauto | ].
  destruct (f x) eqn:E; cbn.
  - rewrite <- IH. split; [now intros [= ->] | now intros ->].
  - split; [ | discriminate]. intros H.
    pose proof (filter_length_le f l) as L. rewrite H in L. cbn in L. lia.
Qed.

Lemma forallb_not_dash_space (s : string) :
  forallb (fun c => negb (Ascii.eqb c "-"%char || Ascii.eqb c " "%char))
          (list_ascii_of_string s) = true <->
  contains_char "-"%char s = false /\ contains_char " "%char s = false.
Proof.
  unfold contains_char.
  induction (list_ascii_of_string s) as [ | c l IH]; cbn [existsb forallb];
    [tauto | ].
  rewrite andb_true_iff, IH, negb_true_iff, !orb_false_iff.
  rewrite (Ascii.eqb_sym "-"%char c), (Ascii.eqb_sym " "%char c). tauto.
Qed.

Lemma stripDashes_idempotent (s : string) :
  stripDashes (stripDashes s) = stripDashes s.
Proof.
  rewrite (stripDashes_as_filter (stripDashes s)).
  unfold without_dashes_and_spaces at 1. rewrite stripDashes_filter.
  unfold without_dashes_and_spaces. rewrite filter_idempotent.
  symmetry. apply stripDashes_as_filter.
Qed.

(** stripDashes distributes over concatenation and never lengthens. *)
Theorem stripDashes_append (a b : string) :
  stripDashes (a ^^ b) = stripDashes a ^^ stripDashes b /\
  String.length (stripDashes a) <= String.length a.
Proof.
  split.
  - rewrite !stripDashes_as_filter. unfold without_dashes_and_spaces.
    now rewrite list_ascii_of_append, filter_app, string_of_list_ascii_app.
  - rewrite <- !length_list_ascii, stripDashes_filter.
    apply filter_length_le.
Qed.

(** The strings stripDashes leaves alone are those without a hyphen and
    without a space. *)
Theorem stripDashes_fixed_points (s : string) :
  stripDashes s = s <->
  contains_char "-"%char s = false /\ contains_char " "%char s = false.
Proof.
  rewrite <- forallb_not_dash_space, <- filter_fixed.
  split; intros H.
  - change (without_dashes_and_spaces s = list_ascii_of_string s).
    rewrite <- stripDashes_filter. now rewrite H.
  - rewrite stripDashes_as_filter. unfold without_dashes_and_spaces.
    rewrite H. apply string_of_list_ascii_of_string.
Qed.

Lemma validate_name_valid (s : string) :
  validate_name s = Valid <->
  s <> EmptyString /\
  contains_char "-"%char s = false /\ contains_char " "%char s = false.
Proof.
  unfold validate_name. destruct s as [ | c s]; cbn [String.length Nat.eqb].
  - split; [discriminate | intros [H _]; now contradiction H].
  - destruct (contains_char "-"%char (String c s)),
             (contains_char " "%char (String c s)); cbn;
      split; try discriminate; try (intros (_ & H1 & H2); discriminate);
      intros _; repeat split; discriminate.
Qed.

(** The project name validator accepts exactly the non-empty strings that
    stripDashes leaves alone, so the default it is offered, a stripped
    package name, is accepted unless nothing is left of it; the display
    name validator accepts exactly the non-empty strings. *)
Theorem validators_and_stripDashes (s : string) :
  (validate_name s = Valid <-> s <> EmptyString /\ stripDashes s = s) /\
  (validate_name (stripDashes s) = Valid <-> stripDashes s <> EmptyString) /\
  (validate_name EmptyString = Invalid "Project name cannot be empty.") /\
  (s <> EmptyString -> stripDashes s <> s ->
     validate_name s = Invalid "Project name cannot contain hyphens or spaces.") /\
  (validate_displayName s = Valid <-> s <> EmptyString).
Proof.
  split; [ | split; [ | split; [ | split]]].
  - rewrite validate_name_valid, stripDashes_fixed_points. tauto.
  - rewrite validate_name_valid, <- stripDashes_fixed_points.
    pose proof (stripDashes_idempotent s). tauto.
  - reflexivity.
  - intros Hne Hs. rewrite stripDashes_fixed_points in Hs.
    unfold validate_name. destruct s as [ | c s]; [now contradiction Hne | ].
    cbn [String.length Nat.eqb].
    destruct (contains_char "-"%char (String c s)),
             (contains_char " "%char (String c s)); cbn; try reflexivity.
    exfalso. now apply Hs.
  - unfold validate_displayName. destruct s; cbn; split;
      try discriminate; try reflexivity; intros H; now contradiction H.
Qed.
End NameFacts.

(** * More about ejectAsync *)

(** The question about the method is the only prompt with one question. *)
Definition not_method_question (ev : Eject.event) : bool :=
  match ev with
  | Eject.EvPrompt questions _ => negb (length questions =? 1)%nat
  | _ => true
  end.

Definition is_prompt (ev : Eject.event) : bool :=
  match ev with
  | Eject.EvPrompt _ _ => true
  | _ => false
  end.

Section EjectAsyncFacts.
Import Eject.
Variable env : Env.

#[local] Hint Resolve read_appJson_stays getAppNamesAsync_stays
  validateProject_stays customizeAppJson_stays : eject.

Lemma forallb_quiet_preamble (t : list event) :
  forallb is_preamble t = true -> forallb quiet t = true.
Proof.
  rewrite !forallb_forall. intros H ev Hin. specialize (H ev Hin).
  destruct ev; try discriminate; reflexivity.
Qed.

Lemma gitWorkingTreeStatus_spec :
  gitWorkingTreeStatus env =
  ([EvGitStatus],
   Ret match git_status env with
       | inl _ => "unknown"
       | inr stdout => if String.eqb stdout EmptyString then "clean" else "dirty"
       end).
Proof.
  unfold gitWorkingTreeStatus. destruct (git_status env) as [e | stdout];
    reflexivity.
Qed.

Lemma reportWorkingTree_returns status :
  exists t, reportWorkingTree status = (t, Ret tt) /\
            forallb is_preamble t = true /\
            last t EvGitStatus = EvLogNested (plain EmptyString).
Proof.
  unfold reportWorkingTree.
  destruct (String.eqb status "clean"); [ | destruct (String.eqb status "dirty")];
    eexists; (split; [reflexivity | split; reflexivity]).
Qed.

Definition working_tree_status (answer : throws string) : string :=
  match answer with
  | inl _ => "unknown"
  | inr stdout => if String.eqb stdout EmptyString then "clean" else "dirty"
  end.

Lemma report_has_no_prompt status report :
  reportWorkingTree status = (report, Ret tt) ->
  forallb (fun ev => negb (is_prompt ev)) report = true.
Proof.
  unfold reportWorkingTree.
  destruct (String.eqb status "clean"); [ | destruct (String.eqb status "dirty")];
    intros [= <-]; reflexivity.
Qed.

Lemma resolved_method_spec options :
  exists report,
    reportWorkingTree (working_tree_status (git_status env)) = (report, Ret tt) /\
    forallb is_preamble report = true /\
    forallb (fun ev => negb (is_prompt ev)) report = true /\
    last report EvGitStatus = EvLogNested (plain EmptyString) /\
    resolved_method env options
    = (EvGitStatus :: report ++ Run.trace (resolveEjectMethod env options),
       Run.result (resolveEjectMethod env options)).
Proof.
  destruct (reportWorkingTree_returns (working_tree_status (git_status env)))
    as (report & Hr & Hp & Hl).
  exists report. split; [exact Hr | ]. split; [exact Hp | ].
  split; [now apply (report_has_no_prompt _ _ Hr) | ]. split; [exact Hl | ].
  unfold resolved_method.
  rewrite (bind_returns _ _ _ _ gitWorkingTreeStatus_spec).
  fold (working_tree_status (git_status env)).
  rewrite (bind_returns _ _ _ _ Hr). reflexivity.
Qed.

(** Whatever git answers, and also when it cannot be run, ejectAsync goes
    on: the working tree is clean when git printed nothing, dirty when it
    printed something, unknown when the command failed; the report ends
    with an empty line and the method is resolved next. *)
Theorem git_failure_does_not_stop_eject options :
  exists status report,
    gitWorkingTreeStatus env = ([EvGitStatus], Ret status) /\
    (status = "clean" <-> git_status env = ok EmptyString) /\
    (status = "unknown" <-> exists e, git_status env = fails e) /\
    (status = "dirty" <->
       exists stdout, git_status env = ok stdout /\ stdout <> EmptyString) /\
    reportWorkingTree status = (report, Ret tt) /\
    last report EvGitStatus = EvLogNested (plain EmptyString) /\
    resolved_method env options
    = (EvGitStatus :: report ++ Run.trace (resolveEjectMethod env options),
       Run.result (resolveEjectMethod env options)).
Proof.
  destruct (resolved_method_spec options) as (report & Hr & _ & _ & Hl & E).
  exists (working_tree_status (git_status env)), report.
  split; [apply gitWorkingTreeStatus_spec | ].
  split; [ | split; [ | split; [ | split; [exact Hr | split; [exact Hl | exact E]]]]].
  - unfold working_tree_status.
    destruct (git_status env) as [e | stdout]; [split; discriminate | ].
    destruct (String.eqb stdout EmptyString) eqn:Es.
    + apply String.eqb_eq in Es. subst. tauto.
    + split; [discriminate | ]. intros [= ->]. discriminate.
  - unfold working_tree_status.
    destruct (git_status env) as [e | stdout]; [split; eauto | ].
    split; [ | intros [e H]; discriminate].
    destruct (String.eqb stdout EmptyString); discriminate.
  - unfold working_tree_status. destruct (git_status env) as [e | stdout].
    + split; [discriminate | intros (s & H & _); discriminate].
    + destruct (String.eqb stdout EmptyString) eqn:Es.
      * apply String.eqb_eq in Es. subst. split; [discriminate | ].
        intros (s & [= <-] & H). now contradiction H.
      * split; [intros _ | reflexivity]. exists stdout. split; [reflexivity | ].
        intros ->. discriminate.
Qed.

Lemma read_appJson_not_method configPath configName :
  Run.every not_method_question (read_appJson env configPath configName).
Proof. now apply read_appJson_every. Qed.

#[local] Hint Resolve read_appJson_not_method : eject.

Lemma ejectToBareAsync_not_method projectRoot options :
  Run.every not_method_question (ejectToBareAsync env projectRoot options).
Proof.
  unfold ejectToBareAsync, validateProject, customizeAppJson, getAppNamesAsync,
    extractAndCopy, extractionFailed, updateManifests, log.
  walk.
Qed.

Lemma dispatch_not_method projectRoot options method :
  Run.every not_method_question (dispatch env projectRoot options method).
Proof.
  pose proof (ejectToBareAsync_not_method projectRoot options).
  unfold dispatch, log. walk.
Qed.

(** The prompts of a trace that ask a single question. *)
Definition method_questions (t : list event) : list event :=
  filter (fun ev => negb (not_method_question ev)) t.

Lemma method_questions_app (t1 t2 : list event) :
  method_questions (t1 ++ t2) = method_questions t1 ++ method_questions t2.
Proof. apply filter_app. Qed.

Lemma method_questions_none (t : list event) :
  forallb not_method_question t = true -> method_questions t = [].
Proof.
  unfold method_questions. induction t as [ | ev t IH]; [reflexivity | ].
  cbn. destruct (not_method_question ev); [exact IH | discriminate].
Qed.

Lemma no_prompt_no_method_question (t : list event) :
  forallb (fun ev => negb (is_prompt ev)) t = true ->
  forallb not_method_question t = true.
Proof.
  rewrite !forallb_forall. intros H ev Hin. specialize (H ev Hin).
  destruct ev; try reflexivity. discriminate.
Qed.

End EjectAsyncFacts.

Section EjectEndings.
Import Eject.
Variable env : Env.

#[local] Hint Resolve read_appJson_stays getAppNamesAsync_stays
  validateProject_stays customizeAppJson_stays : eject.

Lemma extractAndCopy_stays projectRoot spec appJson :
  Run.stays (extractAndCopy env projectRoot spec appJson).
Proof. unfold extractAndCopy, log. walk. Qed.

Lemma updateManifests_stays useYarn exp pkgJson appJson :
  Run.stays (updateManifests env useYarn exp pkgJson appJson).
Proof. unfold updateManifests, log. walk. Qed.

Lemma expokit_eject_stays projectRoot options :
  Run.stays (expokit_eject env projectRoot options).
Proof. unfold expokit_eject, log. walk. Qed.

Lemma resolved_method_stays options :
  Run.stays (resolved_method env options).
Proof.
  unfold resolved_method, gitWorkingTreeStatus, reportWorkingTree,
    resolveEjectMethod, log_nested. walk.
Qed.

(** The only way out of ejectToBareAsync through process.exit is the catch
    block of the extraction. *)
Lemma ejectToBareAsync_exit_inv projectRoot options c :
  Run.result (ejectToBareAsync env projectRoot options) = Exit c ->
  exists v appJson t1 t2 tb e,
    validateProject env projectRoot = (t1, Ret v) /\
    customizeAppJson env projectRoot (v_appJson v) = (t2, Ret appJson) /\
    extractAndCopy env projectRoot (v_templateSpec v) appJson = (tb, Throw e) /\
    c = 1%Z.
Proof.
  unfold ejectToBareAsync.
  destruct (validateProject env projectRoot) as [t1 [v | e | c']] eqn:Hv.
  2: discriminate.
  2: { exfalso. apply (validateProject_stays env projectRoot c'). now rewrite Hv. }
  rewrite (bind_returns _ _ _ _ eq_refl). cbn [Run.result snd].
  destruct (customizeAppJson env projectRoot (v_appJson v))
    as [t2 [appJson | e | c']] eqn:Hc.
  2: discriminate.
  2: { exfalso.
       apply (customizeAppJson_stays env projectRoot (v_appJson v) c').
       now rewrite Hc. }
  rewrite (bind_returns _ _ _ _ eq_refl). cbn [Run.result snd].
  destruct (extractAndCopy env projectRoot (v_templateSpec v) appJson)
    as [tb [[] | e | c']] eqn:Hx.
  - cbn [Run.try_catch]. rewrite (bind_returns _ _ _ _ eq_refl).
    cbn [Run.result snd]. intros R. exfalso.
    now apply (updateManifests_stays (v_useYarn v) (v_exp v) (v_pkgJson v)
                                     appJson c).
  - rewrite (try_catch_throws _ _ _ _ eq_refl), extractionFailed_spec.
    cbn. intros [= <-]. now exists v, appJson, t1, t2, tb, e.
  - exfalso.
    apply (extractAndCopy_stays projectRoot (v_templateSpec v) appJson c').
    now rewrite Hx.
Qed.

(** ejectAsync ends the process only with code 1, only in the bare eject,
    and only after the three lines of the failure report: the run stops
    right there. *)
Theorem ejectAsync_exits_only_after_failure_report projectRoot options code :
  Run.result (ejectAsync env projectRoot options) = Exit code ->
  code = 1%Z /\
  (exists t0, resolved_method env options = (t0, Ret (JStr "bare"))) /\
  exists t e,
    Run.trace (ejectAsync env projectRoot options)
    = t ++ [ EvLog [(Red, error_message e)];
             EvLog [(Red, "Eject failed, see above output for any issues.")];
             EvLog [(Yellow, "You may want to delete the `ios` and/or `android` directories.")] ].
Proof.
  rewrite ejectAsync_resolved.
  destruct (resolved_method env options) as [t0 [method | e | c']] eqn:Hres.
  2: discriminate.
  2: { intros _. exfalso. apply (resolved_method_stays options c').
       now rewrite Hres. }
  rewrite (bind_returns _ _ _ _ eq_refl). cbn [Run.result Run.trace fst snd].
  destruct (method_kind_of method) as [-> | -> | -> | B X C].
  - rewrite dispatch_bare, result_bind, trace_bind.
    destruct (Run.result (ejectToBareAsync env projectRoot options))
      as [[] | e | c'] eqn:R; try discriminate.
    intros [= ->].
    destruct (ejectToBareAsync_exit_inv projectRoot options code R)
      as (v & appJson & t1 & t2 & tb & e & Hv & Hc & Hx & ->).
    split; [reflexivity | ]. split; [now exists t0 | ].
    rewrite (ejectToBareAsync_extraction_throws env projectRoot options
               v appJson t1 t2 tb e Hv Hc Hx).
    exists (t0 ++ t1 ++ t2 ++ tb), e. cbn [Run.trace fst].
    unfold failure_report. now rewrite <- !app_assoc.
  - rewrite dispatch_expokit. intros R. exfalso.
    now apply (expokit_eject_stays projectRoot options code).
  - rewrite dispatch_cancel. discriminate.
  - rewrite (dispatch_other _ _ _ _ B X C). discriminate.
Qed.

(** Unless the method is resolved to bare or to expokit, ejectAsync
    changes nothing: a cancellation, an unknown method and a prompt that
    fails all leave the disk as it was, and none of them ends the process,
    with whatever exit code. *)
Theorem ejectAsync_untouched_unless_ejecting projectRoot options :
  (forall t0, resolved_method env options <> (t0, Ret (JStr "bare"))) ->
  (forall t0, resolved_method env options <> (t0, Ret (JStr "expokit"))) ->
  forallb quiet (Run.trace (ejectAsync env projectRoot options)) = true /\
  (forall d, disk_after d (Run.trace (ejectAsync env projectRoot options)) = d) /\
  (forall code, Run.result (ejectAsync env projectRoot options) <> Exit code).
Proof.
  intros NB NX.
  assert (Q : forallb quiet (Run.trace (ejectAsync env projectRoot options)) = true /\
              forall code,
                Run.result (ejectAsync env projectRoot options) <> Exit code).
  { rewrite ejectAsync_resolved.
    pose proof (resolved_method_preamble env options) as Pre.
    unfold Run.every in Pre.
    destruct (resolved_method env options) as [t0 [method | e | c']] eqn:Hres;
      cbn [Run.trace fst] in Pre.
    - rewrite (bind_returns _ _ _ _ eq_refl). cbn [Run.result Run.trace fst snd].
      rewrite forallb_app, (forallb_quiet_preamble _ Pre).
      destruct (method_kind_of method) as [-> | -> | -> | B X C].
      + now contradiction (NB t0).
      + now contradiction (NX t0).
      + rewrite dispatch_cancel. split; [reflexivity | discriminate].
      + rewrite (dispatch_other _ _ _ _ B X C). split; [reflexivity | discriminate].
    - cbn. split; [now apply forallb_quiet_preamble | discriminate].
    - exfalso. apply (resolved_method_stays options c'). now rewrite Hres. }
  destruct Q as [Q R]. split; [exact Q | ]. split; [ | exact R].
  intros d. now apply quiet_keeps_disk.
Qed.
End EjectEndings.

(** * More sample machines *)

Module SampleMore.
Import Eject.

(** [e] with one answer replaced. *)
Definition with_semver (semver : option (jsval -> throws N)) (e : Env) : Env :=
  {| git_status := git_status e;
     prompt := prompt e;
     loginOrRegisterIfLoggedOut := loginOrRegisterIfLoggedOut e;
     Detach_detachAsync := Detach_detachAsync e;
     ConfigUtils_isUsingYarn := ConfigUtils_isUsingYarn e;
     ConfigUtils_findConfigFileAsync := ConfigUtils_findConfigFileAsync e;
     ProjectUtils_readConfigJsonAsync := ProjectUtils_readConfigJsonAsync e;
     ConfigUtils_readConfigJsonAsync := ConfigUtils_readConfigJsonAsync e;
     fse_readFile := fse_readFile e;
     JSON_parse := JSON_parse e;
     Versions_gteSdkVersion := Versions_gteSdkVersion e;
     global_semver := semver;
     npmPackageArg := npmPackageArg e;
     pacote_manifest := pacote_manifest e;
     cwd := cwd e;
     fse_writeFile := fse_writeFile e;
     tmp_dirSync := tmp_dirSync e;
     Exp_extractTemplateAppAsync := Exp_extractTemplateAppAsync e;
     fse_copySync := fse_copySync e;
     tmp_removeCallback := tmp_removeCallback e;
     Versions_versionsAsync := Versions_versionsAsync e;
     fse_remove := fse_remove e |}.

Definition with_manifest (manifest : PackageSpec -> throws unit) (e : Env) : Env :=
  {| git_status := git_status e;
     prompt := prompt e;
     loginOrRegisterIfLoggedOut := loginOrRegisterIfLoggedOut e;
     Detach_detachAsync := Detach_detachAsync e;
     ConfigUtils_isUsingYarn := ConfigUtils_isUsingYarn e;
     ConfigUtils_findConfigFileAsync := ConfigUtils_findConfigFileAsync e;
     ProjectUtils_readConfigJsonAsync := ProjectUtils_readConfigJsonAsync e;
     ConfigUtils_readConfigJsonAsync := ConfigUtils_readConfigJsonAsync e;
     fse_readFile := fse_readFile e;
     JSON_parse := JSON_parse e;
     Versions_gteSdkVersion := Versions_gteSdkVersion e;
     global_semver := global_semver e;
     npmPackageArg := npmPackageArg e;
     pacote_manifest := manifest;
     cwd := cwd e;
     fse_writeFile := fse_writeFile e;
     tmp_dirSync := tmp_dirSync e;
     Exp_extractTemplateAppAsync := Exp_extractTemplateAppAsync e;
     fse_copySync := fse_copySync e;
     tmp_removeCallback := tmp_removeCallback e;
     Versions_versionsAsync := Versions_versionsAsync e;
     fse_remove := fse_remove e |}.

Definition with_copy (copy : string -> string -> throws unit) (e : Env) : Env :=
  {| git_status := git_status e;
     prompt := prompt e;
     loginOrRegisterIfLoggedOut := loginOrRegisterIfLoggedOut e;
     Detach_detachAsync := Detach_detachAsync e;
     ConfigUtils_isUsingYarn := ConfigUtils_isUsingYarn e;
     ConfigUtils_findConfigFileAsync := ConfigUtils_findConfigFileAsync e;
     ProjectUtils_readConfigJsonAsync := ProjectUtils_readConfigJsonAsync e;
     ConfigUtils_readConfigJsonAsync := ConfigUtils_readConfigJsonAsync e;
     fse_readFile := fse_readFile e;
     JSON_parse := JSON_parse e;
     Versions_gteSdkVersion := Versions_gteSdkVersion e;
     global_semver := global_semver e;
     npmPackageArg := npmPackageArg e;
     pacote_manifest := pacote_manifest e;
     cwd := cwd e;
     fse_writeFile := fse_writeFile e;
     tmp_dirSync := tmp_dirSync e;
     Exp_extractTemplateAppAsync := Exp_extractTemplateAppAsync e;
     fse_copySync := copy;
     tmp_removeCallback := tmp_removeCallback e;
     Versions_versionsAsync := Versions_versionsAsync e;
     fse_remove := fse_remove e |}.

Definition with_git (git : throws string) (e : Env) : Env :=
  {| git_status := git;
     prompt := prompt e;
     loginOrRegisterIfLoggedOut := loginOrRegisterIfLoggedOut e;
     Detach_detachAsync := Detach_detachAsync e;
     ConfigUtils_isUsingYarn := ConfigUtils_isUsingYarn e;
     ConfigUtils_findConfigFileAsync := ConfigUtils_findConfigFileAsync e;
     ProjectUtils_readConfigJsonAsync := ProjectUtils_readConfigJsonAsync e;
     ConfigUtils_readConfigJsonAsync := ConfigUtils_readConfigJsonAsync e;
     fse_readFile := fse_readFile e;
     JSON_parse := JSON_parse e;
     Versions_gteSdkVersion := Versions_gteSdkVersion e;
     global_semver := global_semver e;
     npmPackageArg := npmPackageArg e;
     pacote_manifest := pacote_manifest e;
     cwd := cwd e;
     fse_writeFile := fse_writeFile e;
     tmp_dirSync := tmp_dirSync e;
     Exp_extractTemplateAppAsync := Exp_extractTemplateAppAsync e;
     fse_copySync := fse_copySync e;
     tmp_removeCallback := tmp_removeCallback e;
     Versions_versionsAsync := Versions_versionsAsync e;
     fse_remove := fse_remove e |}.

(** The sample machine as Node starts it: no global named semver. *)
Definition env_no_semver : Env := with_semver None Sample.env.

(** The registry has no bare template for this SDK. *)
Definition env_no_template : Env :=
  with_manifest (fun _ => fails (Error "404 Not Found")) Sample.env_named.

(** The android directory cannot be copied. *)
Definition env_android_fails : Env :=
  with_copy (fun src _ =>
               if String.eqb src "/tmp/tmp-1/android"
               then fails (Error "ENOSPC: no space left on device")
               else ok tt)
            Sample.env_named.

(** git is not installed. *)
Definition env_no_git : Env :=
  with_git (fails (Error "spawn git ENOENT")) Sample.env.

Definition cancel : Options := {| ejectMethod := JStr "cancel" |}.
Definition no_method : Options := {| ejectMethod := JUndefined |}.

End SampleMore.

(** * The validations, one by one *)

Section ValidationMessages.
Import Eject.
Variable env : Env.

Lemma validateProject_read projectRoot configPath configName exp pkgJson ta appJson :
  ConfigUtils_findConfigFileAsync env projectRoot = ok (configPath, configName) ->
  ProjectUtils_readConfigJsonAsync env projectRoot = ok (exp, pkgJson) ->
  read_appJson env configPath configName = (ta, Ret appJson) ->
  validateProject env projectRoot =
  (let reads := [EvIsUsingYarn projectRoot; EvFindConfigFile projectRoot;
                 EvProjectReadConfig projectRoot] ++ ta in
   if falsy exp then (reads, Throw (Error ("Couldn't read " ^^ configName)))
   else if falsy pkgJson then (reads, Throw (Error "Couldn't read package.json"))
   else
     match Versions_gteSdkVersion env exp "33.0.0" with
     | inl e => (reads, Throw e)
     | inr false =>
         (reads,
          Throw (Error "Ejecting to a bare project is only available for SDK 33 and higher"))
     | inr true =>
         match get_prop exp "sdkVersion" with
         | inl e => (reads, Throw e)
         | inr sdkVersion =>
             match semver_major env sdkVersion with
             | inl e => (reads, Throw e)
             | inr major =>
                 let n := NilZero.string_of_uint (N.to_uint major) in
                 match npmPackageArg env ("expo-template-bare-minimum@sdk-" ^^ n) with
                 | inl e => (reads, Throw e)
                 | inr spec =>
                     (reads ++ [EvManifest spec],
                      match pacote_manifest env spec with
                      | inl _ =>
                          Throw (Error
                            ("Unable to eject because an eject template for SDK "
                               ^^ n ^^ " was not found"))
                      | inr _ =>
                          Ret {| v_useYarn := ConfigUtils_isUsingYarn env projectRoot;
                                 v_exp := exp; v_pkgJson := pkgJson;
                                 v_appJson := appJson; v_templateSpec := spec |}
                      end)
                 end
             end
         end
     end).
Proof.
  intros Hf Hr Ha. unfold validateProject. rewrite Hf, Hr.
  cbn [Run.call Run.bind ok]. rewrite Ha. cbn [Run.bind].
  destruct (falsy exp); [cbn; now rewrite app_nil_r | ].
  destruct (falsy pkgJson); [cbn; now rewrite app_nil_r | ].
  destruct (Versions_gteSdkVersion env exp "33.0.0") as [e | []];
    cbn; rewrite ?app_nil_r; try reflexivity.
  destruct (get_prop exp "sdkVersion") as [e | sdkVersion];
    cbn; rewrite ?app_nil_r; try reflexivity.
  destruct (semver_major env sdkVersion) as [e | major];
    cbn; rewrite ?app_nil_r; try reflexivity.
  destruct (npmPackageArg env _) as [e | spec];
    cbn; rewrite ?app_nil_r; try reflexivity.
  destruct (pacote_manifest env spec) as [e | []]; cbn; rewrite ?app_nil_r;
    reflexivity.
Qed.

(** The validations fail in the order of the source, each with its own
    message: the configuration first, then package.json, then the SDK
    version, then the template, whose own fetch error is replaced by a
    message naming the SDK major version.  Nothing but the reads and the
    manifest fetch has happened by then. *)
Theorem ejectToBareAsync_validation_messages
        projectRoot options configPath configName exp pkgJson ta appJson :
  ConfigUtils_findConfigFileAsync env projectRoot = ok (configPath, configName) ->
  ProjectUtils_readConfigJsonAsync env projectRoot = ok (exp, pkgJson) ->
  read_appJson env configPath configName = (ta, Ret appJson) ->
  let reads := [EvIsUsingYarn projectRoot; EvFindConfigFile projectRoot;
                EvProjectReadConfig projectRoot] ++ ta in
  (falsy exp = true ->
     ejectToBareAsync env projectRoot options
     = (reads, Throw (Error ("Couldn't read " ^^ configName)))) /\
  (falsy exp = false -> falsy pkgJson = true ->
     ejectToBareAsync env projectRoot options
     = (reads, Throw (Error "Couldn't read package.json"))) /\
  (falsy exp = false -> falsy pkgJson = false ->
   Versions_gteSdkVersion env exp "33.0.0" = ok false ->
     ejectToBareAsync env projectRoot options
     = (reads,
        Throw (Error "Ejecting to a bare project is only available for SDK 33 and higher"))) /\
  (falsy exp = false -> falsy pkgJson = false ->
   Versions_gteSdkVersion env exp "33.0.0" = ok true ->
   forall sdkVersion major spec e,
     get_prop exp "sdkVersion" = ok sdkVersion ->
     semver_major env sdkVersion = ok major ->
     npmPackageArg env ("expo-template-bare-minimum@sdk-"
                          ^^ NilZero.string_of_uint (N.to_uint major)) = ok spec ->
     pacote_manifest env spec = fails e ->
     ejectToBareAsync env projectRoot options
     = (reads ++ [EvManifest spec],
        Throw (Error ("Unable to eject because an eject template for SDK "
                        ^^ NilZero.string_of_uint (N.to_uint major)
                        ^^ " was not found")))).
Proof.
  intros Hf Hr Ha reads.
  pose proof (validateProject_read projectRoot configPath configName exp pkgJson
                ta appJson Hf Hr Ha) as V. cbv zeta in V. fold reads in V.
  split; [ | split; [ | split]].
  - intros F. rewrite F in V. now apply ejectToBareAsync_validation_throws.
  - intros F1 F2. rewrite F1, F2 in V.
    now apply ejectToBareAsync_validation_throws.
  - intros F1 F2 G. rewrite F1, F2, G in V.
    now apply ejectToBareAsync_validation_throws.
  - intros F1 F2 G sdkVersion major spec e H1 H2 H3 H4.
    rewrite F1, F2, G in V. unfold ok, fails in *.
    rewrite H1 in V. cbv beta iota in V. rewrite H2 in V.
    cbv beta iota zeta in V. rewrite H3 in V. cbv beta iota in V.
    rewrite H4 in V. now apply ejectToBareAsync_validation_throws.
Qed.

(** Where no global named semver exists, the module's missing import makes
    every bare eject fail: ejectToBareAsync throws and has changed nothing,
    and a project that passes the SDK check fails with the ReferenceError
    before the template is looked up. *)
Theorem ejectToBareAsync_without_semver projectRoot options :
  global_semver env = None ->
  (exists t e,
      ejectToBareAsync env projectRoot options = (t, Throw e) /\
      forallb quiet t = true /\
      (forall d, disk_after d t = d)) /\
  (forall configPath configName exp pkgJson ta appJson,
      ConfigUtils_findConfigFileAsync env projectRoot = ok (configPath, configName) ->
      ProjectUtils_readConfigJsonAsync env projectRoot = ok (exp, pkgJson) ->
      read_appJson env configPath configName = (ta, Ret appJson) ->
      falsy exp = false -> falsy pkgJson = false ->
      Versions_gteSdkVersion env exp "33.0.0" = ok true ->
      ejectToBareAsync env projectRoot options
      = ([EvIsUsingYarn projectRoot; EvFindConfigFile projectRoot;
          EvProjectReadConfig projectRoot] ++ ta,
         Throw (ReferenceError "semver is not defined"))).
Proof.
  intros S. split.
  - destruct (validateProject env projectRoot) as [t [v | e | c]] eqn:E.
    + exfalso. apply validateProject_returns in E as (_ & _ & _ & _ & T & _).
      unfold template_spec_of, semver_major in T. rewrite S in T.
      destruct (get_prop (v_exp v) "sdkVersion"); discriminate.
    + exists t, e.
      pose proof (validateProject_quiet env projectRoot) as Q.
      unfold Run.every in Q. rewrite E in Q. cbn [Run.trace fst] in Q.
      split; [now apply ejectToBareAsync_validation_throws | ].
      split; [exact Q | intros d; now apply quiet_keeps_disk].
    + exfalso. apply (validateProject_stays env projectRoot c). now rewrite E.
  - intros configPath configName exp pkgJson ta appJson Hf Hr Ha F1 F2 G.
    pose proof (validateProject_read projectRoot configPath configName exp pkgJson
                  ta appJson Hf Hr Ha) as V. cbv zeta in V.
    rewrite F1, F2, G in V. unfold semver_major in V. rewrite S in V.
    apply ejectToBareAsync_validation_throws. rewrite V.
    unfold falsy in F1. destruct exp; try discriminate; reflexivity.
Qed.
End ValidationMessages.

(** * More about the names prompt *)

Section NamesPrompt.
Import Eject.
Variable env : Env.

(** When one of the two names is missing, both are asked again and both
    values returned are the answers of the prompt, also the one app.json
    did have; a prompt that fails is the failure of getAppNamesAsync. *)
Theorem getAppNamesAsync_returns_the_answers
        projectRoot configPath exp pkgJson data appJson displayName name dd dn :
  ConfigUtils_findConfigFileAsync env projectRoot = ok (configPath, "app.json") ->
  ConfigUtils_readConfigJsonAsync env projectRoot = ok (exp, pkgJson) ->
  fse_readFile env configPath = ok data ->
  JSON_parse env data = ok appJson ->
  get_prop appJson "displayName" = ok displayName ->
  get_prop appJson "name" = ok name ->
  falsy displayName = true \/ falsy name = true ->
  question_defaults exp pkgJson name = ok (dd, dn) ->
  let asked := names_reads projectRoot configPath ++
                 [EvLog names_announcement;
                  EvPrompt (name_questions dd dn) names_help] in
  (forall answers d n,
      prompt env (name_questions dd dn) names_help = ok answers ->
      get_prop answers "displayName" = ok d ->
      get_prop answers "name" = ok n ->
      getAppNamesAsync env projectRoot = (asked, Ret (d, n))) /\
  (forall e,
      prompt env (name_questions dd dn) names_help = fails e ->
      getAppNamesAsync env projectRoot = (asked, Throw e)).
Proof.
  intros H1 H2 H3 H4 H5 H6 F D asked.
  pose proof (getAppNamesAsync_unfold env projectRoot configPath exp pkgJson data
                appJson displayName name H1 H2 H3 H4 H5 H6) as E.
  assert (falsy displayName || falsy name = true) as B
      by (apply orb_true_iff; exact F).
  rewrite B, D in E. unfold ok in E. cbv beta iota in E. split.
  - intros answers d n P Gd Gn. rewrite E, P. unfold ok. cbv beta iota.
    rewrite Gd, Gn. reflexivity.
  - intros e P. rewrite E, P. reflexivity.
Qed.

(** A project whose configuration file is not named app.json is always
    taken as one without names: no file is read for them and the
    announcement is always printed.  When the defaults of the two
    questions can be computed, the prompt follows, offering the name of
    the Expo configuration as display name, and its answers are what is
    returned; when they cannot, their error is thrown right after the
    announcement and nothing is asked. *)
Theorem getAppNamesAsync_other_config_file
        projectRoot configPath configName exp pkgJson :
  ConfigUtils_findConfigFileAsync env projectRoot = ok (configPath, configName) ->
  configName <> "app.json" ->
  ConfigUtils_readConfigJsonAsync env projectRoot = ok (exp, pkgJson) ->
  (forall path,
      ~ In (EvReadFile path) (Run.trace (getAppNamesAsync env projectRoot))) /\
  In (EvLog names_announcement) (Run.trace (getAppNamesAsync env projectRoot)) /\
  match question_defaults exp pkgJson JUndefined with
  | inl e =>
      getAppNamesAsync env projectRoot
      = ([EvFindConfigFile projectRoot; EvConfigReadConfig projectRoot;
          EvLog names_announcement],
         Throw e)
  | inr (dd, dn) =>
      get_prop exp "name" = ok dd /\
      getAppNamesAsync env projectRoot
      = ([EvFindConfigFile projectRoot; EvConfigReadConfig projectRoot;
          EvLog names_announcement;
          EvPrompt (name_questions dd dn) names_help],
         match prompt env (name_questions dd dn) names_help with
         | inl e => Throw e
         | inr answers =>
             match get_prop answers "displayName", get_prop answers "name" with
             | inr d, inr n => Ret (d, n)
             | inl e, _ => Throw e
             | _, inl e => Throw e
             end
         end)
  end.
Proof.
  intros H1 Hn H2.
  assert (E : getAppNamesAsync env projectRoot =
              match question_defaults exp pkgJson JUndefined with
              | inl e =>
                  ([EvFindConfigFile projectRoot; EvConfigReadConfig projectRoot;
                    EvLog names_announcement],
                   Throw e)
              | inr (dd, dn) =>
                  ([EvFindConfigFile projectRoot; EvConfigReadConfig projectRoot;
                    EvLog names_announcement;
                    EvPrompt (name_questions dd dn) names_help],
                   match prompt env (name_questions dd dn) names_help with
                   | inl e => Throw e
                   | inr answers =>
                       match get_prop answers "displayName",
                             get_prop answers "name" with
                       | inr d, inr n => Ret (d, n)
                       | inl e, _ => Throw e
                       | _, inl e => Throw e
                       end
                   end)
              end).
  { unfold getAppNamesAsync, read_appJson.
    rewrite H1, H2. apply String.eqb_neq in Hn.
    cbn -[names_help name_questions names_announcement String.eqb question_defaults].
    rewrite Hn.
    cbn -[names_help name_questions names_announcement question_defaults].
    destruct (question_defaults exp pkgJson JUndefined) as [e | [dd dn]];
      [reflexivity | ].
    cbn -[names_help name_questions names_announcement].
    destruct (prompt env (name_questions dd dn) names_help) as [e | answers];
      [reflexivity | ].
    cbn -[names_help name_questions names_announcement].
    destruct (get_prop answers "displayName") as [e | d]; [reflexivity | ].
    cbn -[names_help name_questions names_announcement].
    destruct (get_prop answers "name") as [e | n]; reflexivity. }
  split; [ | split].
  - intros path Hin. rewrite E in Hin.
    destruct (question_defaults exp pkgJson JUndefined) as [e | [dd dn]];
      cbn [Run.trace fst In] in Hin;
      repeat (destruct Hin as [Hin | Hin]; [discriminate | ]); exact Hin.
  - rewrite E.
    destruct (question_defaults exp pkgJson JUndefined) as [e | [dd dn]];
      cbn [Run.trace fst In]; auto.
  - destruct (question_defaults exp pkgJson JUndefined) as [e | [dd dn]] eqn:D;
      [exact E | ].
    split; [ | exact E].
    unfold question_defaults in D. cbn [truthy] in D. unfold ok in *.
    destruct (get_prop exp "name") as [e | x]; [discriminate | ].
    cbn in D. destruct (get_prop pkgJson "name") as [e | pn]; [discriminate | ].
    cbn in D. destruct (truthy pn); cbn in D.
    + destruct (stripDashes_value pn); [discriminate | ]. cbn in D. congruence.
    + congruence.
Qed.

(** The defaults offered by the two questions.  The display name defaults
    to the name in app.json or else to the name of the Expo configuration;
    the project name defaults to the package name without hyphens and
    spaces, which the validator of that question accepts unless nothing is
    left, and to nothing when the package has no name.  Without a package
    manifest, or without an Expo configuration when app.json has no name,
    building the questions throws a TypeError. *)
Theorem question_defaults_spec (exp pkgJson name : jsval) :
  (forall dd dn, question_defaults exp pkgJson name = ok (dd, dn) ->
     (truthy name = true -> dd = name) /\
     (truthy name = false -> get_prop exp "name" = ok dd) /\
     (forall n, get_prop pkgJson "name" = ok (JStr n) -> n <> EmptyString ->
        dn = JStr (stripDashes n) /\
        (validate_name (stripDashes n) = Valid \/ stripDashes n = EmptyString)) /\
     (forall pn, get_prop pkgJson "name" = ok pn -> truthy pn = false ->
        dn = JUndefined)) /\
  (pkgJson = JUndefined \/ pkgJson = JNull ->
     exists e, question_defaults exp pkgJson name = fails e) /\
  (exp = JUndefined \/ exp = JNull -> truthy name = false ->
     exists e, question_defaults exp pkgJson name = fails e).
Proof.
  split; [ | split].
  - intros dd dn D. unfold question_defaults in D.
    destruct (truthy name) eqn:T.
    + cbn in D. destruct (get_prop pkgJson "name") as [e | pn]; [discriminate | ].
      cbn in D. destruct (truthy pn) eqn:Tp; cbn in D.
      * destruct (stripDashes_value pn) as [e | stripped] eqn:Sv; [discriminate | ].
        cbn in D. injection D as <- <-.
        split; [reflexivity | ]. split; [discriminate | ]. split.
        -- intros n [= ->] Hn. cbn in Sv. injection Sv as <-.
           split; [reflexivity | ].
           destruct (stripDashes n) eqn:Es; [now right | left].
           rewrite <- Es.
           apply validate_name_valid. rewrite Es. split; [discriminate | ].
           rewrite <- Es. apply stripDashes_fixed_points, stripDashes_idempotent.
        -- intros pn' [= <-]. congruence.
      * injection D as <- <-.
        split; [reflexivity | ]. split; [discriminate | ]. split.
        -- intros n [= ->] Hn. destruct n; [now contradiction Hn | discriminate].
        -- reflexivity.
    + destruct (get_prop exp "name") as [e | x]; [discriminate | ].
      cbn in D. destruct (get_prop pkgJson "name") as [e | pn]; [discriminate | ].
      cbn in D. destruct (truthy pn) eqn:Tp; cbn in D.
      * destruct (stripDashes_value pn) as [e | stripped] eqn:Sv; [discriminate | ].
        cbn in D. injection D as <- <-.
        split; [discriminate | ]. split; [reflexivity | ]. split.
        -- intros n [= ->] Hn. cbn in Sv. injection Sv as <-.
           split; [reflexivity | ].
           destruct (stripDashes n) eqn:Es; [now right | left].
           rewrite <- Es.
           apply validate_name_valid. rewrite Es. split; [discriminate | ].
           rewrite <- Es. apply stripDashes_fixed_points, stripDashes_idempotent.
        -- intros pn' [= <-]. congruence.
      * injection D as <- <-.
        split; [discriminate | ]. split; [reflexivity | ]. split.
        -- intros n [= ->] Hn. destruct n; [now contradiction Hn | discriminate].
        -- reflexivity.
  - intros [-> | ->]; unfold question_defaults;
      destruct (truthy name); [ | destruct (get_prop exp "name") | 
                                | destruct (get_prop exp "name")]; cbn; eauto.
  - intros [-> | ->] T; unfold question_defaults; rewrite T; cbn; eauto.
Qed.
End NamesPrompt.

(** * Property reads and writes *)

Section Properties.
Import Eject.

Lemma lookup_assign_same k v props : lookup k (assign k v props) = v.
Proof.
  induction props as [ | [k' v'] props IH]; cbn.
  - now rewrite String.eqb_refl.
  - destruct (String.eqb k' k) eqn:E; cbn; rewrite E; [reflexivity | exact IH].
Qed.

Lemma lookup_assign_other k k' v props :
  k' <> k -> lookup k' (assign k v props) = lookup k' props.
Proof.
  intros N. induction props as [ | [k0 v0] props IH]; cbn.
  - apply String.eqb_neq in N. rewrite String.eqb_sym in N. now rewrite N.
  - destruct (String.eqb k0 k) eqn:E; cbn.
    + apply String.eqb_eq in E. subst k0.
      destruct (String.eqb k k') eqn:E'; [ | reflexivity].
      apply String.eqb_eq in E'. now contradiction N.
    + destruct (String.eqb k0 k'); [reflexivity | exact IH].
Qed.

Lemma lookup_remove_other k k' props :
  k' <> k -> lookup k' (remove k props) = lookup k' props.
Proof.
  intros N. induction props as [ | [k0 v0] props IH]; cbn; [reflexivity | ].
  destruct (String.eqb k0 k) eqn:E; cbn.
  - apply String.eqb_eq in E. subst k0.
    destruct (String.eqb k k') eqn:E'; [ | reflexivity].
    apply String.eqb_eq in E'. now contradiction N.
  - destruct (String.eqb k0 k'); [reflexivity | exact IH].
Qed.

(** After [o.k = v], [o.k] is [v] and the other properties are as before. *)
Lemma set_prop_get o k v o' :
  set_prop o k v = ok o' ->
  get_prop o' k = ok v /\
  (forall k', k' <> k -> get_prop o' k' = get_prop o k').
Proof.
  destruct o; cbn; try discriminate; intros [= <-]; cbn; split;
    try (now rewrite lookup_assign_same);
    intros k' N; now rewrite lookup_assign_other.
Qed.

Lemma modify_prop_get o k f o' :
  modify_prop o k f = ok o' ->
  exists inner inner',
    get_prop o k = ok inner /\ f inner = ok inner' /\
    get_prop o' k = ok inner' /\
    (forall k', k' <> k -> get_prop o' k' = get_prop o k').
Proof.
  unfold modify_prop, and_then.
  destruct (get_prop o k) as [e | inner] eqn:G; [discriminate | ].
  destruct (f inner) as [e | inner'] eqn:F; [discriminate | ].
  intros S. apply set_prop_get in S as [S1 S2].
  now exists inner, inner'.
Qed.

Lemma delete_prop_get o k o' :
  delete_prop o k = ok o' ->
  forall k', k' <> k -> get_prop o' k' = get_prop o k'.
Proof.
  destruct o; cbn; try discriminate; intros [= <-] k' N; cbn;
    try reflexivity; now rewrite lookup_remove_other.
Qed.
End Properties.

(** Takes apart a run that returned, step by step. *)
Ltac returned :=
  repeat
    match goal with
    | H : Run.bind _ _ = (_, Ret _) |- _ =>
        apply bind_inv_ret in H; destruct H as (? & ? & ? & ? & ? & ?)
    | H : Run.call _ _ = (_, Ret _) |- _ =>
        apply call_inv_ret in H; destruct H as [? ?]
    | H : Eject.lift _ = (_, Ret _) |- _ =>
        apply lift_inv_ret in H; destruct H as [? ?]
    | H : Eject.log _ = (_, Ret _) |- _ => unfold Eject.log in H
    | H : Run.emit _ = (_, Ret _) |- _ =>
        unfold Run.emit in H; injection H as ? ?
    | H : Run.ret _ = (_, Ret _) |- _ =>
        unfold Run.ret in H; injection H as ? ?
    | H : Run.throw _ = (_, Ret _) |- _ => discriminate H
    | H : (if ?b then _ else _) = (_, Ret _) |- _ => destruct b eqn:?
    | H : (match ?x with _ => _ end) = (_, Ret _) |- _ => destruct x eqn:?
    end.

Section AppJson.
Import Eject.
Variable env : Env.

(** An entry point of the project's own. *)
Definition custom_entry (entryPoint : jsval) : bool :=
  truthy entryPoint && negb (is_str entryPoint EXPO_APP_ENTRY).

Lemma quiet_no_mutations (t : list event) :
  forallb quiet t = true -> filter mutates t = [].
Proof.
  induction t as [ | ev t IH]; cbn; [reflexivity | ].
  rewrite andb_true_iff. intros [Q Ht]. unfold quiet in Q.
  apply negb_true_iff in Q. rewrite Q. auto.
Qed.

Lemma customizeAppJson_returns projectRoot appJson t a' :
  customizeAppJson env projectRoot appJson = (t, Ret a') ->
  exists tn d n a1 a2 expo ep,
    getAppNamesAsync env projectRoot = (tn, Ret (d, n)) /\
    set_prop appJson "displayName" d = ok a1 /\
    set_prop a1 "name" n = ok a2 /\
    get_prop a2 "expo" = ok expo /\
    get_prop expo "entryPoint" = ok ep /\
    (if custom_entry ep then a' = a2
     else modify_prop a2 "expo"
            (fun expo => set_prop expo "entryPoint" (JStr EXPO_APP_ENTRY)) = ok a') /\
    t = tn ++
        (if custom_entry ep
         then [EvLog [(Yellow, "expo.entryPoint is already configured, we recommend using "
                                 ^^ dq ^^ EXPO_APP_ENTRY)]]
         else []) ++
        [EvLog (plain "Writing app.json...");
         EvWriteFile (path_resolve env "app.json") (JsonPretty a');
         EvLog [(Green, "Wrote to app.json, please update it manually in the future.")]].
Proof.
  unfold customizeAppJson. intros H.
  apply bind_inv_ret in H as (tn & [d n] & t2 & Hn & H & ->).
  apply bind_inv_ret in H as (t3 & a1 & t4 & H1 & H & ->).
  apply lift_inv_ret in H1 as [H1 ->].
  apply bind_inv_ret in H as (t5 & a2 & t6 & H2 & H & ->).
  apply lift_inv_ret in H2 as [H2 ->].
  apply bind_inv_ret in H as (t7 & expo & t8 & H3 & H & ->).
  apply lift_inv_ret in H3 as [H3 ->].
  apply bind_inv_ret in H as (t9 & ep & t10 & H4 & H & ->).
  apply lift_inv_ret in H4 as [H4 ->].
  apply bind_inv_ret in H as (t11 & a3 & t12 & H5 & H & ->).
  fold (custom_entry ep) in H5.
  exists tn, d, n, a1, a2, expo, ep.
  repeat (split; [assumption | ]).
  unfold log in H, H5.
  destruct (custom_entry ep); returned; subst; cbn; rewrite ?app_nil_r;
    split; solve [reflexivity | assumption].
Qed.

(** What customizeAppJson writes.  The app.json it writes, and hands on, has
    the two names returned by getAppNamesAsync; an entry point of the
    project's own is kept, with a warning, and otherwise the entry point
    becomes the Expo one; every other property is as it was read.  The
    write of app.json is the only change it makes. *)
Theorem customizeAppJson_writes_names_and_entry projectRoot appJson t a' :
  customizeAppJson env projectRoot appJson = (t, Ret a') ->
  exists tn d n expo ep expo',
    getAppNamesAsync env projectRoot = (tn, Ret (d, n)) /\
    get_prop a' "displayName" = ok d /\
    get_prop a' "name" = ok n /\
    get_prop appJson "expo" = ok expo /\
    get_prop expo "entryPoint" = ok ep /\
    get_prop a' "expo" = ok expo' /\
    get_prop expo' "entryPoint"
      = ok (if custom_entry ep then ep else JStr EXPO_APP_ENTRY) /\
    (custom_entry ep = true -> expo' = expo) /\
    (forall k, k <> "entryPoint" -> get_prop expo' k = get_prop expo k) /\
    (forall k, k <> "displayName" -> k <> "name" -> k <> "expo" ->
       get_prop a' k = get_prop appJson k) /\
    filter mutates t = [EvWriteFile (path_resolve env "app.json") (JsonPretty a')].
Proof.
  intros H.
  apply customizeAppJson_returns in H
    as (tn & d & n & a1 & a2 & expo & ep & Hn & S1 & S2 & G1 & G2 & Hc & ->).
  apply set_prop_get in S1 as [S1 S1'].
  apply set_prop_get in S2 as [S2 S2'].
  assert (Gexpo : get_prop appJson "expo" = ok expo).
  { rewrite <- S1', <- S2' by discriminate. exact G1. }
  assert (Q : filter mutates tn = []).
  { apply quiet_no_mutations.
    pose proof (getAppNamesAsync_quiet env projectRoot) as Q.
    unfold Run.every in Q. now rewrite Hn in Q. }
  destruct (custom_entry ep) eqn:C.
  - subst a'. exists tn, d, n, expo, ep, expo. rewrite C.
    split; [exact Hn | ].
    split; [rewrite S2' by discriminate; exact S1 | ].
    split; [exact S2 | ]. split; [exact Gexpo | ]. split; [exact G2 | ].
    split; [exact G1 | ]. split; [exact G2 | ]. split; [reflexivity | ].
    split; [reflexivity | ].
    split; [intros k K1 K2 K3; now rewrite S2', S1' | ].
    rewrite !filter_app, Q. reflexivity.
  - apply modify_prop_get in Hc as (inner & inner' & M1 & M2 & M3 & M4).
    rewrite G1 in M1. injection M1 as <-.
    apply set_prop_get in M2 as [M2 M2'].
    exists tn, d, n, expo, ep, inner'. rewrite C.
    split; [exact Hn | ].
    split; [rewrite M4, S2' by discriminate; exact S1 | ].
    split; [rewrite M4 by discriminate; exact S2 | ].
    split; [exact Gexpo | ]. split; [exact G2 | ].
    split; [exact M3 | ]. split; [exact M2 | ]. split; [discriminate | ].
    split; [exact M2' | ].
    split; [intros k K1 K2 K3; now rewrite M4, S2', S1' | ].
    rewrite !filter_app, Q. reflexivity.
Qed.
End AppJson.

(** * What a bare eject changes, and in which order *)

(** The edits of lines 168 to 182, as a function of the package manifest
    and of the React Native version. *)
Definition package_json_edits (pkgJson reactNativeVersion : Eject.jsval)
  : throws Eject.jsval :=
  Eject.and_then (Eject.get_prop pkgJson "scripts") (fun scripts =>
  Eject.and_then (if Eject.falsy scripts
                  then Eject.set_prop pkgJson "scripts" (Eject.JObj [])
                  else ok pkgJson) (fun pkgJson =>
  Eject.and_then (Eject.modify_prop pkgJson "scripts"
                    (fun s => Eject.delete_prop s "eject")) (fun pkgJson =>
  Eject.and_then (Eject.modify_prop pkgJson "scripts"
                    (fun s => Eject.set_prop s "start"
                                (Eject.JStr "react-native start"))) (fun pkgJson =>
  Eject.and_then (Eject.modify_prop pkgJson "scripts"
                    (fun s => Eject.set_prop s "ios"
                                (Eject.JStr "react-native run-ios"))) (fun pkgJson =>
  Eject.and_then (Eject.modify_prop pkgJson "scripts"
                    (fun s => Eject.set_prop s "android"
                                (Eject.JStr "react-native run-android"))) (fun pkgJson =>
  Eject.and_then (Eject.modify_prop pkgJson "dependencies"
                    (fun d => Eject.set_prop d "react-native" reactNativeVersion))
                 (fun pkgJson =>
  Eject.modify_prop pkgJson "dependencies"
    (fun d => Eject.set_prop d "react-native-unimodules" (Eject.JStr "^0.4.1")))))))))
  .

(** [versions.sdkVersions[sdkVersion].facebookReactNativeVersion] for the
    SDK version of the project (lines 176 to 178). *)
Definition react_native_version (exp versions : Eject.jsval) : throws Eject.jsval :=
  Eject.and_then (Eject.get_prop exp "sdkVersion") (fun sdkVersion =>
  Eject.and_then (Eject.get_prop versions "sdkVersions") (fun sdkVersions =>
  Eject.and_then (Eject.get_prop sdkVersions (Eject.to_string sdkVersion))
                 (fun thisVersion =>
  Eject.get_prop thisVersion "facebookReactNativeVersion"))).

(** The install command of lines 205 to 214. *)
Definition install_step (useYarn : bool) : Eject.event :=
  if useYarn then Eject.EvSpawnSync "yarnpkg" [] ["inherit"]
  else Eject.EvSpawnSync "npm" ["install"] ["stdin"; "ignore"; "stderr"].

Ltac use_equations :=
  repeat first
    [ progress cbn [Eject.and_then ok]
    | match goal with
      | H : ?l = ok _ |- context [?l] => rewrite H
      | H : ?l = true |- context [?l] => rewrite H
      | H : ?l = false |- context [?l] => rewrite H
      end ].

Section BareEjectChanges.
Import Eject.
Variable env : Env.

Lemma extractAndCopy_returns projectRoot spec appJson tb u :
  extractAndCopy env projectRoot spec appJson = (tb, Ret u) ->
  exists tempDir,
    tmp_dirSync env = ok tempDir /\
    tb = [EvTmpDir;
          EvExtractTemplate spec tempDir appJson;
          EvCopy (path_join tempDir "ios") (path_join projectRoot "ios");
          EvCopy (path_join tempDir "android") (path_join projectRoot "android");
          EvTmpRemove tempDir;
          EvLog (plain "Successfully copied template native code.")].
Proof.
  unfold extractAndCopy, log. intros H. returned. subst.
  eexists. split; [eassumption | reflexivity].
Qed.

Lemma updateManifests_returns useYarn exp pkgJson appJson t u :
  updateManifests env useYarn exp pkgJson appJson = (t, Ret u) ->
  exists versions reactNativeVersion written name,
    Versions_versionsAsync env = ok versions /\
    react_native_version exp versions = ok reactNativeVersion /\
    package_json_edits pkgJson reactNativeVersion = ok written /\
    get_prop appJson "name" = ok name /\
    filter mutates t =
      [EvWriteFile (path_resolve env "package.json") (JsonPretty written);
       EvWriteFile (path_resolve env "index.js") (Text (index_js name));
       EvRemove "node_modules";
       install_step useYarn] /\
    In EvVersions t.
Proof.
  unfold updateManifests, log. intros H. returned; subst.
  all: do 4 eexists.
  all: split; [eassumption | ].
  all: split; [unfold react_native_version; use_equations;
               first [eassumption | reflexivity] | ].
  all: split; [unfold package_json_edits; use_equations;
               first [eassumption | reflexivity] | ].
  all: split; [eassumption | ].
  all: split; [reflexivity | cbn; tauto].
Qed.

Lemma run_eq {A} (m : M A) : m = (Run.trace m, Run.result m).
Proof. now destruct m. Qed.

Lemma try_catch_extraction_returns projectRoot spec appJson t u :
  Run.try_catch (extractAndCopy env projectRoot spec appJson) extractionFailed
  = (t, Ret u) ->
  extractAndCopy env projectRoot spec appJson = (t, Ret u).
Proof.
  destruct (extractAndCopy env projectRoot spec appJson) as [tb [[] | e | c]];
    cbn; [auto | discriminate | discriminate].
Qed.

(** A bare eject that returned went through its four blocks. *)
Lemma ejectToBareAsync_returns_inv projectRoot options :
  Run.result (ejectToBareAsync env projectRoot options) = Ret tt ->
  exists v appJson t1 t2 tb tu,
    validateProject env projectRoot = (t1, Ret v) /\
    customizeAppJson env projectRoot (v_appJson v) = (t2, Ret appJson) /\
    extractAndCopy env projectRoot (v_templateSpec v) appJson = (tb, Ret tt) /\
    updateManifests env (v_useYarn v) (v_exp v) (v_pkgJson v) appJson = (tu, Ret tt) /\
    Run.trace (ejectToBareAsync env projectRoot options) = t1 ++ t2 ++ tb ++ tu.
Proof.
  destruct (ejectToBareAsync env projectRoot options) as [t r] eqn:E.
  cbn [Run.result Run.trace fst snd]. intros ->. unfold ejectToBareAsync in E.
  apply bind_inv_ret in E as (t1 & v & r1 & Hv & E & ->).
  apply bind_inv_ret in E as (t2 & appJson & r2 & Hc & E & ->).
  apply bind_inv_ret in E as (tb & [] & tu & Hx & Hu & ->).
  apply try_catch_extraction_returns in Hx.
  exists v, appJson, t1, t2, tb, tu. auto 6.
Qed.

(** The changes of a bare eject that returns, in their order: app.json is
    written first, then the template is extracted into a temporary
    directory from which ios and android are copied before it is removed,
    then package.json and index.js are written, node_modules is removed
    and the packages are installed, with yarn exactly when the project
    uses yarn.  The template is extracted with the app.json that was
    written, and index.js registers the name stored there. *)
Theorem bare_eject_changes_in_order projectRoot options :
  Run.result (ejectToBareAsync env projectRoot options) = Ret tt ->
  exists exp pkgJson spec appJson tempDir versions reactNativeVersion written name,
    ProjectUtils_readConfigJsonAsync env projectRoot = ok (exp, pkgJson) /\
    template_spec_of env exp = ok spec /\
    tmp_dirSync env = ok tempDir /\
    Versions_versionsAsync env = ok versions /\
    react_native_version exp versions = ok reactNativeVersion /\
    package_json_edits pkgJson reactNativeVersion = ok written /\
    get_prop appJson "name" = ok name /\
    filter mutates (Run.trace (ejectToBareAsync env projectRoot options)) =
      [EvWriteFile (path_resolve env "app.json") (JsonPretty appJson);
       EvTmpDir;
       EvExtractTemplate spec tempDir appJson;
       EvCopy (path_join tempDir "ios") (path_join projectRoot "ios");
       EvCopy (path_join tempDir "android") (path_join projectRoot "android");
       EvTmpRemove tempDir;
       EvWriteFile (path_resolve env "package.json") (JsonPretty written);
       EvWriteFile (path_resolve env "index.js") (Text (index_js name));
       EvRemove "node_modules";
       install_step (ConfigUtils_isUsingYarn env projectRoot)].
Proof.
  intros R.
  destruct (ejectToBareAsync_returns_inv projectRoot options R)
    as (v & appJson & t1 & t2 & tb & tu & Hv & Hc & Hx & Hu & ->).
  pose proof (validateProject_quiet env projectRoot) as Q1.
  unfold Run.every in Q1. rewrite Hv in Q1. cbn [Run.trace fst] in Q1.
  apply quiet_no_mutations in Q1.
  apply validateProject_returns in Hv as (Hread & _ & _ & _ & Hspec & _ & Hy & _).
  destruct (customizeAppJson_returns env _ _ _ _ Hc)
    as (tn & d & n & a1 & a2 & expo & ep & Hn & _ & _ & _ & _ & _ & Ht2).
  assert (Q2 : filter mutates t2
               = [EvWriteFile (path_resolve env "app.json") (JsonPretty appJson)]).
  { pose proof (getAppNamesAsync_quiet env projectRoot) as Qn.
    unfold Run.every in Qn. rewrite Hn in Qn. cbn [Run.trace fst] in Qn.
    apply quiet_no_mutations in Qn. rewrite Ht2, !filter_app, Qn.
    destruct (custom_entry ep); reflexivity. }
  apply extractAndCopy_returns in Hx as (tempDir & Htmp & ->).
  apply updateManifests_returns in Hu
    as (versions & rn & written & name & Hvs & Hrn & Hed & Hname & Hmu & _).
  exists (v_exp v), (v_pkgJson v), (v_templateSpec v), appJson, tempDir,
    versions, rn, written, name.
  repeat (split; [assumption | ]).
  rewrite !filter_app, Q1, Q2, Hmu, Hy. reflexivity.
Qed.

(** A failed extraction is not undone.  app.json has been rewritten by
    then and stays rewritten, nothing is removed, and the temporary
    directory is removed only when that removal is itself what failed. *)
Theorem failed_extraction_is_not_undone
        projectRoot options v appJson t1 t2 tb e :
  validateProject env projectRoot = (t1, Ret v) ->
  customizeAppJson env projectRoot (v_appJson v) = (t2, Ret appJson) ->
  extractAndCopy env projectRoot (v_templateSpec v) appJson = (tb, Throw e) ->
  let t := Run.trace (ejectToBareAsync env projectRoot options) in
  In (EvWriteFile (path_resolve env "app.json") (JsonPretty appJson)) t /\
  filter mutates t
    = EvWriteFile (path_resolve env "app.json") (JsonPretty appJson)
        :: filter mutates tb /\
  (forall p, ~ In (EvRemove p) t) /\
  (forall tempDir, In (EvTmpRemove tempDir) t ->
     tmp_removeCallback env tempDir = fails e) /\
  (forall tempDir,
     tmp_dirSync env = ok tempDir ->
     Exp_extractTemplateAppAsync env (v_templateSpec v) tempDir appJson = ok tt ->
     fse_copySync env (path_join tempDir "ios") (path_join projectRoot "ios") = ok tt ->
     In (EvCopy (path_join tempDir "ios") (path_join projectRoot "ios")) t).
Proof.
  intros Hv Hc Hx t.
  assert (E : t = t1 ++ t2 ++ tb ++ failure_report e).
  { unfold t. now rewrite (ejectToBareAsync_extraction_throws env projectRoot
                             options v appJson t1 t2 tb e Hv Hc Hx). }
  pose proof (validateProject_quiet env projectRoot) as Q1.
  unfold Run.every in Q1. rewrite Hv in Q1. cbn [Run.trace fst] in Q1.
  destruct (customizeAppJson_returns env _ _ _ _ Hc)
    as (tn & d & n & a1 & a2 & expo & ep & Hn & _ & _ & _ & _ & _ & Ht2).
  pose proof (getAppNamesAsync_quiet env projectRoot) as Qn.
  unfold Run.every in Qn. rewrite Hn in Qn. cbn [Run.trace fst] in Qn.
  assert (Q2 : filter mutates t2
               = [EvWriteFile (path_resolve env "app.json") (JsonPretty appJson)]).
  { rewrite Ht2, !filter_app, (quiet_no_mutations _ Qn).
    destruct (custom_entry ep); reflexivity. }
  assert (M : filter mutates t
              = EvWriteFile (path_resolve env "app.json") (JsonPretty appJson)
                  :: filter mutates tb).
  { rewrite E, !filter_app, (quiet_no_mutations _ Q1), Q2. cbn.
    now rewrite app_nil_r. }
  assert (Mem : forall ev, mutates ev = true -> In ev t ->
                  ev = EvWriteFile (path_resolve env "app.json") (JsonPretty appJson)
                  \/ In ev tb).
  { intros ev Hm Hin.
    assert (Hf : In ev (filter mutates t)) by (apply filter_In; now split).
    rewrite M in Hf. destruct Hf as [<- | Hf]; [now left | right].
    now apply filter_In in Hf. }
  (* what the try block did before it threw *)
  unfold extractAndCopy, log in Hx.
  split; [ | split; [exact M | split; [ | split]]].
  - apply (proj1 (filter_In mutates _ t)). rewrite M. now left.
  - intros p Hin. apply Mem in Hin as [Hin | Hin]; [discriminate | | reflexivity].
    destruct (tmp_dirSync env) as [e0 | tmp]; cbn in Hx.
    { injection Hx as <- _. destruct Hin as [Hin | []]; discriminate. }
    destruct (Exp_extractTemplateAppAsync env _ tmp appJson) as [e0 | []]; cbn in Hx.
    { injection Hx as <- _.
      repeat (destruct Hin as [Hin | Hin]; [discriminate | ]). destruct Hin. }
    destruct (fse_copySync env (path_join tmp "ios") _) as [e0 | []]; cbn in Hx.
    { injection Hx as <- _.
      repeat (destruct Hin as [Hin | Hin]; [discriminate | ]). destruct Hin. }
    destruct (fse_copySync env (path_join tmp "android") _) as [e0 | []]; cbn in Hx.
    { injection Hx as <- _.
      repeat (destruct Hin as [Hin | Hin]; [discriminate | ]). destruct Hin. }
    destruct (tmp_removeCallback env tmp) as [e0 | []]; cbn in Hx.
    { injection Hx as <- _.
      repeat (destruct Hin as [Hin | Hin]; [discriminate | ]). destruct Hin. }
    discriminate.
  - intros tempDir Hin. apply Mem in Hin as [Hin | Hin]; [discriminate | | reflexivity].
    destruct (tmp_dirSync env) as [e0 | tmp]; cbn in Hx.
    { injection Hx as <- _. destruct Hin as [Hin | []]; discriminate. }
    destruct (Exp_extractTemplateAppAsync env _ tmp appJson) as [e0 | []]; cbn in Hx.
    { injection Hx as <- _.
      repeat (destruct Hin as [Hin | Hin]; [discriminate | ]). destruct Hin. }
    destruct (fse_copySync env (path_join tmp "ios") _) as [e0 | []]; cbn in Hx.
    { injection Hx as <- _.
      repeat (destruct Hin as [Hin | Hin]; [discriminate | ]). destruct Hin. }
    destruct (fse_copySync env (path_join tmp "android") _) as [e0 | []]; cbn in Hx.
    { injection Hx as <- _.
      repeat (destruct Hin as [Hin | Hin]; [discriminate | ]). destruct Hin. }
    destruct (tmp_removeCallback env tmp) as [e0 | []] eqn:Hrm; cbn in Hx.
    { injection Hx as <- <-.
      repeat (destruct Hin as [Hin | Hin];
              [first [discriminate | injection Hin as <-; exact Hrm] | ]).
      destruct Hin. }
    discriminate.
  - intros tempDir Htmp Hex Hios. rewrite E.
    apply in_or_app; right. apply in_or_app; right. apply in_or_app; left.
    rewrite Htmp in Hx. cbn in Hx. rewrite Hex in Hx. cbn in Hx.
    rewrite Hios in Hx. cbn in Hx.
    destruct (fse_copySync env (path_join tempDir "android") _) as [e0 | []];
      cbn in Hx.
    { injection Hx as <- _. cbn. tauto. }
    destruct (tmp_removeCallback env tempDir) as [e0 | []]; cbn in Hx.
    { injection Hx as <- _. cbn. tauto. }
    discriminate.
Qed.
End BareEjectChanges.

Section PackageJson.
Import Eject.
Variable env : Env.

Lemma lookup_absent k props :
  ~ In k (map fst props) -> lookup k props = JUndefined.
Proof.
  induction props as [ | [k' v'] props IH]; cbn; [reflexivity | ].
  intros N. destruct (String.eqb k' k) eqn:E.
  - apply String.eqb_eq in E. tauto.
  - apply IH. tauto.
Qed.

Lemma lookup_remove_same k props :
  NoDup (map fst props) -> lookup k (remove k props) = JUndefined.
Proof.
  induction props as [ | [k' v'] props IH]; cbn; [reflexivity | ].
  intros N. inversion N as [ | ? ? Hnot Hrest]; subst.
  destruct (String.eqb k' k) eqn:E.
  - apply String.eqb_eq in E. subst. now apply lookup_absent.
  - cbn. rewrite E. now apply IH.
Qed.

Lemma same_answer {A} (x : throws A) a b : x = ok a -> x = ok b -> a = b.
Proof. unfold ok. congruence. Qed.

(** What the edits of the package manifest leave in it. *)
Lemma package_json_edits_spec pkgJson rn written :
  package_json_edits pkgJson rn = ok written ->
  exists scripts deps,
    get_prop written "scripts" = ok scripts /\
    get_prop scripts "start" = ok (JStr "react-native start") /\
    get_prop scripts "ios" = ok (JStr "react-native run-ios") /\
    get_prop scripts "android" = ok (JStr "react-native run-android") /\
    get_prop written "dependencies" = ok deps /\
    get_prop deps "react-native" = ok rn /\
    get_prop deps "react-native-unimodules" = ok (JStr "^0.4.1") /\
    (forall k, k <> "scripts" -> k <> "dependencies" ->
       get_prop written k = get_prop pkgJson k) /\
    (forall old, get_prop pkgJson "scripts" = ok old -> truthy old = true ->
       forall k, k <> "eject" -> k <> "start" -> k <> "ios" -> k <> "android" ->
         get_prop scripts k = get_prop old k) /\
    (forall props, get_prop pkgJson "scripts" = ok (JObj props) ->
       NoDup (map fst props) -> get_prop scripts "eject" = ok JUndefined) /\
    (get_prop pkgJson "scripts" = ok JUndefined ->
       scripts = JObj [("start", JStr "react-native start");
                       ("ios", JStr "react-native run-ios");
                       ("android", JStr "react-native run-android")]) /\
    (forall old, get_prop pkgJson "dependencies" = ok old ->
       forall k, k <> "react-native" -> k <> "react-native-unimodules" ->
         get_prop deps k = get_prop old k).
Proof.
  unfold package_json_edits, and_then. intros H.
  destruct (get_prop pkgJson "scripts") as [e | sc0] eqn:G0; [discriminate | ].
  destruct (if falsy sc0 then set_prop pkgJson "scripts" (JObj []) else ok pkgJson)
    as [e | p1] eqn:P1; [discriminate | ].
  destruct (modify_prop p1 "scripts" _) as [e | p2] eqn:M1; [discriminate | ].
  destruct (modify_prop p2 "scripts" _) as [e | p3] eqn:M2; [discriminate | ].
  destruct (modify_prop p3 "scripts" _) as [e | p4] eqn:M3; [discriminate | ].
  destruct (modify_prop p4 "scripts" _) as [e | p5] eqn:M4; [discriminate | ].
  destruct (modify_prop p5 "dependencies" _) as [e | p6] eqn:M5; [discriminate | ].
  apply modify_prop_get in M1 as (i1 & j1 & A1 & B1 & C1 & D1).
  apply modify_prop_get in M2 as (i2 & j2 & A2 & B2 & C2 & D2).
  apply modify_prop_get in M3 as (i3 & j3 & A3 & B3 & C3 & D3).
  apply modify_prop_get in M4 as (i4 & j4 & A4 & B4 & C4 & D4).
  apply modify_prop_get in M5 as (i5 & j5 & A5 & B5 & C5 & D5).
  apply modify_prop_get in H as (i6 & j6 & A6 & B6 & C6 & D6).
  pose proof (same_answer _ _ _ C1 A2) as <-.
  pose proof (same_answer _ _ _ C2 A3) as <-.
  pose proof (same_answer _ _ _ C3 A4) as <-.
  pose proof (same_answer _ _ _ C5 A6) as <-.
  pose proof B2 as B2'. pose proof B3 as B3'. pose proof B4 as B4'.
  apply set_prop_get in B2 as [S2 O2].
  apply set_prop_get in B3 as [S3 O3].
  apply set_prop_get in B4 as [S4 O4].
  apply set_prop_get in B5 as [S5 O5].
  apply set_prop_get in B6 as [S6 O6].
  (* the first step: scripts is there, or becomes the empty object *)
  assert (F1 : (forall k, k <> "scripts" -> get_prop p1 k = get_prop pkgJson k) /\
               get_prop p1 "scripts"
               = ok (if falsy sc0 then JObj [] else sc0)).
  { destruct (falsy sc0).
    - apply set_prop_get in P1 as [P1 P1']. now split.
    - unfold ok in P1. injection P1 as <-. now split. }
  destruct F1 as [O1 G1].
  pose proof (same_answer _ _ _ G1 A1) as <-.
  exists j4, j6.
  split; [rewrite D6, D5 by discriminate; exact C4 | ].
  split; [rewrite O4, O3 by discriminate; exact S2 | ].
  split; [rewrite O4 by discriminate; exact S3 | ].
  split; [exact S4 | ].
  split; [exact C6 | ].
  split; [rewrite O6 by discriminate; exact S5 | ].
  split; [exact S6 | ].
  split.
  { intros k K1 K2. now rewrite D6, D5, D4, D3, D2, D1, O1. }
  split.
  { intros old Hold T k K1 K2 K3 K4.
    unfold ok in Hold. injection Hold as ->.
    unfold falsy in B1. rewrite T in B1. cbn [negb] in B1.
    rewrite O4, O3, O2 by assumption.
    now apply (delete_prop_get _ _ _ B1). }
  split.
  { intros props Hold N.
    unfold ok in Hold. injection Hold as ->.
    cbn in B1. unfold ok in B1. injection B1 as <-.
    rewrite O4, O3, O2 by discriminate. cbn.
    now rewrite lookup_remove_same. }
  split.
  { intros Hold. unfold ok in Hold. injection Hold as ->.
    cbn in B1. unfold ok in B1. injection B1 as <-.
    cbn in B2'. unfold ok in B2'. injection B2' as <-.
    cbn in B3'. unfold ok in B3'. injection B3' as <-.
    cbn in B4'. unfold ok in B4'. injection B4' as <-.
    reflexivity. }
  intros old Hold k K1 K2.
  rewrite O6, O5 by assumption.
  assert (get_prop p5 "dependencies" = get_prop pkgJson "dependencies") as Hd.
  { now rewrite D4, D3, D2, D1, O1. }
  rewrite Hd in A5. now rewrite (same_answer _ _ _ A5 Hold).
Qed.

(** The package.json that a bare eject writes.  Its start, ios and android
    scripts are the React Native ones and the eject script is gone; its
    dependencies have react-native at the version the SDK of the project
    asks for and react-native-unimodules at ^0.4.1; every other script,
    dependency and top-level property is as it was read, the main entry
    included, which is deleted only after the file has been written. *)
Theorem updateManifests_writes_package_json useYarn exp pkgJson appJson t u :
  updateManifests env useYarn exp pkgJson appJson = (t, Ret u) ->
  exists versions reactNativeVersion written scripts deps,
    Versions_versionsAsync env = ok versions /\
    react_native_version exp versions = ok reactNativeVersion /\
    In (EvWriteFile (path_resolve env "package.json") (JsonPretty written)) t /\
    get_prop written "scripts" = ok scripts /\
    get_prop scripts "start" = ok (JStr "react-native start") /\
    get_prop scripts "ios" = ok (JStr "react-native run-ios") /\
    get_prop scripts "android" = ok (JStr "react-native run-android") /\
    get_prop written "dependencies" = ok deps /\
    get_prop deps "react-native" = ok reactNativeVersion /\
    get_prop deps "react-native-unimodules" = ok (JStr "^0.4.1") /\
    get_prop written "main" = get_prop pkgJson "main" /\
    (forall k, k <> "scripts" -> k <> "dependencies" ->
       get_prop written k = get_prop pkgJson k) /\
    (forall old, get_prop pkgJson "scripts" = ok old -> truthy old = true ->
       forall k, k <> "eject" -> k <> "start" -> k <> "ios" -> k <> "android" ->
         get_prop scripts k = get_prop old k) /\
    (forall props, get_prop pkgJson "scripts" = ok (JObj props) ->
       NoDup (map fst props) -> get_prop scripts "eject" = ok JUndefined) /\
    (get_prop pkgJson "scripts" = ok JUndefined ->
       scripts = JObj [("start", JStr "react-native start");
                       ("ios", JStr "react-native run-ios");
                       ("android", JStr "react-native run-android")]) /\
    (forall old, get_prop pkgJson "dependencies" = ok old ->
       forall k, k <> "react-native" -> k <> "react-native-unimodules" ->
         get_prop deps k = get_prop old k).
Proof.
  intros H.
  apply updateManifests_returns in H
    as (versions & rn & written & name & Hvs & Hrn & Hed & _ & Hmu & _).
  apply package_json_edits_spec in Hed
    as (scripts & deps & P1 & P2 & P3 & P4 & P5 & P6 & P7 & P8 & P9 & P10 & P11 & P12).
  exists versions, rn, written, scripts, deps.
  split; [exact Hvs | ]. split; [exact Hrn | ].
  split.
  { apply (proj1 (filter_In mutates _ t)). rewrite Hmu. now left. }
  repeat (split; [assumption | ]).
  split; [apply P8; discriminate | ].
  repeat (split; [assumption | ]). assumption.
Qed.
End PackageJson.

(** * Where a bare eject may act *)

(** The places a bare eject touches: three files under the working
    directory, two directories under the project root, node_modules, a
    temporary directory, and the install command. *)
Definition confined (env : Eject.Env) (projectRoot : string)
           (ev : Eject.event) : bool :=
  match ev with
  | Eject.EvWriteFile p _ =>
      String.eqb p (Eject.path_resolve env "app.json")
      || String.eqb p (Eject.path_resolve env "package.json")
      || String.eqb p (Eject.path_resolve env "index.js")
  | Eject.EvCopy _ dst =>
      String.eqb dst (Eject.path_join projectRoot "ios")
      || String.eqb dst (Eject.path_join projectRoot "android")
  | Eject.EvRemove p => String.eqb p "node_modules"
  | Eject.EvSpawnSync command _ _ =>
      String.eqb command "yarnpkg" || String.eqb command "npm"
  | Eject.EvLogin | Eject.EvDetach _ _ | Eject.EvGitStatus
  | Eject.EvLogNested _ => false
  | Eject.EvPrompt questions _ => (length questions =? 2)%nat
  | _ => true
  end.

Ltac walk_confined :=
  repeat first
    [ solve [ auto with eject ]
    | progress cbv zeta
    | apply every_ret | apply every_throw | apply every_exit
    | apply every_lift
    | apply every_emit;
      cbn; rewrite ?String.eqb_refl, ?orb_true_r; reflexivity
    | apply every_call;
      cbn; rewrite ?String.eqb_refl, ?orb_true_r; reflexivity
    | apply every_bind; [ | intros ]
    | apply every_try_catch; [ | intros ]
    | match goal with
      | |- Run.every _ (match ?x with _ => _ end) => destruct x
      end ].

Section Confined.
Import Eject.
Variable env : Env.

Lemma read_appJson_confined projectRoot configPath configName :
  Run.every (confined env projectRoot) (read_appJson env configPath configName).
Proof. now apply read_appJson_every. Qed.

#[local] Hint Resolve read_appJson_confined : eject.

Lemma ejectToBareAsync_confined projectRoot options :
  Run.every (confined env projectRoot) (ejectToBareAsync env projectRoot options).
Proof.
  unfold ejectToBareAsync, validateProject, customizeAppJson, getAppNamesAsync,
    extractAndCopy, extractionFailed, updateManifests, log.
  walk_confined.
Qed.

End Confined.

(** * More about prepareJob *)

Section PrepareJobOrder.
Import PrepareJob.
Context {Config Job : Type}.
Variable tools : Tools Config Job.

(** The steps of prepareJob for a supported pair.  A preparation that
    throws ends the run before anything is printed or validated; a job that
    was prepared is printed on the console first and validated second, so a
    job the schema rejects has been printed all the same, and the error
    thrown is then the one of the schema. *)
Theorem prepareJob_prints_before_validating options url dir cfg which :
  BuildConfig_read tools dir = ok cfg ->
  matching_preparer (platform options) (config_type tools cfg) = Some which ->
  (forall e, run_preparer tools which cfg url dir = fails e ->
     prepareJob tools options url dir
     = ([EvRead dir; EvPrepare which cfg url dir], Throw e)) /\
  (forall job, run_preparer tools which cfg url dir = ok job ->
     Run.trace (prepareJob tools options url dir)
     = [EvRead dir; EvPrepare which cfg url dir;
        EvConsoleLog job; EvValidate job]) /\
  (forall job e, run_preparer tools which cfg url dir = ok job ->
     snd (JobSchema_validate tools job) = Some e ->
     prepareJob tools options url dir
     = ([EvRead dir; EvPrepare which cfg url dir;
         EvConsoleLog job; EvValidate job], Throw e)) /\
  (forall job, In (EvConsoleLog job) (Run.trace (prepareJob tools options url dir)) ->
     run_preparer tools which cfg url dir = ok job).
Proof.
  intros Hread Hm.
  rewrite (prepareJob_dispatch tools _ _ _ _ _ Hread Hm).
  destruct (run_preparer tools which cfg url dir) as [e | job].
  - split; [now intros e' [= <-] | ].
    split; [discriminate | ]. split; [discriminate | ].
    intros job [Hin | [Hin | []]]; discriminate.
  - assert (E : (_ <- Run.call (EvRead dir) (ok cfg) ;;
                 job0 <- Run.call (EvPrepare which cfg url dir) (inr job) ;;
                 validateJob tools job0)
                = ([EvRead dir; EvPrepare which cfg url dir;
                    EvConsoleLog job; EvValidate job],
                   match snd (JobSchema_validate tools job) with
                   | None => Ret (fst (JobSchema_validate tools job))
                   | Some e => Throw e
                   end)).
    { cbn [Run.call Run.bind ok]. rewrite validateJob_spec. reflexivity. }
    rewrite E. split; [discriminate | ].
    split; [now intros job' [= <-] | ].
    split; [intros job' e [= <-] V; now rewrite V | ].
    intros job' Hin. cbn in Hin.
    destruct Hin as [Hin | [Hin | [Hin | [Hin | []]]]]; try discriminate.
    now injection Hin as <-.
Qed.
End PrepareJobOrder.

(** * Further runs on the sample machines *)

Module SampleRuns.
Import Eject.

(** A project configured through a file of another name. *)
Definition env_custom_config : Env :=
  {| git_status := git_status Sample.env;
     prompt := prompt Sample.env;
     loginOrRegisterIfLoggedOut := loginOrRegisterIfLoggedOut Sample.env;
     Detach_detachAsync := Detach_detachAsync Sample.env;
     ConfigUtils_isUsingYarn := fun _ => false;
     ConfigUtils_findConfigFileAsync := fun root =>
       ok (path_join root "staging.json", "staging.json");
     ProjectUtils_readConfigJsonAsync := ProjectUtils_readConfigJsonAsync Sample.env;
     ConfigUtils_readConfigJsonAsync := ConfigUtils_readConfigJsonAsync Sample.env;
     fse_readFile := fse_readFile Sample.env;
     JSON_parse := JSON_parse Sample.env;
     Versions_gteSdkVersion := Versions_gteSdkVersion Sample.env;
     global_semver := global_semver Sample.env;
     npmPackageArg := npmPackageArg Sample.env;
     pacote_manifest := pacote_manifest Sample.env;
     cwd := cwd Sample.env;
     fse_writeFile := fse_writeFile Sample.env;
     tmp_dirSync := tmp_dirSync Sample.env;
     Exp_extractTemplateAppAsync := Exp_extractTemplateAppAsync Sample.env;
     fse_copySync := fse_copySync Sample.env;
     tmp_removeCallback := tmp_removeCallback Sample.env;
     Versions_versionsAsync := Versions_versionsAsync Sample.env;
     fse_remove := fse_remove Sample.env |}.

(** The machine [e] with another answer of ConfigUtils.readConfigJsonAsync. *)
Definition with_config (read : string -> throws (jsval * jsval)) (e : Env) : Env :=
  {| git_status := git_status e;
     prompt := prompt e;
     loginOrRegisterIfLoggedOut := loginOrRegisterIfLoggedOut e;
     Detach_detachAsync := Detach_detachAsync e;
     ConfigUtils_isUsingYarn := ConfigUtils_isUsingYarn e;
     ConfigUtils_findConfigFileAsync := ConfigUtils_findConfigFileAsync e;
     ProjectUtils_readConfigJsonAsync := ProjectUtils_readConfigJsonAsync e;
     ConfigUtils_readConfigJsonAsync := read;
     fse_readFile := fse_readFile e;
     JSON_parse := JSON_parse e;
     Versions_gteSdkVersion := Versions_gteSdkVersion e;
     global_semver := global_semver e;
     npmPackageArg := npmPackageArg e;
     pacote_manifest := pacote_manifest e;
     cwd := cwd e;
     fse_writeFile := fse_writeFile e;
     tmp_dirSync := tmp_dirSync e;
     Exp_extractTemplateAppAsync := Exp_extractTemplateAppAsync e;
     fse_copySync := fse_copySync e;
     tmp_removeCallback := tmp_removeCallback e;
     Versions_versionsAsync := Versions_versionsAsync e;
     fse_remove := fse_remove e |}.

(** A package.json whose name is the number 42. *)
Definition pkg_numeric_name : jsval := JObj [("name", JNum 42)].

(** The project of another configuration file, with that package.json. *)
Definition env_custom_numeric_name : Env :=
  with_config (fun _ => ok (Sample.exp_33, pkg_numeric_name)) env_custom_config.

End SampleRuns.

Lemma validators_and_stripDashes_witness :
  Eject.validate_name "my-app"
  = Eject.Invalid "Project name cannot contain hyphens or spaces." /\
  Eject.validate_name (Eject.stripDashes "my-app") = Eject.Valid.
Proof.
  split.
  - apply (proj1 (proj2 (proj2 (proj2 (validators_and_stripDashes "my-app")))));
      discriminate.
  - apply (proj1 (proj2 (validators_and_stripDashes "my-app"))). discriminate.
Defined.


Lemma ejectAsync_exits_only_after_failure_report_witness :
  exists t0,
    Eject.resolved_method Sample.env_offline Sample.bare
    = (t0, Ret (Eject.JStr "bare")).
Proof.
  apply (ejectAsync_exits_only_after_failure_report
           Sample.env_offline "/work" Sample.bare 1%Z).
  vm_compute. reflexivity.
Defined.

Lemma ejectAsync_untouched_unless_ejecting_witness :
  forallb Eject.quiet
          (Run.trace (Eject.ejectAsync Sample.env "/work" SampleMore.cancel))
  = true /\
  Run.result (Eject.ejectAsync Sample.env "/work" SampleMore.cancel) <> Exit 0.
Proof.
  destruct (ejectAsync_untouched_unless_ejecting Sample.env "/work"
              SampleMore.cancel) as (Q & _ & S).
  - intros t0. vm_compute. discriminate.
  - intros t0. vm_compute. discriminate.
  - split; [exact Q | apply S].
Defined.

Lemma ejectToBareAsync_validation_messages_witness :
  Run.result (Eject.ejectToBareAsync Sample.env_sdk32 "/work" Sample.bare)
  = Throw (Error "Ejecting to a bare project is only available for SDK 33 and higher") /\
  Run.result (Eject.ejectToBareAsync SampleMore.env_no_template "/work" Sample.bare)
  = Throw (Error "Unable to eject because an eject template for SDK 33 was not found").
Proof.
  split.
  - rewrite (proj1 (proj2 (proj2
      (ejectToBareAsync_validation_messages Sample.env_sdk32 "/work" Sample.bare
         "/work/app.json" "app.json" Sample.exp_33 Sample.pkg_33
         [Eject.EvReadFile "/work/app.json"] Sample.appJson_unnamed
         eq_refl eq_refl eq_refl))) eq_refl eq_refl eq_refl).
    reflexivity.
  - rewrite (proj2 (proj2 (proj2
      (ejectToBareAsync_validation_messages SampleMore.env_no_template "/work"
         Sample.bare "/work/app.json" "app.json" Sample.exp_33 Sample.pkg_33
         [Eject.EvReadFile "/work/app.json"] Sample.appJson_named
         eq_refl eq_refl eq_refl))) eq_refl eq_refl eq_refl
      (Eject.JStr "33.0.0") 33%N "expo-template-bare-minimum@sdk-33"
      (Error "404 Not Found") eq_refl eq_refl eq_refl eq_refl).
    reflexivity.
Defined.

Lemma ejectToBareAsync_without_semver_witness :
  Eject.ejectToBareAsync SampleMore.env_no_semver "/work" Sample.bare
  = ([Eject.EvIsUsingYarn "/work"; Eject.EvFindConfigFile "/work";
      Eject.EvProjectReadConfig "/work"; Eject.EvReadFile "/work/app.json"],
     Throw (ReferenceError "semver is not defined")).
Proof.
  apply (proj2 (ejectToBareAsync_without_semver SampleMore.env_no_semver "/work"
                  Sample.bare eq_refl)
           "/work/app.json" "app.json" Sample.exp_33 Sample.pkg_33
           [Eject.EvReadFile "/work/app.json"] Sample.appJson_unnamed);
    reflexivity.
Defined.

Lemma getAppNamesAsync_returns_the_answers_witness :
  Run.result (Eject.getAppNamesAsync Sample.env "/work")
  = Ret (Eject.JStr "My App", Eject.JStr "myapp").
Proof.
  rewrite (proj1 (getAppNamesAsync_returns_the_answers Sample.env "/work"
             "/work/app.json" Sample.exp_33 Sample.pkg_33 "{ ... }"
             Sample.appJson_unnamed Eject.JUndefined Eject.JUndefined
             (Eject.JStr "my-app") (Eject.JStr "myapp")
             eq_refl eq_refl eq_refl eq_refl eq_refl eq_refl
             (or_introl eq_refl) eq_refl)
           (Eject.JObj [("ejectMethod", Eject.JStr "bare");
                        ("displayName", Eject.JStr "My App");
                        ("name", Eject.JStr "myapp")])
           (Eject.JStr "My App") (Eject.JStr "myapp") eq_refl eq_refl eq_refl).
  reflexivity.
Defined.

Lemma getAppNamesAsync_other_config_file_witness :
  Eject.getAppNamesAsync SampleRuns.env_custom_config "/work"
  = ([Eject.EvFindConfigFile "/work"; Eject.EvConfigReadConfig "/work";
      Eject.EvLog Eject.names_announcement;
      Eject.EvPrompt (Eject.name_questions (Eject.JStr "my-app") (Eject.JStr "myapp"))
                     Eject.names_help],
     Ret (Eject.JStr "My App", Eject.JStr "myapp")) /\
  Eject.getAppNamesAsync SampleRuns.env_custom_numeric_name "/work"
  = ([Eject.EvFindConfigFile "/work"; Eject.EvConfigReadConfig "/work";
      Eject.EvLog Eject.names_announcement],
     Throw (TypeError "s is not iterable")).
Proof.
  split.
  - apply (proj2 (proj2 (proj2 (getAppNamesAsync_other_config_file
             SampleRuns.env_custom_config "/work"
             "/work/staging.json" "staging.json" Sample.exp_33 Sample.pkg_33
             eq_refl ltac:(discriminate) eq_refl)))).
  - apply (proj2 (proj2 (getAppNamesAsync_other_config_file
             SampleRuns.env_custom_numeric_name "/work"
             "/work/staging.json" "staging.json" Sample.exp_33
             SampleRuns.pkg_numeric_name
             eq_refl ltac:(discriminate) eq_refl))).
Defined.

Lemma question_defaults_spec_witness :
  Eject.question_defaults Sample.exp_33 Sample.pkg_33 Eject.JUndefined
  = ok (Eject.JStr "my-app", Eject.JStr "myapp") /\
  Eject.get_prop Sample.exp_33 "name" = ok (Eject.JStr "my-app").
Proof.
  split; [reflexivity | ].
  apply (proj1 (proj2 (proj1 (question_defaults_spec
           Sample.exp_33 Sample.pkg_33 Eject.JUndefined)
           (Eject.JStr "my-app") (Eject.JStr "myapp") eq_refl))).
  reflexivity.
Defined.

Lemma customizeAppJson_writes_names_and_entry_witness :
  exists t a',
    Eject.customizeAppJson Sample.env_named "/work" Sample.appJson_named = (t, Ret a') /\
    Eject.get_prop a' "name" = ok (Eject.JStr "myapp") /\
    filter Eject.mutates t
    = [Eject.EvWriteFile "/work/app.json" (Eject.JsonPretty a')].
Proof.
  destruct (Eject.customizeAppJson Sample.env_named "/work" Sample.appJson_named)
    as [t [a' | e | c]] eqn:E; try (vm_compute in E; discriminate).
  exists t, a'. split; [reflexivity | ].
  destruct (customizeAppJson_writes_names_and_entry Sample.env_named "/work"
              Sample.appJson_named t a' E)
    as (tn & d & n & expo & ep & expo' & Hn & _ & Gn & _ & _ & _ & _ & _ & _ & _ & M).
  split; [ | exact M].
  vm_compute in Hn. injection Hn as _ _ <-. exact Gn.
Defined.

Lemma bare_eject_changes_in_order_witness :
  exists spec tempDir appJson written name,
    filter Eject.mutates
           (Run.trace (Eject.ejectToBareAsync Sample.env "/work" Sample.bare)) =
      [Eject.EvWriteFile "/work/app.json" (Eject.JsonPretty appJson);
       Eject.EvTmpDir;
       Eject.EvExtractTemplate spec tempDir appJson;
       Eject.EvCopy (Eject.path_join tempDir "ios") "/work/ios";
       Eject.EvCopy (Eject.path_join tempDir "android") "/work/android";
       Eject.EvTmpRemove tempDir;
       Eject.EvWriteFile "/work/package.json" (Eject.JsonPretty written);
       Eject.EvWriteFile "/work/index.js" (Eject.Text (Eject.index_js name));
       Eject.EvRemove "node_modules";
       Eject.EvSpawnSync "yarnpkg" [] ["inherit"]].
Proof.
  destruct (bare_eject_changes_in_order Sample.env "/work" Sample.bare)
    as (exp & pkgJson & spec & appJson & tempDir & versions & rn & written
        & name & _ & _ & _ & _ & _ & _ & _ & M);
    [vm_compute; reflexivity | ].
  exists spec, tempDir, appJson, written, name. exact M.
Defined.

Lemma failed_extraction_is_not_undone_witness :
  In (Eject.EvCopy "/tmp/tmp-1/ios" "/work/ios")
     (Run.trace (Eject.ejectToBareAsync SampleMore.env_android_fails "/work"
                                        Sample.bare)) /\
  ~ In (Eject.EvTmpRemove "/tmp/tmp-1")
       (Run.trace (Eject.ejectToBareAsync SampleMore.env_android_fails "/work"
                                          Sample.bare)).
Proof.
  edestruct (failed_extraction_is_not_undone SampleMore.env_android_fails
               "/work" Sample.bare)
    as (_ & _ & _ & R & C);
    [ cbv; reflexivity | cbv; reflexivity | cbv; reflexivity | ].
  split.
  - apply (C "/tmp/tmp-1"); reflexivity.
  - intros Hin. apply R in Hin. discriminate.
Defined.

Lemma updateManifests_writes_package_json_witness :
  exists written scripts,
    In (Eject.EvWriteFile "/work/package.json" (Eject.JsonPretty written))
       (Run.trace (Eject.updateManifests Sample.env true Sample.exp_33
                     Sample.pkg_33 Sample.appJson_named)) /\
    Eject.get_prop written "scripts" = ok scripts /\
    Eject.get_prop scripts "eject" = ok Eject.JUndefined /\
    Eject.get_prop written "main"
    = ok (Eject.JStr "node_modules/expo/AppEntry.js").
Proof.
  destruct (Eject.updateManifests Sample.env true Sample.exp_33 Sample.pkg_33
              Sample.appJson_named) as [t [[] | e | c]] eqn:E;
    try (vm_compute in E; discriminate).
  destruct (updateManifests_writes_package_json Sample.env true Sample.exp_33
              Sample.pkg_33 Sample.appJson_named t tt E)
    as (versions & rn & written & scripts & deps & _ & _ & W & S & _ & _ & _
        & _ & _ & _ & Hmain & _ & _ & Hej & _).
  exists written, scripts. cbn [Run.trace fst].
  split; [exact W | ]. split; [exact S | ]. split.
  - apply (Hej [("start", Eject.JStr "expo start"); ("eject", Eject.JStr "expo eject")]).
    + reflexivity.
    + repeat constructor; cbn; intuition discriminate.
  - rewrite Hmain. reflexivity.
Defined.


Lemma prepareJob_prints_before_validating_witness :
  PrepareJob.prepareJob Sample.tools
    {| PrepareJob.platform := PrepareJob.Android |} EmptyString "/generic"
  = ([PrepareJob.EvRead "/generic";
      PrepareJob.EvPrepare PrepareJob.AndroidGenericJob
        (PrepareJob.Generic, "turtle.json") EmptyString "/generic";
      PrepareJob.EvConsoleLog "android generic ";
      PrepareJob.EvValidate "android generic "],
     Throw (JsError "ValidationError" "projectUrl is required")) /\
  PrepareJob.prepareJob Sample.tools
    {| PrepareJob.platform := PrepareJob.iOS |} "https://example.test/app.tar.gz"
    "/managed"
  = ([PrepareJob.EvRead "/managed";
      PrepareJob.EvPrepare PrepareJob.iOSManagedJob
        (PrepareJob.Managed, "turtle.json") "https://example.test/app.tar.gz"
        "/managed"],
     Throw (Error "no credentials")).
Proof.
  split.
  - apply (proj1 (proj2 (proj2 (prepareJob_prints_before_validating Sample.tools
             {| PrepareJob.platform := PrepareJob.Android |} EmptyString "/generic"
             (PrepareJob.Generic, "turtle.json") PrepareJob.AndroidGenericJob
             eq_refl eq_refl)))); reflexivity.
  - apply (proj1 (prepareJob_prints_before_validating Sample.tools
             {| PrepareJob.platform := PrepareJob.iOS |}
             "https://example.test/app.tar.gz" "/managed"
             (PrepareJob.Managed, "turtle.json") PrepareJob.iOSManagedJob
             eq_refl eq_refl)); reflexivity.
Defined.

(** * What a run depends on

    Two machines give the same answers to an eject of [projectRoot] with
    [options] when they agree wherever the procedure asks: on git, the
    prompts, the login and the detach of this project, its configuration
    and package manager, the files and the registry, the working directory
    and the disk operations.  They may differ on every other project. *)

Record same_answers (projectRoot : string) (options : Eject.Options)
       (e1 e2 : Eject.Env) : Prop := {
  sa_git : Eject.git_status e1 = Eject.git_status e2;
  sa_prompt : forall questions help,
      Eject.prompt e1 questions help = Eject.prompt e2 questions help;
  sa_login : Eject.loginOrRegisterIfLoggedOut e1
             = Eject.loginOrRegisterIfLoggedOut e2;
  sa_detach : Eject.Detach_detachAsync e1 projectRoot options
              = Eject.Detach_detachAsync e2 projectRoot options;
  sa_yarn : Eject.ConfigUtils_isUsingYarn e1 projectRoot
            = Eject.ConfigUtils_isUsingYarn e2 projectRoot;
  sa_find : Eject.ConfigUtils_findConfigFileAsync e1 projectRoot
            = Eject.ConfigUtils_findConfigFileAsync e2 projectRoot;
  sa_project : Eject.ProjectUtils_readConfigJsonAsync e1 projectRoot
               = Eject.ProjectUtils_readConfigJsonAsync e2 projectRoot;
  sa_config : Eject.ConfigUtils_readConfigJsonAsync e1 projectRoot
              = Eject.ConfigUtils_readConfigJsonAsync e2 projectRoot;
  sa_read : forall path, Eject.fse_readFile e1 path = Eject.fse_readFile e2 path;
  sa_parse : forall data, Eject.JSON_parse e1 data = Eject.JSON_parse e2 data;
  sa_gte : forall exp version,
      Eject.Versions_gteSdkVersion e1 exp version
      = Eject.Versions_gteSdkVersion e2 exp version;
  sa_semver : forall version,
      Eject.semver_major e1 version = Eject.semver_major e2 version;
  sa_npa : forall raw, Eject.npmPackageArg e1 raw = Eject.npmPackageArg e2 raw;
  sa_manifest : forall spec,
      Eject.pacote_manifest e1 spec = Eject.pacote_manifest e2 spec;
  sa_cwd : Eject.cwd e1 = Eject.cwd e2;
  sa_write : forall path data,
      Eject.fse_writeFile e1 path data = Eject.fse_writeFile e2 path data;
  sa_tmp : Eject.tmp_dirSync e1 = Eject.tmp_dirSync e2;
  sa_extract : forall spec dir appJson,
      Eject.Exp_extractTemplateAppAsync e1 spec dir appJson
      = Eject.Exp_extractTemplateAppAsync e2 spec dir appJson;
  sa_copy : forall src dst,
      Eject.fse_copySync e1 src dst = Eject.fse_copySync e2 src dst;
  sa_tmp_remove : forall dir,
      Eject.tmp_removeCallback e1 dir = Eject.tmp_removeCallback e2 dir;
  sa_versions : Eject.Versions_versionsAsync e1 = Eject.Versions_versionsAsync e2;
  sa_remove : forall path, Eject.fse_remove e1 path = Eject.fse_remove e2 path
}.

Section Agreement.
Import Eject.
Variables (projectRoot : string) (options : Options) (e1 e2 : Env).
Hypothesis same : same_answers projectRoot options e1 e2.

Lemma bind_cong {A B} (m1 m2 : M A) (f g : A -> M B) :
  m1 = m2 -> (forall a, f a = g a) -> Run.bind m1 f = Run.bind m2 g.
Proof. intros -> H. now apply bind_ext. Qed.

Lemma try_catch_cong {A} (b1 b2 : M A) (h1 h2 : js_error -> M A) :
  b1 = b2 -> (forall e, h1 e = h2 e) -> Run.try_catch b1 h1 = Run.try_catch b2 h2.
Proof.
  intros -> H. destruct b2 as [t [a | e | c]]; cbn; try reflexivity.
  now rewrite H.
Qed.

Lemma path_resolve_agree p : path_resolve e1 p = path_resolve e2 p.
Proof. unfold path_resolve. now rewrite (sa_cwd _ _ _ _ same). Qed.

(** One step of a proof that two runs are the same run: the two sides are
    the same program, over [e1] and over [e2]. *)
Ltac same_run :=
  repeat first
    [ reflexivity
    | progress rewrite ?path_resolve_agree,
        ?(sa_git _ _ _ _ same), ?(sa_prompt _ _ _ _ same),
        ?(sa_login _ _ _ _ same), ?(sa_detach _ _ _ _ same),
        ?(sa_yarn _ _ _ _ same), ?(sa_find _ _ _ _ same),
        ?(sa_project _ _ _ _ same), ?(sa_config _ _ _ _ same),
        ?(sa_read _ _ _ _ same), ?(sa_parse _ _ _ _ same),
        ?(sa_gte _ _ _ _ same), ?(sa_semver _ _ _ _ same),
        ?(sa_npa _ _ _ _ same), ?(sa_manifest _ _ _ _ same),
        ?(sa_write _ _ _ _ same), ?(sa_tmp _ _ _ _ same),
        ?(sa_extract _ _ _ _ same), ?(sa_copy _ _ _ _ same),
        ?(sa_tmp_remove _ _ _ _ same), ?(sa_versions _ _ _ _ same),
        ?(sa_remove _ _ _ _ same)
    | apply bind_cong; [ | intros ]
    | apply try_catch_cong; [ | intros ]
    | match goal with
      | |- (match ?x with _ => _ end) = (match ?x with _ => _ end) => destruct x
      end ].

Lemma read_appJson_agree configPath configName :
  read_appJson e1 configPath configName = read_appJson e2 configPath configName.
Proof. unfold read_appJson. same_run. Qed.

Lemma getAppNamesAsync_agree :
  getAppNamesAsync e1 projectRoot = getAppNamesAsync e2 projectRoot.
Proof.
  unfold getAppNamesAsync. same_run; try apply read_appJson_agree.
Qed.

Lemma validateProject_agree :
  validateProject e1 projectRoot = validateProject e2 projectRoot.
Proof.
  unfold validateProject. same_run; try apply read_appJson_agree.
Qed.

Lemma customizeAppJson_agree appJson :
  customizeAppJson e1 projectRoot appJson = customizeAppJson e2 projectRoot appJson.
Proof.
  unfold customizeAppJson. rewrite getAppNamesAsync_agree. same_run.
Qed.

Lemma extractAndCopy_agree spec appJson :
  extractAndCopy e1 projectRoot spec appJson
  = extractAndCopy e2 projectRoot spec appJson.
Proof. unfold extractAndCopy. same_run. Qed.

Lemma updateManifests_agree useYarn exp pkgJson appJson :
  updateManifests e1 useYarn exp pkgJson appJson
  = updateManifests e2 useYarn exp pkgJson appJson.
Proof. unfold updateManifests. same_run. Qed.

Lemma ejectToBareAsync_agree :
  ejectToBareAsync e1 projectRoot options = ejectToBareAsync e2 projectRoot options.
Proof.
  unfold ejectToBareAsync. rewrite validateProject_agree.
  apply bind_ext; intros v. rewrite customizeAppJson_agree.
  apply bind_ext; intros appJson. rewrite extractAndCopy_agree.
  apply bind_ext; intros _. apply updateManifests_agree.
Qed.

Lemma resolved_method_agree :
  resolved_method e1 options = resolved_method e2 options.
Proof.
  unfold resolved_method, gitWorkingTreeStatus, resolveEjectMethod. same_run.
Qed.

Lemma dispatch_agree method :
  dispatch e1 projectRoot options method = dispatch e2 projectRoot options method.
Proof.
  unfold dispatch. rewrite ejectToBareAsync_agree. same_run.
Qed.

(** The run of ejectAsync is a function of the answers it receives. *)
Lemma ejectAsync_agree :
  ejectAsync e1 projectRoot options = ejectAsync e2 projectRoot options.
Proof.
  rewrite !ejectAsync_resolved, resolved_method_agree.
  apply bind_ext; intros method. apply dispatch_agree.
Qed.
End Agreement.

(** * What the entry points read, write and hand over *)

Section PrepareJobFlow.
Import PrepareJob.
Context {Config Job : Type}.
Variable tools : Tools Config Job.

(** The configuration read from projectDir is what the preparation
    function receives, and the job it answers is what is printed and
    validated: nothing else happens in a run of prepareJob. *)
Lemma prepareJob_flow options url dir :
  Run.trace (prepareJob tools options url dir) = [EvRead dir] \/
  (exists which cfg,
      BuildConfig_read tools dir = ok cfg /\
      Run.trace (prepareJob tools options url dir)
      = [EvRead dir; EvPrepare which cfg url dir]) \/
  (exists which cfg job,
      BuildConfig_read tools dir = ok cfg /\
      run_preparer tools which cfg url dir = ok job /\
      Run.trace (prepareJob tools options url dir)
      = [EvRead dir; EvPrepare which cfg url dir;
         EvConsoleLog job; EvValidate job]).
Proof.
  destruct (BuildConfig_read tools dir) as [e | cfg] eqn:Hread.
  { left. now rewrite (prepareJob_read_fails _ _ _ _ _ Hread). }
  destruct (matching_preparer (platform options) (config_type tools cfg))
    as [which | ] eqn:Hm.
  - rewrite (prepareJob_dispatch _ _ _ _ _ _ Hread Hm).
    destruct (run_preparer tools which cfg url dir) as [e | job] eqn:Hp.
    + right; left. exists which, cfg. split; reflexivity.
    + right; right. exists which, cfg, job.
      split; [reflexivity | ]. split; [exact Hp | ].
      rewrite bind_ret_call, trace_bind. cbn [Run.emit Run.result snd Run.trace fst].
      rewrite bind_ret_call, trace_bind. cbn [Run.emit Run.result snd Run.trace fst].
      now rewrite validateJob_spec.
  - left. now rewrite (prepareJob_outside_matrix _ _ _ _ _ Hread Hm).
Qed.
End PrepareJobFlow.

(** Where an eject of [projectRoot] with [options] may change something:
    the three files it writes in the working directory, the two
    directories it copies into the project, node_modules, the package
    installation, and the project handed to Detach.detachAsync. *)
Definition eject_footprint (env : Eject.Env) (projectRoot : string)
           (options : Eject.Options) (ev : Eject.event) : Prop :=
  match ev with
  | Eject.EvWriteFile p _ =>
      p = Eject.path_resolve env "app.json"
      \/ p = Eject.path_resolve env "package.json"
      \/ p = Eject.path_resolve env "index.js"
  | Eject.EvCopy _ dst =>
      dst = Eject.path_join projectRoot "ios"
      \/ dst = Eject.path_join projectRoot "android"
  | Eject.EvRemove p => p = "node_modules"
  | Eject.EvSpawnSync command _ _ => command = "yarnpkg" \/ command = "npm"
  | Eject.EvDetach root opts => root = projectRoot /\ opts = options
  | _ => True
  end.

Section Footprint.
Import Eject.
Variable env : Env.

Lemma confined_footprint projectRoot options ev :
  confined env projectRoot ev = true ->
  eject_footprint env projectRoot options ev.
Proof.
  intros C. destruct ev; cbn in C |- *; try exact I; try discriminate.
  - apply orb_true_iff in C as [C | C]; [apply orb_true_iff in C as [C | C] | ];
      apply String.eqb_eq in C; auto.
  - apply orb_true_iff in C as [C | C]; apply String.eqb_eq in C; auto.
  - now apply String.eqb_eq in C.
  - apply orb_true_iff in C as [C | C]; apply String.eqb_eq in C; auto.
Qed.

Lemma preamble_footprint projectRoot options ev :
  is_preamble ev = true -> eject_footprint env projectRoot options ev.
Proof. destruct ev; cbn; intros H; try exact I; discriminate. Qed.

Lemma dispatch_footprint projectRoot options method ev :
  In ev (Run.trace (dispatch env projectRoot options method)) ->
  eject_footprint env projectRoot options ev.
Proof.
  destruct (method_kind_of method) as [-> | -> | -> | B X C].
  - rewrite dispatch_bare, trace_bind. intros Hin.
    assert (Hb : In ev (Run.trace (ejectToBareAsync env projectRoot options)) \/
                 ev = EvLog success_message).
    { destruct (Run.result (ejectToBareAsync env projectRoot options));
        [ | now left | now left].
      apply in_app_or in Hin as [Hin | Hin]; [now left | right].
      destruct Hin as [<- | []]. reflexivity. }
    destruct Hb as [Hb | ->]; [ | exact I].
    apply confined_footprint.
    exact (every_In _ _ ev (ejectToBareAsync_confined env projectRoot options) Hb).
  - rewrite dispatch_expokit. unfold expokit_eject, log.
    destruct (loginOrRegisterIfLoggedOut env) as [e | []];
      destruct (Detach_detachAsync env projectRoot options) as [e' | []];
      cbn; intros Hin;
      repeat (destruct Hin as [<- | Hin]; [cbn; auto | ]); contradiction.
  - rewrite dispatch_cancel. cbn. intros [<- | []]. exact I.
  - rewrite (dispatch_other _ _ _ _ B X C). intros [].
Qed.

(** Every interaction of ejectAsync stays within the footprint. *)
Lemma ejectAsync_footprint projectRoot options ev :
  In ev (Run.trace (ejectAsync env projectRoot options)) ->
  eject_footprint env projectRoot options ev.
Proof.
  rewrite ejectAsync_resolved, trace_bind.
  pose proof (resolved_method_preamble env options) as Pre.
  intros Hin.
  assert (Hc : In ev (Run.trace (resolved_method env options)) \/
               exists method,
                 In ev (Run.trace (dispatch env projectRoot options method))).
  { destruct (Run.result (resolved_method env options)) as [method | e | c];
      [ | now left | now left].
    apply in_app_or in Hin as [Hin | Hin]; [now left | right; now exists method]. }
  destruct Hc as [Hc | [method Hc]].
  - apply preamble_footprint. exact (every_In _ _ ev Pre Hc).
  - now apply (dispatch_footprint projectRoot options method).
Qed.

(** The ExpoKit eject: the login, the detach of the project, the success
    message. *)
Lemma ejectAsync_expokit_run projectRoot options t0 :
  resolved_method env options = (t0, Ret (JStr "expokit")) ->
  loginOrRegisterIfLoggedOut env = ok tt ->
  Detach_detachAsync env projectRoot options = ok tt ->
  ejectAsync env projectRoot options
  = (t0 ++ [EvLogin; EvDetach projectRoot options; EvLog success_message],
     Ret tt).
Proof.
  intros R L D. rewrite ejectAsync_resolved, (bind_returns _ _ _ _ R).
  rewrite dispatch_expokit. unfold expokit_eject. rewrite L, D. reflexivity.
Qed.
End Footprint.

(** * More sample worlds *)

Module SampleWorlds.
Import PrepareJob.

(** The machine of [Sample.tools] after the keystore of the generic
    project was replaced: turtle.json reads as before, the job prepared
    for Android carries the new keystore. *)
Definition tools_new_keystore : Tools Sample.Config Sample.Job :=
  {| BuildConfig_read := BuildConfig_read Sample.tools;
     config_type := config_type Sample.tools;
     prepareAndroidGenericJob := fun _ url _ =>
       ok ("android generic, keystore 2, " ^^ url);
     prepareAndroidManagedJob := prepareAndroidManagedJob Sample.tools;
     prepareiOSGenericJob := prepareiOSGenericJob Sample.tools;
     prepareiOSManagedJob := prepareiOSManagedJob Sample.tools;
     JobSchema_validate := JobSchema_validate Sample.tools |}.

Definition android : Options := {| platform := Android |}.
Definition project_url : string := "https://example.test/app.tar.gz".

Import Eject.

Definition expokit : Eject.Options := {| ejectMethod := JStr "expokit" |}.

(** The project of [Sample.env], as Node starts the module, with a
    package.json whose name is the number 42. *)
Definition env_numeric_name : Env :=
  SampleRuns.with_config (fun _ => ok (Sample.exp_33, SampleRuns.pkg_numeric_name))
                         SampleMore.env_no_semver.

(** An app.json whose displayName is false and whose name is given. *)
Definition appJson_displayName_false : jsval :=
  JObj [("expo", Sample.exp_33); ("displayName", JBool false);
        ("name", JStr "myapp")].

Definition env_displayName_false : Env :=
  SampleMore.with_semver None
    (Sample.env_with appJson_displayName_false (ok tt)).

(** The machine of [SampleMore.env_no_semver] seen from the project in
    /work: every other project is missing, uses npm and cannot be
    detached. *)
Definition env_elsewhere : Env :=
  let e := SampleMore.env_no_semver in
  {| git_status := git_status e;
     prompt := prompt e;
     loginOrRegisterIfLoggedOut := loginOrRegisterIfLoggedOut e;
     Detach_detachAsync := fun root opts =>
       if String.eqb root "/work" then Detach_detachAsync e root opts
       else fails (Error "No Expo project found");
     ConfigUtils_isUsingYarn := fun root => String.eqb root "/work";
     ConfigUtils_findConfigFileAsync := fun root =>
       if String.eqb root "/work" then ConfigUtils_findConfigFileAsync e root
       else fails Sample.enoent;
     ProjectUtils_readConfigJsonAsync := fun root =>
       if String.eqb root "/work" then ProjectUtils_readConfigJsonAsync e root
       else fails Sample.enoent;
     ConfigUtils_readConfigJsonAsync := fun root =>
       if String.eqb root "/work" then ConfigUtils_readConfigJsonAsync e root
       else fails Sample.enoent;
     fse_readFile := fse_readFile e;
     JSON_parse := JSON_parse e;
     Versions_gteSdkVersion := Versions_gteSdkVersion e;
     global_semver := global_semver e;
     npmPackageArg := npmPackageArg e;
     pacote_manifest := pacote_manifest e;
     cwd := cwd e;
     fse_writeFile := fse_writeFile e;
     tmp_dirSync := tmp_dirSync e;
     Exp_extractTemplateAppAsync := Exp_extractTemplateAppAsync e;
     fse_copySync := fse_copySync e;
     tmp_removeCallback := tmp_removeCallback e;
     Versions_versionsAsync := Versions_versionsAsync e;
     fse_remove := fse_remove e |}.

End SampleWorlds.

(** * The names, the changes and the answers: the claims *)

(** C4 as stated fails in both directions.  With neither name in app.json
    and a package.json whose name is the number 42, the announcement is
    printed, computing the default of the name question throws, and no
    prompt is issued.  With a displayName that is false and a name that is
    given, neither is absent or empty, and the prompt is issued. *)
Lemma getAppNamesAsync_prompt_counterexample :
  Eject.get_prop Sample.appJson_unnamed "displayName" = ok Eject.JUndefined /\
  Eject.get_prop Sample.appJson_unnamed "name" = ok Eject.JUndefined /\
  Eject.getAppNamesAsync SampleWorlds.env_numeric_name "/work"
  = ([Eject.EvFindConfigFile "/work"; Eject.EvConfigReadConfig "/work";
      Eject.EvReadFile "/work/app.json"; Eject.EvLog Eject.names_announcement],
     Throw (TypeError "s is not iterable")) /\
  existsb is_prompt
          (Run.trace (Eject.getAppNamesAsync SampleWorlds.env_numeric_name "/work"))
  = false /\
  Eject.absent_or_empty (Eject.JBool false) = false /\
  Eject.absent_or_empty (Eject.JStr "myapp") = false /\
  existsb is_prompt
          (Run.trace (Eject.getAppNamesAsync SampleWorlds.env_displayName_false
                                             "/work"))
  = true.
Proof. repeat split; vm_compute; reflexivity. Qed.

Lemma getAppNamesAsync_prompts_when_a_name_is_falsy_witness :
  Eject.getAppNamesAsync Sample.env_named "/work"
  = ([Eject.EvFindConfigFile "/work"; Eject.EvConfigReadConfig "/work";
      Eject.EvReadFile "/work/app.json"],
     Ret (Eject.JStr "My App", Eject.JStr "myapp")) /\
  Eject.getAppNamesAsync Sample.env "/work"
  = ([Eject.EvFindConfigFile "/work"; Eject.EvConfigReadConfig "/work";
      Eject.EvReadFile "/work/app.json";
      Eject.EvLog Eject.names_announcement;
      Eject.EvPrompt (Eject.name_questions (Eject.JStr "my-app")
                                           (Eject.JStr "myapp"))
                     Eject.names_help],
     Ret (Eject.JStr "My App", Eject.JStr "myapp")) /\
  Eject.getAppNamesAsync SampleWorlds.env_numeric_name "/work"
  = ([Eject.EvFindConfigFile "/work"; Eject.EvConfigReadConfig "/work";
      Eject.EvReadFile "/work/app.json"; Eject.EvLog Eject.names_announcement],
     Throw (TypeError "s is not iterable")).
Proof.
  split; [ | split].
  - apply (proj1 (getAppNamesAsync_prompts_when_a_name_is_falsy
                    Sample.env_named "/work" "/work/app.json"
                    Sample.exp_33 Sample.pkg_33 "{ ... }" Sample.appJson_named
                    (Eject.JStr "My App") (Eject.JStr "myapp")
                    eq_refl eq_refl eq_refl eq_refl eq_refl eq_refl));
      reflexivity.
  - exact (proj1 (proj2 (getAppNamesAsync_prompts_when_a_name_is_falsy
                    Sample.env "/work" "/work/app.json"
                    Sample.exp_33 Sample.pkg_33 "{ ... }" Sample.appJson_unnamed
                    Eject.JUndefined Eject.JUndefined
                    eq_refl eq_refl eq_refl eq_refl eq_refl eq_refl))
                 (or_introl eq_refl)).
  - exact (proj1 (proj2 (getAppNamesAsync_prompts_when_a_name_is_falsy
                    SampleWorlds.env_numeric_name "/work" "/work/app.json"
                    Sample.exp_33 SampleRuns.pkg_numeric_name "{ ... }"
                    Sample.appJson_unnamed
                    Eject.JUndefined Eject.JUndefined
                    eq_refl eq_refl eq_refl eq_refl eq_refl eq_refl))
                 (or_introl eq_refl)).
Defined.






